(** * Dashboard: indicator pipeline, breakout scanner and option Greeks

    A shallow embedding of the numeric core of the repository:
    - [src/analysis/technical.py]   (moving averages, RSI, MACD, bands, crossovers),
    - [src/analysis/patterns.py]    (consolidation, 52-week statistics),
    - [src/scanner/breakout_scanner.py] (per-ticker signals, batch scan, ranking),
    - [src/options/greeks.py]       (Black-Scholes price and Greeks).

    Numbers.  The Python code computes in IEEE double precision.  The
    embedding keeps the special values of that arithmetic (NaN and the two
    infinities, and how division by zero produces them) and idealises the
    finite part: a finite value is an exact rational, kept in lowest terms.
    Rounding, overflow and the sign of zero are not modelled.

    Exceptions.  A Python function that can raise returns a [pyres]; a
    [try]/[except Exception] turns every [Raise] into the handler's value.

    Objects.  A pandas DataFrame is a value (its OHLCV rows plus the named
    columns added to it).  Where the code copies a frame and assigns
    columns to the copy ([add_all_indicators]) frames live in a store and
    are addressed by location. *)

From stdpp Require Import gmap strings.
From Stdlib Require Import QArith Qabs Qminmax Lqa Lia List Permutation Sorted.
Import ListNotations.

(* ===================================================================== *)
(** ** Idealised double-precision values *)
(* ===================================================================== *)

Module Float.

Local Open Scope Q_scope.

Inductive F64 : Type :=
| Fin (q : Q)
| PosInf
| NegInf
| NaN.

(** A finite result, in lowest terms. *)
Definition fin (q : Q) : F64 := Fin (Qred q).

Definition Qltb (a b : Q) : bool := negb (Qle_bool b a).

Definition is_nan (x : F64) : bool :=
  match x with NaN => true | _ => false end.

Definition is_inf (x : F64) : bool :=
  match x with PosInf | NegInf => true | _ => false end.

Definition fneg (x : F64) : F64 :=
  match x with
  | Fin q => fin (- q)
  | PosInf => NegInf
  | NegInf => PosInf
  | NaN => NaN
  end.

Definition fabs (x : F64) : F64 :=
  match x with
  | Fin q => fin (Qabs q)
  | PosInf | NegInf => PosInf
  | NaN => NaN
  end.

Definition fadd (x y : F64) : F64 :=
  match x, y with
  | NaN, _ => NaN
  | _, NaN => NaN
  | Fin a, Fin b => fin (a + b)
  | PosInf, NegInf => NaN
  | NegInf, PosInf => NaN
  | PosInf, _ => PosInf
  | _, PosInf => PosInf
  | NegInf, _ => NegInf
  | _, NegInf => NegInf
  end.

Definition fsub (x y : F64) : F64 := fadd x (fneg y).

(** Sign of an infinity times a finite factor; [inf * 0] is NaN. *)
Definition inf_times (positive_inf : bool) (a : Q) : F64 :=
  if Qeq_bool a 0 then NaN
  else if Bool.eqb positive_inf (Qltb 0 a) then PosInf else NegInf.

Definition fmul (x y : F64) : F64 :=
  match x, y with
  | NaN, _ => NaN
  | _, NaN => NaN
  | Fin a, Fin b => fin (a * b)
  | Fin a, PosInf => inf_times true a
  | Fin a, NegInf => inf_times false a
  | PosInf, Fin b => inf_times true b
  | NegInf, Fin b => inf_times false b
  | PosInf, PosInf => PosInf
  | NegInf, NegInf => PosInf
  | PosInf, NegInf => NegInf
  | NegInf, PosInf => NegInf
  end.

(** Division as numpy performs it on float64: [x/0] is an infinity of the
    sign of [x] for [x <> 0], and [0/0] is NaN; nothing is raised. *)
Definition fdiv (x y : F64) : F64 :=
  match x, y with
  | NaN, _ => NaN
  | _, NaN => NaN
  | Fin a, Fin b =>
      if Qeq_bool b 0 then
        if Qeq_bool a 0 then NaN
        else if Qltb 0 a then PosInf else NegInf
      else fin (a / b)
  | Fin _, PosInf => Fin 0
  | Fin _, NegInf => Fin 0
  | PosInf, Fin b => if Qltb b 0 then NegInf else PosInf
  | NegInf, Fin b => if Qltb b 0 then PosInf else NegInf
  | PosInf, PosInf => NaN
  | PosInf, NegInf => NaN
  | NegInf, PosInf => NaN
  | NegInf, NegInf => NaN
  end.

(** Comparisons: every comparison with NaN is false. *)
Definition fltb (x y : F64) : bool :=
  match x, y with
  | NaN, _ => false
  | _, NaN => false
  | Fin a, Fin b => Qltb a b
  | NegInf, NegInf => false
  | NegInf, _ => true
  | _, NegInf => false
  | PosInf, _ => false
  | Fin _, PosInf => true
  end.

Definition fleb (x y : F64) : bool :=
  match x, y with
  | NaN, _ => false
  | _, NaN => false
  | Fin a, Fin b => Qle_bool a b
  | NegInf, _ => true
  | _, NegInf => false
  | _, PosInf => true
  | PosInf, Fin _ => false
  end.

Definition fgtb (x y : F64) : bool := fltb y x.
Definition fgeb (x y : F64) : bool := fleb y x.

Definition feqb (x y : F64) : bool :=
  match x, y with
  | Fin a, Fin b => Qeq_bool a b
  | PosInf, PosInf => true
  | NegInf, NegInf => true
  | _, _ => false
  end.

End Float.

Export Float.

(* ===================================================================== *)
(** ** Python results and positional indexing *)
(* ===================================================================== *)

Module Py.

Inductive exn : Type :=
| IndexError
| KeyError
| ValueError
| TypeError
| ZeroDivisionError.

Inductive pyres (A : Type) : Type :=
| Ok (a : A)
| Raise (e : exn).

Arguments Ok {A} a.
Arguments Raise {A} e.

Definition bind {A B : Type} (m : pyres A) (k : A -> pyres B) : pyres B :=
  match m with
  | Ok a => k a
  | Raise e => Raise e
  end.

(** [try: m except Exception: handler] *)
Definition try_except {A : Type} (m : pyres A) (handler : exn -> A) : A :=
  match m with
  | Ok a => a
  | Raise e => handler e
  end.

(** [xs.iloc[-k]] for [k >= 1]: the [k]-th element from the end, or
    [IndexError] when the series has fewer than [k] elements. *)
Definition iloc_neg {A : Type} (xs : list A) (k : nat) : pyres A :=
  if (length xs <? k)%nat then Raise IndexError
  else match nth_error xs (length xs - k) with
       | Some x => Ok x
       | None => Raise IndexError
       end.

(** [xs.iloc[0]] *)
Definition iloc_first {A : Type} (xs : list A) : pyres A :=
  match xs with
  | x :: _ => Ok x
  | [] => Raise IndexError
  end.

(** [xs.tail(n)]: the last [n] elements (all of them when there are fewer). *)
Definition tail {A : Type} (n : nat) (xs : list A) : list A :=
  skipn (length xs - n) xs.

(** [xs.iloc[-a:-b]] for [a > b >= 1]. *)
Definition iloc_slice_neg {A : Type} (xs : list A) (a b : nat) : list A :=
  firstn (length xs - b - (length xs - a)) (skipn (length xs - a) xs).

(** [s.any()] on a boolean series. *)
Definition any (bs : list bool) : bool := existsb (fun b => b) bs.

End Py.

Export Py.

Notation "'let*' x ':=' m 'in' k" := (bind m (fun x => k))
  (at level 10, x name, m at level 100, k at level 200,
   format "'[v' 'let*'  x  ':='  m  'in' '/' k ']'").

(* ===================================================================== *)
(** ** Series and frames *)
(* ===================================================================== *)

Module Series.

Local Open Scope Q_scope.

Definition Qsum (xs : list Q) : Q := fold_right Qplus 0 xs.

Definition Qmaximum (x : Q) (xs : list Q) : Q := fold_left Qmax xs x.
Definition Qminimum (x : Q) (xs : list Q) : Q := fold_left Qmin xs x.

(** [s.max()] and [s.min()]: NaN on an empty series. *)
Definition series_max (xs : list Q) : F64 :=
  match xs with
  | [] => NaN
  | x :: rest => fin (Qmaximum x rest)
  end.

Definition series_min (xs : list Q) : F64 :=
  match xs with
  | [] => NaN
  | x :: rest => fin (Qminimum x rest)
  end.

(** [s.mean()]: NaN on an empty series. *)
Definition series_mean (xs : list Q) : F64 :=
  match xs with
  | [] => NaN
  | _ => fin (Qsum xs / inject_Z (Z.of_nat (length xs)))
  end.

(** The [w] samples that end at position [i] (for [w <= i + 1]). *)
Definition window_at (w : nat) (xs : list Q) (i : nat) : list Q :=
  firstn w (skipn (i + 1 - w) xs).

(** [s.rolling(window=w).agg()]: the aggregate of the trailing [w] samples,
    NaN while fewer than [w] samples are available ([min_periods] defaults
    to the window). *)
Definition rolling (w : nat) (agg : list Q -> F64) (xs : list Q)
  : list F64 :=
  map (fun i => if (w =? 0)%nat || (i + 1 <? w)%nat then NaN
                else agg (window_at w xs i))
      (seq 0 (length xs)).

(** [s.shift(1)] *)
Definition shift1 (xs : list F64) : list F64 :=
  match xs with
  | [] => []
  | _ => NaN :: removelast xs
  end.

(** [s.diff()]: undefined (NaN) first, then the successive differences. *)
Fixpoint diff_from (prev : Q) (xs : list Q) : list (option Q) :=
  match xs with
  | [] => []
  | x :: rest => Some (Qred (x - prev)) :: diff_from x rest
  end.

Definition diff (xs : list Q) : list (option Q) :=
  match xs with
  | [] => []
  | x :: rest => None :: diff_from x rest
  end.

(** [s.cumsum()] *)
Fixpoint cumsum_from (acc : Q) (xs : list Q) : list Q :=
  match xs with
  | [] => []
  | x :: rest => Qred (acc + x) :: cumsum_from (Qred (acc + x)) rest
  end.

Definition cumsum (xs : list Q) : list Q := cumsum_from 0 xs.

(** Element-wise operations on series that share their index. *)
Definition map2 {A B C : Type} (f : A -> B -> C) (xs : list A) (ys : list B)
  : list C :=
  map (fun p => f (fst p) (snd p)) (combine xs ys).

End Series.

Export Series.

Module Frame.

Record Bar : Type := mkBar {
  Open : Q;
  High : Q;
  Low : Q;
  Close : Q;
  Volume : Q
}.

Inductive Column : Type :=
| FloatCol (xs : list F64)
| BoolCol (bs : list bool).

(** A frame: the OHLCV rows as fetched, and the derived columns assigned to
    it, in the order of their first assignment. *)
Record DataFrame : Type := mkDF {
  bars : list Bar;
  columns : list (string * Column)
}.

Definition df_len (df : DataFrame) : nat := length (bars df).

Definition col_Open (df : DataFrame) : list Q := map Open (bars df).
Definition col_High (df : DataFrame) : list Q := map High (bars df).
Definition col_Low (df : DataFrame) : list Q := map Low (bars df).
Definition col_Close (df : DataFrame) : list Q := map Close (bars df).
Definition col_Volume (df : DataFrame) : list Q := map Volume (bars df).

(** [df[name] = col]: replaces the column if it exists, appends it if not. *)
Fixpoint set_column (name : string) (col : Column)
  (cols : list (string * Column)) : list (string * Column) :=
  match cols with
  | [] => [(name, col)]
  | (n, c) :: rest =>
      if String.eqb n name then (n, col) :: rest
      else (n, c) :: set_column name col rest
  end.

Definition df_set (name : string) (col : Column) (df : DataFrame)
  : DataFrame :=
  mkDF (bars df) (set_column name col (columns df)).

Fixpoint get_column (name : string) (cols : list (string * Column))
  : pyres Column :=
  match cols with
  | [] => Raise KeyError
  | (n, c) :: rest => if String.eqb n name then Ok c else get_column name rest
  end.

(** [name in df.columns].  A frame carries the five OHLCV columns (what
    [fetch_historical_data] returns and what the docstrings of the
    indicator functions ask for) and the columns assigned to it; a frame
    that lacks one of the five, on which [df['Close']] would raise
    [KeyError], is not a value of [DataFrame]. *)
Definition has_column (name : string) (df : DataFrame) : bool :=
  existsb (String.eqb name) ["Open"; "High"; "Low"; "Close"; "Volume"]
  || existsb (fun nc => String.eqb (fst nc) name) (columns df).

(** [df[name]] read as a column of truth values: a boolean column as it
    is, a numeric one by Python truthiness (everything but zero is true). *)
Definition df_bool (name : string) (df : DataFrame) : pyres (list bool) :=
  let* c := get_column name (columns df) in
  match c with
  | BoolCol bs => Ok bs
  | FloatCol xs => Ok (map (fun x => negb (feqb x (Fin 0))) xs)
  end.

Definition column_tail (n : nat) (c : Column) : Column :=
  match c with
  | FloatCol xs => FloatCol (tail n xs)
  | BoolCol bs => BoolCol (tail n bs)
  end.

(** [df.tail(n)] *)
Definition df_tail (n : nat) (df : DataFrame) : DataFrame :=
  mkDF (tail n (bars df))
       (map (fun nc => (fst nc, column_tail n (snd nc))) (columns df)).

End Frame.

Export Frame.

(* ===================================================================== *)
(** ** The object store *)
(* ===================================================================== *)

Module Store.

Abbreviation loc := positive.

Abbreviation store := (gmap positive DataFrame).

Definition empty_frame : DataFrame := mkDF [] [].

(** The frame a reference points to. *)
Definition deref (st : store) (l : loc) : DataFrame :=
  default empty_frame (st !! l).

(** Computations that read and update the store and may raise. *)
Definition M (A : Type) : Type := store -> pyres A * store.

Definition ret {A : Type} (a : A) : M A := fun st => (Ok a, st).

Definition bindM {A B : Type} (m : M A) (k : A -> M B) : M B :=
  fun st =>
    match m st with
    | (Ok a, st') => k a st'
    | (Raise e, st') => (Raise e, st')
    end.

Definition lift {A : Type} (r : pyres A) : M A := fun st => (r, st).

(** Reading through a reference. *)
Definition load (l : loc) : M DataFrame := fun st => (Ok (deref st l), st).

(** [df.copy()]: a new object with the contents of [df]. *)
Definition df_copy (l : loc) : M loc :=
  fun st =>
    let r := fresh (dom st) in
    (Ok r, <[r := deref st l]> st).

(** [frame[name] = col]: the object behind [l] is updated in place. *)
Definition set_item (l : loc) (name : string) (col : Column) : M unit :=
  fun st => (Ok tt, <[l := df_set name col (deref st l)]> st).

End Store.

Export Store.

Notation "'let!' x ':=' m 'in' k" := (bindM m (fun x => k))
  (at level 10, x name, m at level 100, k at level 200,
   format "'[v' 'let!'  x  ':='  m  'in' '/' k ']'").

(* ===================================================================== *)
(** ** src/analysis/technical.py *)
(* ===================================================================== *)

Module Technical.

Local Open Scope Q_scope.

(** [data.rolling(window=period).mean()] *)
Definition calculate_sma (data : list Q) (period : nat) : list F64 :=
  rolling period series_mean data.

(** [data.ewm(span=period, adjust=False).mean()]: seeded with the first
    sample, then [ema[i] = data[i]*k + ema[i-1]*(1-k)], [k = 2/(period+1)].
    pandas rejects a span below 1. *)
Fixpoint ema_from (k prev : Q) (xs : list Q) : list Q :=
  match xs with
  | [] => []
  | x :: rest =>
      let y := Qred (x * k + prev * (1 - k)) in
      y :: ema_from k y rest
  end.

Definition calculate_ema (data : list Q) (period : nat) : pyres (list Q) :=
  if (period =? 0)%nat then Raise ValueError
  else
    let k := 2 / (inject_Z (Z.of_nat period) + 1) in
    match data with
    | [] => Ok []
    | x :: rest => Ok (x :: ema_from k x rest)
    end.

(** [delta.where(delta > 0, 0).fillna(0)] on one entry of [data.diff()]:
    a missing or non-positive change counts as no gain. *)
Definition gain_of (delta : option Q) : Q :=
  match delta with
  | Some d => if Qltb 0 d then d else 0
  | None => 0
  end.

(** [(-delta.where(delta < 0, 0)).fillna(0)] *)
Definition loss_of (delta : option Q) : Q :=
  match delta with
  | Some d => if Qltb d 0 then Qred (- d) else 0
  | None => 0
  end.

Definition avg_gain (data : list Q) (period : nat) : list F64 :=
  rolling period series_mean (map gain_of (diff data)).

Definition avg_loss (data : list Q) (period : nat) : list F64 :=
  rolling period series_mean (map loss_of (diff data)).

(** [rsi = 100 - 100 / (1 + rs)] *)
Definition rsi_of_rs (rs : F64) : F64 :=
  fsub (Fin 100) (fdiv (Fin 100) (fadd (Fin 1) rs)).

Definition calculate_rsi (data : list Q) (period : nat) : list F64 :=
  let rs := map2 fdiv (avg_gain data period) (avg_loss data period) in
  map rsi_of_rs rs.

Definition default_rsi_period : nat := 14.

Definition calculate_macd (data : list Q)
  (fast_period slow_period signal_period : nat)
  : pyres (list Q * list Q * list Q) :=
  let* ema_fast := calculate_ema data fast_period in
  let* ema_slow := calculate_ema data slow_period in
  let macd_line := map2 (fun a b => Qred (a - b)) ema_fast ema_slow in
  let* signal_line := calculate_ema macd_line signal_period in
  let histogram := map2 (fun a b => Qred (a - b)) macd_line signal_line in
  Ok (macd_line, signal_line, histogram).

Section WithSqrt.

(** [numpy.sqrt], as used inside the rolling standard deviation. *)
Variable np_sqrt : F64 -> F64.

(** Sample standard deviation of a window ([ddof = 1]). *)
Definition window_std (xs : list Q) : F64 :=
  let n := inject_Z (Z.of_nat (length xs)) in
  let m := Qsum xs / n in
  let ssd := Qsum (map (fun x => (x - m) * (x - m)) xs) in
  np_sqrt (fdiv (fin ssd) (fin (n - 1))).

Definition calculate_bollinger_bands (data : list Q) (period : nat)
  (std_dev : Q) : list F64 * list F64 * list F64 :=
  let middle_band := calculate_sma data period in
  let rolling_std := rolling period window_std data in
  let width := map (fun s => fmul s (Fin std_dev)) rolling_std in
  let upper_band := map2 fadd middle_band width in
  let lower_band := map2 fsub middle_band width in
  (upper_band, middle_band, lower_band).

(** [(typical_price * Volume).cumsum() / Volume.cumsum()].  Products and
    running sums are exact here; in the program they are doubles, and one
    that leaves the range of a double becomes an infinity. *)
Definition calculate_vwap (df : DataFrame) : list F64 :=
  let typical_price :=
    map (fun b => (High b + Low b + Close b) / 3) (bars df) in
  let pv := map2 Qmult typical_price (col_Volume df) in
  map2 (fun a b => fdiv (Fin a) (Fin b)) (cumsum pv) (cumsum (col_Volume df)).

(** The loop of [calculate_obv], from bar 1 on. *)
Fixpoint obv_from (prev_close prev_obv : Q) (rest : list Bar) : list Q :=
  match rest with
  | [] => []
  | b :: rest' =>
      let o :=
        if Qltb prev_close (Close b) then Qred (prev_obv + Volume b)
        else if Qltb (Close b) prev_close then Qred (prev_obv - Volume b)
        else prev_obv in
      o :: obv_from (Close b) o rest'
  end.

(** [obv.iloc[0] = df['Volume'].iloc[0]] raises on an empty frame. *)
Definition calculate_obv (df : DataFrame) : pyres (list Q) :=
  match bars df with
  | [] => Raise IndexError
  | b :: rest => Ok (Volume b :: obv_from (Close b) (Volume b) rest)
  end.

Definition float_col (xs : list Q) : Column := FloatCol (map Fin xs).

(** [add_all_indicators(df)].  [df] and [result_df] are references; every
    [df[...]] reads the object behind [df] at that moment and every
    [result_df[...] = ...] writes the object behind [result_df].  The
    frames of the embedding are OHLCV frames, so ['Volume' in df.columns]
    holds on each of them and the two volume indicators are always
    added. *)
Definition add_all_indicators (df : loc) : M loc :=
  let! result_df := df_copy df in
  let! d := load df in
  let! _ := set_item result_df "SMA_20"
              (FloatCol (calculate_sma (col_Close d) 20)) in
  let! d := load df in
  let! _ := set_item result_df "SMA_50"
              (FloatCol (calculate_sma (col_Close d) 50)) in
  let! d := load df in
  let! _ := set_item result_df "SMA_200"
              (FloatCol (calculate_sma (col_Close d) 200)) in
  let! d := load df in
  let! ema_12 := lift (calculate_ema (col_Close d) 12) in
  let! _ := set_item result_df "EMA_12" (float_col ema_12) in
  let! d := load df in
  let! ema_26 := lift (calculate_ema (col_Close d) 26) in
  let! _ := set_item result_df "EMA_26" (float_col ema_26) in
  let! d := load df in
  let! _ := set_item result_df "RSI"
              (FloatCol (calculate_rsi (col_Close d) default_rsi_period)) in
  let! d := load df in
  let! m := lift (calculate_macd (col_Close d) 12 26 9) in
  let '(macd, signal, histogram) := m in
  let! _ := set_item result_df "MACD" (float_col macd) in
  let! _ := set_item result_df "MACD_Signal" (float_col signal) in
  let! _ := set_item result_df "MACD_Histogram" (float_col histogram) in
  let! d := load df in
  let '(bb_upper, bb_middle, bb_lower) :=
    calculate_bollinger_bands (col_Close d) 20 2 in
  let! _ := set_item result_df "BB_Upper" (FloatCol bb_upper) in
  let! _ := set_item result_df "BB_Middle" (FloatCol bb_middle) in
  let! _ := set_item result_df "BB_Lower" (FloatCol bb_lower) in
  let! d := load df in
  if has_column "Volume" d then
    let! d := load df in
    let! _ := set_item result_df "VWAP" (FloatCol (calculate_vwap d)) in
    let! d := load df in
    let! obv := lift (calculate_obv d) in
    let! _ := set_item result_df "OBV" (float_col obv) in
    ret result_df
  else ret result_df.

End WithSqrt.

(** [identify_crossover]: the series start at 0, bullish positions are set
    to 1, then bearish positions to -1. *)
Definition identify_crossover (series1 series2 : list F64) : list Z :=
  let crossover := map (fun _ => 0%Z) series1 in
  let bullish :=
    map2 andb (map2 fgtb series1 series2)
              (map2 fleb (shift1 series1) (shift1 series2)) in
  let crossover :=
    map2 (fun (m : bool) c => if m then 1%Z else c) bullish crossover in
  let bearish :=
    map2 andb (map2 fltb series1 series2)
              (map2 fgeb (shift1 series1) (shift1 series2)) in
  map2 (fun (m : bool) c => if m then (-1)%Z else c) bearish crossover.

(** The returned frame is a copy of [df] with the two flag columns. *)
Definition identify_golden_death_cross (df : DataFrame) : DataFrame :=
  let result_df := df in
  let sma_50 := calculate_sma (col_Close df) 50 in
  let sma_200 := calculate_sma (col_Close df) 200 in
  let crossover := identify_crossover sma_50 sma_200 in
  let result_df :=
    df_set "Golden_Cross" (BoolCol (map (fun c => (c =? 1)%Z) crossover))
           result_df in
  let result_df :=
    df_set "Death_Cross" (BoolCol (map (fun c => (c =? -1)%Z) crossover))
           result_df in
  result_df.

End Technical.

Export Technical.

(* ===================================================================== *)
(** ** src/analysis/patterns.py *)
(* ===================================================================== *)

Module Patterns.

Local Open Scope Q_scope.

(** [detect_consolidation(df, window, threshold)] *)
Definition detect_consolidation (df : DataFrame) (window : nat)
  (threshold : Q) : list bool :=
  let rolling_high := rolling window series_max (col_High df) in
  let rolling_low := rolling window series_min (col_Low df) in
  let avg_price :=
    map2 (fun h l => fdiv (fadd h l) (Fin 2)) rolling_high rolling_low in
  let price_range_pct :=
    map2 (fun hl a => fmul (fdiv hl a) (Fin 100))
         (map2 fsub rolling_high rolling_low) avg_price in
  map (fun p => fltb p (fin (threshold * 100))) price_range_pct.

Record Stats52 : Type := mkStats52 {
  week52_high : F64;
  week52_low : F64;
  stats_current_price : Q;
  pct_from_high : F64;
  pct_from_low : F64;
  stats_near_52w_high : bool
}.

(** [calculate_52_week_high_low(df)]; [df['Close'].iloc[-1]] raises on an
    empty frame. *)
Definition calculate_52_week_high_low (df : DataFrame) : pyres Stats52 :=
  let lookback := if (df_len df <? 252)%nat then df_len df else 252%nat in
  let recent_data := df_tail lookback df in
  let high_52w := series_max (col_High recent_data) in
  let low_52w := series_min (col_Low recent_data) in
  let* current_price := iloc_neg (col_Close df) 1 in
  let pct_high :=
    fmul (fdiv (fsub (Fin current_price) high_52w) high_52w) (Fin 100) in
  let pct_low :=
    fmul (fdiv (fsub (Fin current_price) low_52w) low_52w) (Fin 100) in
  Ok {| week52_high := high_52w;
        week52_low := low_52w;
        stats_current_price := current_price;
        pct_from_high := pct_high;
        pct_from_low := pct_low;
        stats_near_52w_high := fgtb pct_high (Fin (-5)) |}.

End Patterns.

Export Patterns.

(* ===================================================================== *)
(** ** src/scanner/breakout_scanner.py *)
(* ===================================================================== *)

Module Scanner.

Local Open Scope Q_scope.

(** ['oversold'], ['overbought'], ['neutral'] *)
Inductive RsiSignal : Type := Oversold | Overbought | Neutral.

(** ['golden_cross'], ['death_cross'], ['none'] *)
Inductive MaCrossover : Type := GoldenCross | DeathCross | NoCross.

Definition is_golden_cross (c : MaCrossover) : bool :=
  match c with GoldenCross => true | _ => false end.

Record ConsolidationStatus : Type := mkConsolidation {
  in_consolidation : bool;
  breaking_out : bool
}.

(** One row of the scan table.  [None] is Python's [None]; [rsi_value] is
    the key that [scan_ticker] adds only when the RSI series is not empty. *)
Record Signals : Type := mkSignals {
  ticker : string;
  current_price : Q;
  relative_volume : option F64;
  volume_surge : bool;
  rsi_signal : RsiSignal;
  ma_crossover : MaCrossover;
  near_52w_high : bool;
  consolidation : ConsolidationStatus;
  price_change_5d : option F64;
  price_change_20d : option F64;
  rsi_value : option F64
}.

Definition calculate_relative_volume (df : DataFrame) (period : nat)
  : pyres (option F64) :=
  if (df_len df <? period + 1)%nat then Ok None
  else
    let avg_volume := series_mean (tail period (removelast (col_Volume df))) in
    let* current_volume := iloc_neg (col_Volume df) 1 in
    if feqb avg_volume (Fin 0) then Ok None
    else Ok (Some (fdiv (Fin current_volume) avg_volume)).

Definition check_volume_surge (df : DataFrame) (threshold : Q) : pyres bool :=
  let* rel_vol := calculate_relative_volume df 20 in
  match rel_vol with
  | None => Ok false
  | Some v => Ok (fgeb v (Fin threshold))
  end.

Definition check_rsi_signal (df : DataFrame) (oversold overbought : Q)
  : pyres RsiSignal :=
  let rsi := calculate_rsi (col_Close df) default_rsi_period in
  match rsi with
  | [] => Ok Neutral
  | _ =>
      let* current_rsi := iloc_neg rsi 1 in
      if is_nan current_rsi then Ok Neutral
      else if fltb current_rsi (Fin oversold) then Ok Oversold
      else if fgtb current_rsi (Fin overbought) then Ok Overbought
      else Ok Neutral
  end.

Definition check_ma_crossover (df : DataFrame) : pyres MaCrossover :=
  if (df_len df <? 200)%nat then Ok NoCross
  else
    let df_with_cross := identify_golden_death_cross df in
    let recent := df_tail 5 df_with_cross in
    let* golden := df_bool "Golden_Cross" recent in
    if any golden then Ok GoldenCross
    else
      let* death := df_bool "Death_Cross" recent in
      if any death then Ok DeathCross else Ok NoCross.

Definition check_near_52w_high (df : DataFrame) (threshold : Q) : pyres bool :=
  let* stats := calculate_52_week_high_low df in
  Ok (fleb (fabs (pct_from_high stats)) (Fin threshold)).

Definition check_consolidation_breakout (df : DataFrame)
  : pyres ConsolidationStatus :=
  let consolidation := detect_consolidation df 20 (5 # 100) in
  if (length consolidation <? 2)%nat then
    Ok {| in_consolidation := false; breaking_out := false |}
  else
    let* currently_consolidating := iloc_neg consolidation 1 in
    let was_consolidating :=
      if (10 <? length consolidation)%nat
      then any (iloc_slice_neg consolidation 10 1) else false in
    let breaking := was_consolidating && negb currently_consolidating in
    let* breaking :=
      if breaking && (5 <? df_len df)%nat then
        let* c1 := iloc_neg (col_Close df) 1 in
        let* c5 := iloc_neg (col_Close df) 5 in
        let recent_close_change :=
          fmul (fdiv (fsub (Fin c1) (Fin c5)) (Fin c5)) (Fin 100) in
        Ok (breaking && fgtb recent_close_change (Fin 2))
      else Ok breaking in
    Ok {| in_consolidation := currently_consolidating;
          breaking_out := breaking |}.

(** [((Close[-1] - Close[-k]) / Close[-k] * 100)] *)
Definition price_change (df : DataFrame) (k : nat) : pyres F64 :=
  let* c1 := iloc_neg (col_Close df) 1 in
  let* ck := iloc_neg (col_Close df) k in
  Ok (fmul (fdiv (fsub (Fin c1) (Fin ck)) (Fin ck)) (Fin 100)).

Section WithFetch.

(** [fetch_historical_data(ticker, period, interval)]: the external data
    provider; it raises for an unknown ticker or when no data comes back. *)
Variable fetch_historical_data : string -> string -> string -> pyres DataFrame.

(** The body of the [try] block of [scan_ticker]. *)
Definition scan_ticker_body (tk period interval : string)
  : pyres (option Signals) :=
  let* df := fetch_historical_data tk period interval in
  if (df_len df =? 0)%nat || (df_len df <? 50)%nat then Ok None
  else
    let* price := iloc_neg (col_Close df) 1 in
    let* rel_vol := calculate_relative_volume df 20 in
    let* surge := check_volume_surge df 2 in
    let* rsi_sig := check_rsi_signal df 30 70 in
    let* cross := check_ma_crossover df in
    let* near := check_near_52w_high df 5 in
    let* consol := check_consolidation_breakout df in
    let* change_5d :=
      if (5 <? df_len df)%nat
      then (let* c := price_change df 6 in Ok (Some c)) else Ok None in
    let* change_20d :=
      if (20 <? df_len df)%nat
      then (let* c := price_change df 21 in Ok (Some c)) else Ok None in
    let rsi := calculate_rsi (col_Close df) default_rsi_period in
    let* rsi_val :=
      match rsi with
      | [] => Ok None
      | _ => (let* v := iloc_neg rsi 1 in Ok (Some v))
      end in
    Ok (Some {| ticker := tk;
                current_price := price;
                relative_volume := rel_vol;
                volume_surge := surge;
                rsi_signal := rsi_sig;
                ma_crossover := cross;
                near_52w_high := near;
                consolidation := consol;
                price_change_5d := change_5d;
                price_change_20d := change_20d;
                rsi_value := rsi_val |}).

(** [scan_ticker]: every exception of the body is caught and reported as
    [None]. *)
Definition scan_ticker (tk period interval : string) : option Signals :=
  try_except (scan_ticker_body tk period interval) (fun _ => None).

(** [scan_multiple_tickers(tickers, period, interval)] with the default
    [filters=None], which is how every caller in the repository calls it.
    The loop appends the signals of each ticker that yields some; the
    result is the table of those rows (empty when there are none). *)
Fixpoint scan_loop (tickers : list string) (period interval : string)
  (results : list Signals) : list Signals :=
  match tickers with
  | [] => results
  | tk :: rest =>
      match scan_ticker tk period interval with
      | Some signals => scan_loop rest period interval (results ++ [signals])
      | None => scan_loop rest period interval results
      end
  end.

Definition scan_multiple_tickers (tickers : list string)
  (period interval : string) : pyres (list Signals) :=
  let results := scan_loop tickers period interval [] in
  match results with
  | [] => Ok []
  | _ => Ok results
  end.

(** A row of the table returned by [find_breakout_candidates]: the scan
    row with the two columns the function adds. *)
Record Candidate : Type := mkCandidate {
  signals : Signals;
  is_breaking_out : bool;
  breakout_score : Z
}.

(** [df['is_breaking_out'] = df['consolidation'].apply(...)] *)
Definition extract_breaking_out (s : Signals) : Signals * bool :=
  (s, breaking_out (consolidation s)).

(** [df['relative_volume'] > bound]; a missing value compares false. *)
Definition relative_volume_above (s : Signals) (bound : Q) : bool :=
  match relative_volume s with
  | Some v => fgtb v (Fin bound)
  | None => false
  end.

Definition is_candidate (row : Signals * bool) : bool :=
  let (s, breaking) := row in
  breaking
  || (near_52w_high s && volume_surge s)
  || (is_golden_cross (ma_crossover s) && relative_volume_above s (15 # 10)).

(** The composite score column. *)
Definition with_score (row : Signals * bool) : Candidate :=
  let (s, breaking) := row in
  {| signals := s;
     is_breaking_out := breaking;
     breakout_score :=
       (Z.b2z breaking * 3
        + Z.b2z (near_52w_high s) * 2
        + Z.b2z (volume_surge s) * 2
        + Z.b2z (is_golden_cross (ma_crossover s)) * 2)%Z |}.

(** The filtered and scored rows, in scan order, before the final sort. *)
Definition scored_candidates (df : list Signals) : list Candidate :=
  map with_score (filter is_candidate (map extract_breaking_out df)).

(** [DataFrame.sort_values(by, ascending)] with pandas' default sorting
    algorithm ([kind='quicksort']). *)
Variable sort_values :
  (Candidate -> Z) -> bool -> list Candidate -> list Candidate.

Definition find_breakout_candidates (tickers : list string)
  : pyres (list Candidate) :=
  let* df := scan_multiple_tickers tickers "1y" "1d" in
  match df with
  | [] => Ok []
  | _ => Ok (sort_values breakout_score false (scored_candidates df))
  end.

End WithFetch.

End Scanner.

Export Scanner.

(* ===================================================================== *)
(** ** src/options/greeks.py *)
(* ===================================================================== *)

Module Greeks.

Local Open Scope Q_scope.

Record GreeksResult : Type := mkGreeks {
  delta : F64;
  gamma : F64;
  theta : F64;
  vega : F64;
  rho : F64;
  theoretical_price : F64
}.

(** Python's [a / b] on floats. *)
Definition py_div (a b : Q) : pyres Q :=
  if Qeq_bool b 0 then Raise ZeroDivisionError else Ok (Qred (a / b)).

(** Python's [max(a, b)]: [b] only when it is strictly greater. *)
Definition py_max (a b : Q) : Q := if Qltb a b then b else a.

(** [option_type == 'call']; every other string takes the put branch. *)
Definition is_call (option_type : string) : bool :=
  String.eqb option_type "call".

Section WithLibm.

(** [numpy.log], [numpy.sqrt], [numpy.exp], [scipy.stats.norm.cdf] and
    [scipy.stats.norm.pdf]. *)
Variables np_log np_sqrt np_exp norm_cdf norm_pdf : F64 -> F64.

Definition d1_of (S K T r sigma : Q) : pyres F64 :=
  let* sk := py_div S K in
  Ok (fdiv (fadd (np_log (Fin sk)) (fin ((r + (1 # 2) * (sigma * sigma)) * T)))
           (fmul (Fin sigma) (np_sqrt (Fin T)))).

Definition d2_of (d1 : F64) (T sigma : Q) : F64 :=
  fsub d1 (fmul (Fin sigma) (np_sqrt (Fin T))).

(** [K * exp(-r * T)] *)
Definition discounted (K T r : Q) : F64 :=
  fmul (Fin K) (np_exp (fin (- r * T))).

Definition black_scholes_call (S K T r sigma : Q) : pyres F64 :=
  if Qle_bool T 0 then Ok (fin (py_max (S - K) 0))
  else
    let* d1 := d1_of S K T r sigma in
    let d2 := d2_of d1 T sigma in
    Ok (fsub (fmul (Fin S) (norm_cdf d1))
             (fmul (discounted K T r) (norm_cdf d2))).

Definition black_scholes_put (S K T r sigma : Q) : pyres F64 :=
  if Qle_bool T 0 then Ok (fin (py_max (K - S) 0))
  else
    let* d1 := d1_of S K T r sigma in
    let d2 := d2_of d1 T sigma in
    Ok (fsub (fmul (discounted K T r) (norm_cdf (fneg d2)))
             (fmul (Fin S) (norm_cdf (fneg d1)))).

Definition calculate_delta (S K T r sigma : Q) (option_type : string)
  : pyres F64 :=
  if Qle_bool T 0 then
    if is_call option_type
    then Ok (if Qltb K S then Fin 1 else Fin 0)
    else Ok (if Qltb S K then Fin (-1) else Fin 0)
  else
    let* d1 := d1_of S K T r sigma in
    if is_call option_type then Ok (norm_cdf d1)
    else Ok (fsub (norm_cdf d1) (Fin 1)).

Definition calculate_gamma (S K T r sigma : Q) : pyres F64 :=
  if Qle_bool T 0 then Ok (Fin 0)
  else
    let* d1 := d1_of S K T r sigma in
    Ok (fdiv (norm_pdf d1)
             (fmul (fin (S * sigma)) (np_sqrt (Fin T)))).

Definition calculate_theta (S K T r sigma : Q) (option_type : string)
  : pyres F64 :=
  if Qle_bool T 0 then Ok (Fin 0)
  else
    let* d1 := d1_of S K T r sigma in
    let d2 := d2_of d1 T sigma in
    let decay :=
      fdiv (fmul (fmul (fin (- S)) (norm_pdf d1)) (Fin sigma))
           (fmul (Fin 2) (np_sqrt (Fin T))) in
    let carry x := fmul (fmul (fin (r * K)) (np_exp (fin (- r * T)))) x in
    let th :=
      if is_call option_type
      then fsub decay (carry (norm_cdf d2))
      else fadd decay (carry (norm_cdf (fneg d2))) in
    Ok (fdiv th (Fin 365)).

Definition calculate_vega (S K T r sigma : Q) : pyres F64 :=
  if Qle_bool T 0 then Ok (Fin 0)
  else
    let* d1 := d1_of S K T r sigma in
    let v := fmul (fmul (Fin S) (norm_pdf d1)) (np_sqrt (Fin T)) in
    Ok (fdiv v (Fin 100)).

Definition calculate_rho (S K T r sigma : Q) (option_type : string)
  : pyres F64 :=
  if Qle_bool T 0 then Ok (Fin 0)
  else
    let* d1 := d1_of S K T r sigma in
    let d2 := d2_of d1 T sigma in
    let rh :=
      if is_call option_type
      then fmul (fmul (fin (K * T)) (np_exp (fin (- r * T)))) (norm_cdf d2)
      else fmul (fmul (fin (- K * T)) (np_exp (fin (- r * T))))
                (norm_cdf (fneg d2)) in
    Ok (fdiv rh (Fin 100)).

Definition calculate_all_greeks (S K T r sigma : Q) (option_type : string)
  : pyres GreeksResult :=
  let* d := calculate_delta S K T r sigma option_type in
  let* g := calculate_gamma S K T r sigma in
  let* th := calculate_theta S K T r sigma option_type in
  let* v := calculate_vega S K T r sigma in
  let* rh := calculate_rho S K T r sigma option_type in
  let* price :=
    if is_call option_type
    then black_scholes_call S K T r sigma
    else black_scholes_put S K T r sigma in
  Ok {| delta := d; gamma := g; theta := th; vega := v; rho := rh;
        theoretical_price := price |}.

End WithLibm.

End Greeks.

Export Greeks.

(* ===================================================================== *)
(** * Sorting contract and sample inputs *)
(* ===================================================================== *)

Module Samples.

Local Open Scope Q_scope.

(** What pandas documents for [sort_values] with the default
    [kind='quicksort']: the rows come back reordered by the key, ascending
    or descending.  The order of rows with equal keys is not part of it
    (only [kind='mergesort'] and [kind='stable'] promise that). *)
Definition sort_values_contract
  (sort_values : (Candidate -> Z) -> bool -> list Candidate -> list Candidate)
  : Prop :=
  forall (by_key : Candidate -> Z) (ascending : bool) (rows : list Candidate),
    Permutation rows (sort_values by_key ascending rows)
    /\ Sorted (fun a b => if ascending then (by_key a <= by_key b)%Z
                          else (by_key b <= by_key a)%Z)
              (sort_values by_key ascending rows).

(** A ticker the batch scan can use: the fetch succeeds and brings at
    least 50 bars. *)
Definition usable
  (fetch : string -> string -> string -> pyres DataFrame)
  (period interval tk : string) : bool :=
  match fetch tk period interval with
  | Ok df => (50 <=? df_len df)%nat
  | Raise _ => false
  end.

(** The crossover series of the 50-bar against the 200-bar average of the
    closes: 1 at a golden cross, -1 at a death cross, 0 elsewhere. *)
Definition sma_crossover (df : DataFrame) : list Z :=
  identify_crossover (calculate_sma (col_Close df) 50)
                     (calculate_sma (col_Close df) 200).

(** Position [i] is one of the last five bars of [df]. *)
Definition in_last_five (df : DataFrame) (i : nat) : Prop :=
  (df_len df - 5 <= i < df_len df)%nat.

(** A sorting function within the contract: insertion from the right, each
    row going in front of the rows it ties with, so that rows with equal
    keys keep the order in which they were given. *)
Definition strictly_before (by_key : Candidate -> Z) (ascending : bool)
  (x y : Candidate) : bool :=
  if ascending then (by_key x <? by_key y)%Z else (by_key y <? by_key x)%Z.

Fixpoint insert_before_ties (by_key : Candidate -> Z) (ascending : bool)
  (x : Candidate) (l : list Candidate) : list Candidate :=
  match l with
  | [] => [x]
  | y :: l' =>
      if strictly_before by_key ascending y x
      then y :: insert_before_ties by_key ascending x l'
      else x :: y :: l'
  end.

Definition sort_keeping_ties (by_key : Candidate -> Z) (ascending : bool)
  (rows : list Candidate) : list Candidate :=
  fold_right (insert_before_ties by_key ascending) [] rows.

(** A quiet bar, and the bar that breaks out of twenty quiet ones. *)
Definition quiet_bar : Bar := mkBar 100 101 99 100 1000.
Definition breakout_bar : Bar := mkBar 100 110 99 109 1000.

(** 200 quiet bars and a breakout: consolidation ends, the close is within
    1% of the high, volume is flat and the 50-bar average crosses above the
    200-bar average on the last bar. *)
Definition breakout_frame : DataFrame :=
  mkDF (repeat quiet_bar 200 ++ [breakout_bar]) [].

(** 49 quiet bars and a last bar on three times the volume. *)
Definition surge_frame : DataFrame :=
  mkDF (repeat quiet_bar 49 ++ [mkBar 100 101 99 100 3000]) [].

(** 49 quiet bars, then a wide bar that closes exactly 2% higher. *)
Definition two_percent_frame : DataFrame :=
  mkDF (repeat quiet_bar 49 ++ [mkBar 100 110 99 102 1000]) [].

(** 50 bars that close exactly 5% below their high. *)
Definition five_below_frame : DataFrame :=
  mkDF (repeat (mkBar 95 100 95 95 1000) 50) [].

(** 200 quiet bars, a jump and a collapse: the averages cross upwards and
    then downwards within two bars. *)
Definition whipsaw_frame : DataFrame :=
  mkDF (repeat quiet_bar 200
        ++ [mkBar 100 110 99 110 1000; mkBar 100 110 0 0 1000]) [].

(** A provider that knows a handful of tickers and fails on the rest. *)
Definition sample_fetch (tk period interval : string) : pyres DataFrame :=
  if String.eqb tk "BRK" then Ok breakout_frame
  else if String.eqb tk "AAA" then Ok surge_frame
  else if String.eqb tk "BBB" then Ok surge_frame
  else if String.eqb tk "NEW" then Ok two_percent_frame
  else Raise ValueError.

End Samples.

Export Samples.

(* ===================================================================== *)
(** ** src/analysis/patterns.py: candlesticks and levels *)
(* ===================================================================== *)

Module Candles.

Local Open Scope Q_scope.

(** One row of [identify_doji]: the body as a percentage of the range,
    with a zero range replaced by NaN before the division. *)
Definition doji_row (threshold : Q) (b : Bar) : bool :=
  let body_size := Qabs (Close b - Open b) in
  let r := High b - Low b in
  let candle_range := if Qeq_bool r 0 then NaN else fin r in
  let body_percentage := fmul (fdiv (fin body_size) candle_range) (Fin 100) in
  fltb body_percentage (Fin threshold).

Definition identify_doji (df : DataFrame) (threshold : Q) : list bool :=
  map (doji_row threshold) (bars df).

(** [identify_engulfing]: the previous candle is [shift(1)], absent (NaN)
    on the first row. *)
Definition bullish_row (co cc po pc : F64) : bool :=
  fltb pc po && fgtb cc co && fltb co pc && fgtb cc po.

Definition bearish_row (co cc po pc : F64) : bool :=
  fgtb pc po && fltb cc co && fgtb co pc && fltb cc po.

Definition engulfing_rows (df : DataFrame)
  : list ((F64 * F64) * (F64 * F64)) :=
  let curr_open := map Fin (col_Open df) in
  let curr_close := map Fin (col_Close df) in
  let prev_open := shift1 curr_open in
  let prev_close := shift1 curr_close in
  combine (combine curr_open curr_close) (combine prev_open prev_close).

Definition identify_engulfing (df : DataFrame) : list bool * list bool :=
  let rows := engulfing_rows df in
  (map (fun r => bullish_row (fst (fst r)) (snd (fst r))
                             (fst (snd r)) (snd (snd r))) rows,
   map (fun r => bearish_row (fst (fst r)) (snd (fst r))
                             (fst (snd r)) (snd (snd r))) rows).

Definition body (b : Bar) : Q := Qabs (Close b - Open b).
Definition lower_shadow (b : Bar) : Q := Qmin (Open b) (Close b) - Low b.
Definition upper_shadow (b : Bar) : Q := High b - Qmax (Open b) (Close b).
Definition candle_range (b : Bar) : Q := High b - Low b.

Definition hammer_row (ratio : Q) (b : Bar) : bool :=
  Qltb (ratio * body b) (lower_shadow b)
  && Qltb (upper_shadow b) (body b)
  && Qltb (body b) ((3 # 10) * candle_range b).

Definition identify_hammer (df : DataFrame) (ratio : Q) : list bool :=
  map (hammer_row ratio) (bars df).

Definition shooting_star_row (ratio : Q) (b : Bar) : bool :=
  Qltb (ratio * body b) (upper_shadow b)
  && Qltb (lower_shadow b) (body b)
  && Qltb (body b) ((3 # 10) * candle_range b).

Definition identify_shooting_star (df : DataFrame) (ratio : Q) : list bool :=
  map (shooting_star_row ratio) (bars df).

(** [add_all_patterns(df)], on references as [add_all_indicators]. *)
Definition add_all_patterns (df : loc) : M loc :=
  let! result_df := df_copy df in
  let! d := load df in
  let! _ := set_item result_df "Doji" (BoolCol (identify_doji d (1 # 10))) in
  let! d := load df in
  let '(bullish_engulfing, bearish_engulfing) := identify_engulfing d in
  let! _ := set_item result_df "Bullish_Engulfing"
              (BoolCol bullish_engulfing) in
  let! _ := set_item result_df "Bearish_Engulfing"
              (BoolCol bearish_engulfing) in
  let! d := load df in
  let! _ := set_item result_df "Hammer" (BoolCol (identify_hammer d 2)) in
  let! d := load df in
  let! _ := set_item result_df "Shooting_Star"
              (BoolCol (identify_shooting_star d 2)) in
  let! d := load df in
  let! _ := set_item result_df "Consolidation"
              (BoolCol (detect_consolidation d 20 (5 # 100))) in
  ret result_df.

(** Values whose two neighbours both satisfy [beyond x neighbour]; the
    first and the last value have a missing neighbour and never qualify. *)
Fixpoint local_extrema (beyond : Q -> Q -> bool) (prev : Q) (xs : list Q)
  : list Q :=
  match xs with
  | x :: ((next :: _) as rest) =>
      (if beyond x prev && beyond x next then [x] else [])
      ++ local_extrema beyond x rest
  | _ => []
  end.

Definition local_minima (xs : list Q) : list Q :=
  match xs with
  | [] => []
  | x :: rest => local_extrema (fun v neighbour => Qltb v neighbour) x rest
  end.

Definition local_maxima (xs : list Q) : list Q :=
  match xs with
  | [] => []
  | x :: rest => local_extrema (fun v neighbour => Qltb neighbour v) x rest
  end.

Fixpoint insert_sorted (x : Q) (xs : list Q) : list Q :=
  match xs with
  | [] => [x]
  | y :: rest => if Qle_bool x y then x :: xs else y :: insert_sorted x rest
  end.

(** [sorted(values)] *)
Definition sorted_asc (xs : list Q) : list Q := fold_right insert_sorted [] xs.

(** [s.nlargest(n)] and [s.nsmallest(n)] *)
Definition nlargest (n : nat) (xs : list Q) : list Q :=
  firstn n (rev (sorted_asc xs)).
Definition nsmallest (n : nat) (xs : list Q) : list Q :=
  firstn n (sorted_asc xs).

(** [s.unique()]: first occurrences, in order. *)
Fixpoint unique_from (seen : list Q) (xs : list Q) : list Q :=
  match xs with
  | [] => []
  | x :: rest =>
      if existsb (Qeq_bool x) seen then unique_from seen rest
      else x :: unique_from (x :: seen) rest
  end.

Definition unique (xs : list Q) : list Q := unique_from [] xs.

(** The exception of [obj.attr] on an object without that attribute. *)
Inductive attribute_error : Type := AttributeError.

(** [find_support_resistance_levels(df, window, num_levels)].  The two
    level lists are Python lists (results of [sorted(...)[:n]]); the
    [return] statement calls [.tolist()] on them, which a list does not
    have. *)
Definition find_support_resistance_levels (df : DataFrame)
  (window num_levels : nat) : attribute_error + (list Q * list Q) :=
  let local_min := local_minima (col_Low df) in
  let local_max := local_maxima (col_High df) in
  let support_levels :=
    firstn num_levels
      (sorted_asc (unique (nlargest (num_levels * 2) local_min))) in
  let resistance_levels :=
    firstn num_levels
      (rev (sorted_asc (unique (nsmallest (num_levels * 2) local_max)))) in
  let list_tolist (levels : list Q) : attribute_error + list Q :=
    inl AttributeError in
  match list_tolist support_levels with
  | inl err => inl err
  | inr support =>
      match list_tolist resistance_levels with
      | inl err => inl err
      | inr resistance => inr (support, resistance)
      end
  end.

End Candles.

Export Candles.

(* ===================================================================== *)
(** ** src/scanner/breakout_scanner.py: the other canned scans *)
(* ===================================================================== *)

Module Scans.

Local Open Scope Q_scope.

Definition is_oversold (r : RsiSignal) : bool :=
  match r with Oversold => true | _ => false end.

(** The [rsi_value] cell of a row of the table: NaN where the key is absent. *)
Definition rsi_value_cell (s : Signals) : F64 :=
  match rsi_value s with Some v => v | None => NaN end.

(** What pandas documents for [sort_values] on a float column: the rows
    reordered, those with a number in ascending (or descending) order of
    it. *)
Definition sort_rows_contract
  (sort_rows : (Signals -> F64) -> bool -> list Signals -> list Signals)
  : Prop :=
  forall (by_key : Signals -> F64) (ascending : bool) (rows : list Signals),
    Permutation rows (sort_rows by_key ascending rows)
    /\ (Forall (fun s => exists v, by_key s = Fin v) rows ->
        Sorted (fun a b => if ascending then fleb (by_key a) (by_key b) = true
                            else fleb (by_key b) (by_key a) = true)
               (sort_rows by_key ascending rows)).

Section WithFetch.

Variable fetch_historical_data : string -> string -> string -> pyres DataFrame.
Variable sort_rows :
  (Signals -> F64) -> bool -> list Signals -> list Signals.

(** [find_oversold_stocks(tickers)]; the table has an [rsi_value] column
    when at least one scanned row carries the key. *)
Definition find_oversold_stocks (tickers : list string)
  : pyres (list Signals) :=
  let* df := scan_multiple_tickers fetch_historical_data tickers "1y" "1d" in
  match df with
  | [] => Ok []
  | _ =>
      let has_rsi_column :=
        existsb (fun s => match rsi_value s with Some _ => true | None => false end)
                df in
      let df := filter (fun s => is_oversold (rsi_signal s)) df in
      if has_rsi_column then Ok (sort_rows rsi_value_cell true df)
      else Ok df
  end.

(** [find_golden_cross_stocks(tickers)] *)
Definition find_golden_cross_stocks (tickers : list string)
  : pyres (list Signals) :=
  let* df := scan_multiple_tickers fetch_historical_data tickers "1y" "1d" in
  match df with
  | [] => Ok []
  | _ => Ok (filter (fun s => is_golden_cross (ma_crossover s)) df)
  end.

End WithFetch.

End Scans.

Export Scans.

(* ===================================================================== *)
(** ** src/options/greeks.py: time to expiration *)
(* ===================================================================== *)

Module Expiry.

Local Open Scope Q_scope.

(** The argument of [calculate_time_to_expiration]: a date string, or a
    date (as its day number). *)
Inductive expiration_arg : Type :=
| DateString (s : string)
| DateValue (day : Z).

Section WithCalendar.

(** [datetime.strptime(s, '%Y-%m-%d').date()] as a day number ([ValueError]
    for a string that is not a date), and [date.today()]. *)
Variable strptime_date : string -> pyres Z.
Variable today : Z.

Definition calculate_time_to_expiration (expiration_date : expiration_arg)
  : pyres Q :=
  let* exp_date :=
    match expiration_date with
    | DateString s => strptime_date s
    | DateValue day => Ok day
    end in
  let days_to_expiration := (exp_date - today)%Z in
  Ok (py_max (inject_Z days_to_expiration / 365) (1 # 1000)).

End WithCalendar.

End Expiry.

Export Expiry.

(* ===================================================================== *)
(** ** More sample inputs *)
(* ===================================================================== *)

Module MoreSamples.

Local Open Scope Q_scope.

(** A sorting function within [sort_rows_contract]: plain insertion. *)
Definition row_before (by_key : Signals -> F64) (ascending : bool)
  (x y : Signals) : bool :=
  if ascending then fleb (by_key x) (by_key y)
  else fleb (by_key y) (by_key x).

Fixpoint insert_row (by_key : Signals -> F64) (ascending : bool)
  (x : Signals) (l : list Signals) : list Signals :=
  match l with
  | [] => [x]
  | y :: l' =>
      if row_before by_key ascending x y then x :: y :: l'
      else y :: insert_row by_key ascending x l'
  end.

Definition sort_rows_by_insertion (by_key : Signals -> F64)
  (ascending : bool) (rows : list Signals) : list Signals :=
  fold_right (insert_row by_key ascending) [] rows.

(** A bar that opens, trades and closes at one price. *)
Definition flat_bar_at (price : Q) : Bar := mkBar price price price price 1000.

(** 50 bars that lose a point a day from 150, and 50 that gain one from 100. *)
Definition falling_frame : DataFrame :=
  mkDF (map (fun n => flat_bar_at (inject_Z (150 - Z.of_nat n))) (seq 0 50)) [].

Definition rising_frame : DataFrame :=
  mkDF (map (fun n => flat_bar_at (inject_Z (100 + Z.of_nat n))) (seq 0 50)) [].

Definition trend_fetch (tk period interval : string) : pyres DataFrame :=
  if String.eqb tk "DWN" then Ok falling_frame
  else if String.eqb tk "UPP" then Ok rising_frame
  else if String.eqb tk "BRK" then Ok breakout_frame
  else Raise ValueError.

End MoreSamples.

Export MoreSamples.

(* ===================================================================== *)
(** ** src/analysis/patterns.py: the pattern summary *)
(* ===================================================================== *)

Module Summaries.

(** A value read out of a column, or computed from one. *)
Inductive Cell : Type :=
| BoolCell (b : bool)
| IntCell (n : Z)
| FloatCell (x : F64).

(** [series.sum()]: the number of [True] entries of a boolean column; the
    sum of a numeric one, NaN skipped. *)
Definition column_sum (c : Column) : Cell :=
  match c with
  | BoolCol bs => IntCell (Z.of_nat (length (filter (fun b => b) bs)))
  | FloatCol xs =>
      FloatCell (fold_left fadd (filter (fun x => negb (is_nan x)) xs)
                   (Fin 0))
  end.

(** [frame[name].sum()] *)
Definition sum_of (name : string) (frame : DataFrame) : pyres Cell :=
  let* c := get_column name (columns frame) in
  Ok (column_sum c).

(** [series.iloc[-k]] on a column. *)
Definition column_iloc_neg (c : Column) (k : nat) : pyres Cell :=
  match c with
  | BoolCol bs => let* b := iloc_neg bs k in Ok (BoolCell b)
  | FloatCol xs => let* x := iloc_neg xs k in Ok (FloatCell x)
  end.

Record PatternSummary : Type := mkPatternSummary {
  doji_count : Cell;
  bullish_engulfing_count : Cell;
  bearish_engulfing_count : Cell;
  hammer_count : Cell;
  shooting_star_count : Cell;
  summary_in_consolidation : Cell;
  consolidation_days : Cell;
  support_levels : list Q;
  resistance_levels : list Q;
  stats_52_week : Stats52
}.

(** What a call of [summarize_patterns] can end in: one of the built-in
    exceptions of the frame operations, or the [AttributeError] of
    [find_support_resistance_levels]. *)
Inductive summary_exn : Type :=
| Builtin (e : exn)
| Attribute (e : attribute_error).

(** [summarize_patterns(df)].  The entries of the dictionary literal are
    evaluated in the order in which they are written; the conditional
    expression reads the Consolidation column only when [recent] has a
    row. *)
Definition summarize_patterns (df : loc)
  : store -> (summary_exn + PatternSummary) * store :=
  fun st =>
    match add_all_patterns df st with
    | (Raise e, st) => (inl (Builtin e), st)
    | (Ok df_with_patterns, st) =>
        let recent := df_tail 30 (deref st df_with_patterns) in
        let counts :=
          let* doji := sum_of "Doji" recent in
          let* bullish := sum_of "Bullish_Engulfing" recent in
          let* bearish := sum_of "Bearish_Engulfing" recent in
          let* hammer := sum_of "Hammer" recent in
          let* star := sum_of "Shooting_Star" recent in
          let* consolidating :=
            if (0 <? df_len recent)%nat
            then let* c := get_column "Consolidation" (columns recent) in
                 column_iloc_neg c 1
            else Ok (BoolCell false) in
          let* days := sum_of "Consolidation" recent in
          Ok (doji, bullish, bearish, hammer, star, consolidating, days) in
        match counts with
        | Raise e => (inl (Builtin e), st)
        | Ok (doji, bullish, bearish, hammer, star, consolidating, days) =>
            match find_support_resistance_levels (deref st df) 20 3 with
            | inl e => (inl (Attribute e), st)
            | inr (support, resistance) =>
                match calculate_52_week_high_low (deref st df) with
                | Raise e => (inl (Builtin e), st)
                | Ok stats =>
                    (inr (mkPatternSummary doji bullish bearish hammer star
                            consolidating days support resistance stats),
                     st)
                end
            end
        end
    end.

End Summaries.

Export Summaries.

(* ===================================================================== *)
(** * Properties *)
(* ===================================================================== *)

Local Open Scope Q_scope.

(** ** Comparisons and finite values *)

Lemma Qltb_lt (a b : Q) : Qltb a b = true <-> a < b.
Proof.
  unfold Qltb. rewrite Bool.negb_true_iff.
  split; intros H.
  - apply Qnot_le_lt. intros Hle. apply Qle_bool_iff in Hle. congruence.
  - destruct (Qle_bool b a) eqn:E; [|reflexivity].
    apply Qle_bool_iff in E. lra.
Qed.

Lemma Qltb_ge (a b : Q) : Qltb a b = false <-> b <= a.
Proof.
  unfold Qltb. rewrite Bool.negb_false_iff. apply Qle_bool_iff.
Qed.

Lemma Qeq_bool_false_iff (a b : Q) : Qeq_bool a b = false <-> ~ a == b.
Proof.
  split; intros H.
  - intros E. apply Qeq_bool_iff in E. congruence.
  - destruct (Qeq_bool a b) eqn:E; [|reflexivity].
    apply Qeq_bool_iff in E. contradiction.
Qed.

Lemma fin_eq (a b : Q) : a == b -> fin a = fin b.
Proof. intros H. unfold fin. f_equal. apply Qred_complete, H. Qed.

Lemma fin_inv (a v : Q) : fin a = Fin v -> v == a.
Proof.
  unfold fin. intros H. injection H as <-. apply Qred_correct.
Qed.

Lemma py_max_Qmax (a b : Q) : py_max a b == Qmax a b.
Proof.
  unfold py_max. destruct (Qltb a b) eqn:E.
  - apply Qltb_lt in E. symmetry. apply Q.max_r. lra.
  - apply Qltb_ge in E. symmetry. apply Q.max_l. exact E.
Qed.

(** ** Option pricing at and after expiry *)

Section GreeksAtExpiry.

Variables np_log np_sqrt np_exp norm_cdf norm_pdf : F64 -> F64.

Let all_greeks := calculate_all_greeks np_log np_sqrt np_exp norm_cdf norm_pdf.
Let delta_of := calculate_delta np_log np_sqrt norm_cdf.

(** C7.  With time to expiry [T <= 0], whatever the spot, strike, rate and
    volatility: [calculate_all_greeks] returns; the theoretical price is the
    intrinsic value, [max(S-K,0)] for a call and [max(K-S,0)] for a put;
    gamma, theta, vega and rho are 0; delta is 1 for a call with [S > K]
    and 0 for any other call, -1 for a put with [S < K] and 0 for any other
    put.  (Every option type other than ['call'] is priced as a put.) *)
Theorem all_greeks_at_expiry (S K T r sigma : Q) (option_type : string) :
  T <= 0 ->
  exists g : GreeksResult,
    all_greeks S K T r sigma option_type = Ok g
    /\ gamma g = Fin 0 /\ theta g = Fin 0 /\ vega g = Fin 0 /\ rho g = Fin 0
    /\ (option_type = "call"%string ->
        theoretical_price g = fin (Qmax (S - K) 0)
        /\ (K < S -> delta g = Fin 1)
        /\ (~ K < S -> delta g = Fin 0))
    /\ (option_type <> "call"%string ->
        theoretical_price g = fin (Qmax (K - S) 0)
        /\ (S < K -> delta g = Fin (-1))
        /\ (~ S < K -> delta g = Fin 0)).
Proof.
  intros HT. apply Qle_bool_iff in HT.
  unfold all_greeks, calculate_all_greeks, calculate_delta, calculate_gamma,
    calculate_theta, calculate_vega, calculate_rho, black_scholes_call,
    black_scholes_put, is_call.
  rewrite HT.
  destruct (String.eqb option_type "call") eqn:Hc; simpl;
    eexists; (split; [reflexivity|]); simpl;
    (split; [reflexivity|]); (split; [reflexivity|]);
    (split; [reflexivity|]); (split; [reflexivity|]); split; intros Hty.
  - split; [apply fin_eq, py_max_Qmax|]. split; intros H.
    + apply Qltb_lt in H. now rewrite H.
    + destruct (Qltb K S) eqn:E; [|reflexivity].
      apply Qltb_lt in E. contradiction.
  - apply String.eqb_eq in Hc. contradiction.
  - rewrite Hty, String.eqb_refl in Hc. discriminate.
  - split; [apply fin_eq, py_max_Qmax|]. split; intros H.
    + apply Qltb_lt in H. now rewrite H.
    + destruct (Qltb S K) eqn:E; [|reflexivity].
      apply Qltb_lt in E. contradiction.
Qed.

(** C10.  With [T <= 0] and the spot equal to the strike, [calculate_delta]
    returns 0.0 for the call and for the put (indeed for every option type):
    the at-the-money case falls in the "otherwise" branch of both tests. *)
Theorem delta_at_the_money_at_expiry (S K T r sigma : Q)
  (option_type : string) :
  T <= 0 -> S == K ->
  delta_of S K T r sigma "call"%string = Ok (Fin 0)
  /\ delta_of S K T r sigma "put"%string = Ok (Fin 0)
  /\ delta_of S K T r sigma option_type = Ok (Fin 0).
Proof.
  intros HT HSK. apply Qle_bool_iff in HT.
  assert (H1 : Qltb K S = false) by (apply Qltb_ge; lra).
  assert (H2 : Qltb S K = false) by (apply Qltb_ge; lra).
  unfold delta_of, calculate_delta. rewrite HT, H1, H2. simpl.
  repeat split. now destruct (is_call option_type).
Qed.

End GreeksAtExpiry.

(** The two theorems at an expired call 10 in the money, and at the money. *)
Lemma all_greeks_at_expiry_witness :
  exists g : GreeksResult,
    calculate_all_greeks (fun x => x) (fun x => x) (fun x => x) (fun x => x)
      (fun x => x) 110 100 0 (1 # 20) (1 # 5) "call" = Ok g
    /\ gamma g = Fin 0 /\ theta g = Fin 0 /\ vega g = Fin 0 /\ rho g = Fin 0
    /\ theoretical_price g = Fin 10 /\ delta g = Fin 1.
Proof.
  destruct (all_greeks_at_expiry (fun x => x) (fun x => x) (fun x => x)
              (fun x => x) (fun x => x) 110 100 0 (1 # 20) (1 # 5) "call")
    as (g & Hg & Hga & Hth & Hv & Hr & Hcall & _).
  - vm_compute. discriminate.
  - exists g. destruct (Hcall eq_refl) as (Hp & Hd & _).
    repeat split; try assumption.
    apply Hd. reflexivity.
Defined.

Lemma delta_at_the_money_at_expiry_witness :
  calculate_delta (fun x => x) (fun x => x) (fun x => x)
    100 100 0 (1 # 20) (1 # 5) "call" = Ok (Fin 0)
  /\ calculate_delta (fun x => x) (fun x => x) (fun x => x)
       100 100 0 (1 # 20) (1 # 5) "put" = Ok (Fin 0).
Proof.
  destruct (delta_at_the_money_at_expiry (fun x => x) (fun x => x)
              (fun x => x) 100 100 0 (1 # 20) (1 # 5) "put")
    as (Hc & Hp & _).
  - vm_compute. discriminate.
  - reflexivity.
  - split; assumption.
Defined.

(** ** The sorting contract is satisfiable *)

Section SortKeepingTies.

Variable by_key : Candidate -> Z.
Variable ascending : bool.

Let ordered (a b : Candidate) : Prop :=
  if ascending then (by_key a <= by_key b)%Z else (by_key b <= by_key a)%Z.

Lemma strictly_before_ordered (x y : Candidate) :
  strictly_before by_key ascending x y = true -> ordered x y.
Proof.
  unfold strictly_before, ordered. destruct ascending; intros H;
    apply Z.ltb_lt in H; lia.
Qed.

Lemma not_strictly_before_ordered (x y : Candidate) :
  strictly_before by_key ascending x y = false -> ordered y x.
Proof.
  unfold strictly_before, ordered. destruct ascending; intros H;
    apply Z.ltb_ge in H; lia.
Qed.

Lemma insert_before_ties_perm (x : Candidate) (l : list Candidate) :
  Permutation (x :: l) (insert_before_ties by_key ascending x l).
Proof.
  induction l as [|y l IH]; simpl.
  - reflexivity.
  - destruct (strictly_before by_key ascending y x).
    + rewrite perm_swap. now apply perm_skip.
    + reflexivity.
Qed.

Lemma insert_before_ties_hd (a x : Candidate) (l : list Candidate) :
  ordered a x -> HdRel ordered a l ->
  HdRel ordered a (insert_before_ties by_key ascending x l).
Proof.
  intros Hax Hl. destruct l as [|y l]; simpl.
  - now constructor.
  - destruct (strictly_before by_key ascending y x).
    + inversion Hl; subst. now constructor.
    + now constructor.
Qed.

Lemma insert_before_ties_sorted (x : Candidate) (l : list Candidate) :
  Sorted ordered l -> Sorted ordered (insert_before_ties by_key ascending x l).
Proof.
  induction 1 as [|y l Hs IH Hhd]; simpl.
  - repeat constructor.
  - destruct (strictly_before by_key ascending y x) eqn:E.
    + constructor; [exact IH|].
      apply insert_before_ties_hd; [|exact Hhd].
      now apply strictly_before_ordered.
    + constructor; [now constructor|].
      constructor. now apply not_strictly_before_ordered.
Qed.

Lemma sort_keeping_ties_spec (rows : list Candidate) :
  Permutation rows (sort_keeping_ties by_key ascending rows)
  /\ Sorted ordered (sort_keeping_ties by_key ascending rows).
Proof.
  induction rows as [|x rows [IHp IHs]]; simpl.
  - split; constructor.
  - split.
    + etransitivity; [|apply insert_before_ties_perm]. now apply perm_skip.
    + now apply insert_before_ties_sorted.
Qed.

End SortKeepingTies.

Lemma sort_keeping_ties_contract : sort_values_contract sort_keeping_ties.
Proof. intros by_key ascending rows. apply sort_keeping_ties_spec. Qed.

(** ** Ranking of breakout candidates *)

Section Ranking.

Variable fetch : string -> string -> string -> pyres DataFrame.
Variable sort_values :
  (Candidate -> Z) -> bool -> list Candidate -> list Candidate.

Lemma scan_multiple_tickers_ok (tickers : list string) (period interval : string) :
  scan_multiple_tickers fetch tickers period interval
  = Ok (scan_loop fetch tickers period interval []).
Proof.
  unfold scan_multiple_tickers.
  now destruct (scan_loop fetch tickers period interval []).
Qed.

Lemma find_breakout_candidates_ok (tickers : list string) :
  sort_values_contract sort_values ->
  exists out,
    find_breakout_candidates fetch sort_values tickers = Ok out
    /\ Permutation
         (scored_candidates (scan_loop fetch tickers "1y" "1d" [])) out
    /\ Sorted (fun a b => (breakout_score b <= breakout_score a)%Z) out.
Proof.
  intros Hsort. unfold find_breakout_candidates.
  rewrite scan_multiple_tickers_ok. simpl.
  destruct (scan_loop fetch tickers "1y" "1d" []) as [|s df] eqn:E.
  - exists []. repeat split; constructor.
  - eexists. split; [reflexivity|].
    destruct (Hsort breakout_score false (scored_candidates (s :: df)))
      as [Hp Hs].
    split; assumption.
Qed.

Lemma scored_candidates_score (df : list Signals) (c : Candidate) :
  In c (scored_candidates df) ->
  is_breaking_out c = breaking_out (consolidation (signals c))
  /\ breakout_score c
     = (3 * Z.b2z (is_breaking_out c)
        + 2 * Z.b2z (near_52w_high (signals c))
        + 2 * Z.b2z (volume_surge (signals c))
        + 2 * Z.b2z (is_golden_cross (ma_crossover (signals c))))%Z.
Proof.
  unfold scored_candidates. intros H.
  apply in_map_iff in H. destruct H as ([s b] & <- & H).
  apply filter_In in H. destruct H as [H _].
  apply in_map_iff in H. destruct H as (s' & Hs' & _).
  unfold extract_breaking_out in Hs'. injection Hs' as -> <-.
  simpl. split; [reflexivity|lia].
Qed.

(** C1.  Every record that [find_breakout_candidates] returns carries the
    composite score 3 * breaking_out + 2 * near_52w_high + 2 * volume_surge
    + 2 * (ma_crossover is golden_cross), with each flag counted as 0 or 1;
    so a record with breaking_out and near_52w_high set, volume_surge clear
    and a golden cross scores exactly 7.  (Whatever the sort does with the
    rows, it returns the rows it was given.) *)
Theorem breakout_score_formula (tickers : list string)
  (out : list Candidate) (c : Candidate) :
  sort_values_contract sort_values ->
  find_breakout_candidates fetch sort_values tickers = Ok out ->
  In c out ->
  is_breaking_out c = breaking_out (consolidation (signals c))
  /\ breakout_score c
     = (3 * Z.b2z (is_breaking_out c)
        + 2 * Z.b2z (near_52w_high (signals c))
        + 2 * Z.b2z (volume_surge (signals c))
        + 2 * Z.b2z (is_golden_cross (ma_crossover (signals c))))%Z
  /\ (is_breaking_out c = true ->
      near_52w_high (signals c) = true ->
      volume_surge (signals c) = false ->
      ma_crossover (signals c) = GoldenCross ->
      breakout_score c = 7%Z).
Proof.
  intros Hsort Hout Hin.
  destruct (find_breakout_candidates_ok tickers Hsort) as (out' & E & Hp & _).
  rewrite Hout in E. injection E as <-.
  apply Permutation_sym in Hp.
  apply (Permutation_in _ Hp) in Hin.
  destruct (scored_candidates_score _ _ Hin) as [Hb Hs].
  split; [exact Hb|]. split; [exact Hs|].
  intros H1 H2 H3 H4. rewrite Hs, H1, H2, H3, H4. reflexivity.
Qed.

(** X30.  [find_breakout_candidates] returns for every ticker list.  Its
    records come back in descending order of breakout_score, and they are
    the scored candidates of the scan, each exactly once.  (The order of
    records with equal scores is the sorting algorithm's: the code calls
    [sort_values] with its default [kind], and the contract of that call
    says nothing about it.) *)
Theorem breakout_candidates_sorted_descending (tickers : list string) :
  sort_values_contract sort_values ->
  exists scan out,
    scan_multiple_tickers fetch tickers "1y" "1d" = Ok scan
    /\ find_breakout_candidates fetch sort_values tickers = Ok out
    /\ Sorted (fun a b => (breakout_score b <= breakout_score a)%Z) out
    /\ Permutation (scored_candidates scan) out.
Proof.
  intros Hsort.
  destruct (find_breakout_candidates_ok tickers Hsort) as (out & E & Hp & Hs).
  exists (scan_loop fetch tickers "1y" "1d" []), out.
  split; [apply scan_multiple_tickers_ok|]. repeat split; assumption.
Qed.

End Ranking.

(** The score of the breakout sample: all of the pattern of C1, score 7. *)
Lemma breakout_score_formula_witness :
  exists c : Candidate,
    find_breakout_candidates sample_fetch sort_keeping_ties ["BRK"%string]
    = Ok [c]
    /\ is_breaking_out c = true
    /\ near_52w_high (signals c) = true
    /\ volume_surge (signals c) = false
    /\ ma_crossover (signals c) = GoldenCross
    /\ breakout_score c = 7%Z.
Proof.
  pose (c := with_score
               (extract_breaking_out
                  (default
                     (mkSignals "" 0 None false Neutral NoCross false
                        (mkConsolidation false false) None None None)
                     (scan_ticker sample_fetch "BRK" "1y" "1d")))).
  assert (Hrun : find_breakout_candidates sample_fetch sort_keeping_ties
                   ["BRK"%string] = Ok [c]) by (vm_compute; reflexivity).
  destruct (breakout_score_formula sample_fetch sort_keeping_ties
              ["BRK"%string] [c] c sort_keeping_ties_contract Hrun
              (or_introl eq_refl)) as (_ & _ & H7).
  exists c. split; [exact Hrun|].
  assert (H1 : is_breaking_out c = true) by (vm_compute; reflexivity).
  assert (H2 : near_52w_high (signals c) = true) by (vm_compute; reflexivity).
  assert (H3 : volume_surge (signals c) = false) by (vm_compute; reflexivity).
  assert (H4 : ma_crossover (signals c) = GoldenCross)
    by (vm_compute; reflexivity).
  split; [exact H1|]. split; [exact H2|]. split; [exact H3|].
  split; [exact H4|]. exact (H7 H1 H2 H3 H4).
Defined.

(** A surge, a breakout and an unknown ticker: the breakout ranks first. *)
Lemma breakout_candidates_sorted_descending_witness :
  exists scan out,
    scan_multiple_tickers sample_fetch ["AAA"; "BRK"; "ZZZ"]%string "1y" "1d"
    = Ok scan
    /\ find_breakout_candidates sample_fetch sort_keeping_ties
         ["AAA"; "BRK"; "ZZZ"]%string = Ok out
    /\ Sorted (fun a b => (breakout_score b <= breakout_score a)%Z) out
    /\ Permutation (scored_candidates scan) out.
Proof.
  exact (breakout_candidates_sorted_descending sample_fetch sort_keeping_ties
           ["AAA"; "BRK"; "ZZZ"]%string sort_keeping_ties_contract).
Defined.

(** ** What a scan row records *)

(** A row that [scan_ticker] produced from the frame [df] holds the results
    of the individual checks on [df]. *)
Lemma scan_ticker_fields
  (fetch : string -> string -> string -> pyres DataFrame)
  (tk period interval : string) (df : DataFrame) (s : Signals) :
  fetch tk period interval = Ok df ->
  scan_ticker fetch tk period interval = Some s ->
  (50 <= df_len df)%nat
  /\ ticker s = tk
  /\ calculate_relative_volume df 20 = Ok (relative_volume s)
  /\ check_volume_surge df 2 = Ok (volume_surge s)
  /\ check_rsi_signal df 30 70 = Ok (rsi_signal s)
  /\ check_ma_crossover df = Ok (ma_crossover s)
  /\ check_near_52w_high df 5 = Ok (near_52w_high s)
  /\ check_consolidation_breakout df = Ok (consolidation s).
Proof.
  intros Hf. unfold scan_ticker, scan_ticker_body. rewrite Hf. simpl.
  destruct ((df_len df =? 0)%nat || (df_len df <? 50)%nat) eqn:Hlen;
    [discriminate|].
  apply Bool.orb_false_iff in Hlen. destruct Hlen as [_ Hlen].
  apply Nat.ltb_ge in Hlen.
  destruct (iloc_neg (col_Close df) 1); [|discriminate]. simpl.
  destruct (calculate_relative_volume df 20); [|discriminate]. simpl.
  destruct (check_volume_surge df 2); [|discriminate]. simpl.
  destruct (check_rsi_signal df 30 70); [|discriminate]. simpl.
  destruct (check_ma_crossover df); [|discriminate]. simpl.
  destruct (check_near_52w_high df 5); [|discriminate]. simpl.
  destruct (check_consolidation_breakout df); [|discriminate]. simpl.
  destruct (if (5 <? df_len df)%nat then _ else _); [|discriminate]. simpl.
  destruct (if (20 <? df_len df)%nat then _ else _); [|discriminate]. simpl.
  destruct (match calculate_rsi (col_Close df) default_rsi_period with
            | [] => _ | _ => _ end); [|discriminate]. simpl.
  intros H. injection H as <-. simpl. repeat split; try reflexivity.
  exact Hlen.
Qed.

(** ** Distance from the 52-week high *)

Lemma fleb_fabs_fin (p t : Q) :
  fleb (fabs (Fin p)) (Fin t) = true <-> - t <= p /\ p <= t.
Proof.
  unfold fabs, fin. simpl. rewrite Qle_bool_iff, Qred_correct.
  apply Qabs_Qle_condition.
Qed.

(** C3, as the code has it.  The near_52w_high flag of a scan row is true
    exactly when the absolute value of
    pct_from_high = (currentClose - high52) / high52 * 100 is at most 5,
    where high52 is the highest High of the trailing min(252, length) bars:
    both sides are bounded and the bounds are included; the flag is false
    when pct_from_high is not a finite number.  The strict one-sided test
    pct_from_high > -5 is the near_52w_high entry of
    [calculate_52_week_high_low], which the scan does not read. *)
Theorem scan_near_52w_high_two_sided
  (fetch : string -> string -> string -> pyres DataFrame)
  (tk period interval : string) (df : DataFrame) (s : Signals) :
  fetch tk period interval = Ok df ->
  scan_ticker fetch tk period interval = Some s ->
  exists (stats : Stats52) (current_close : Q),
    calculate_52_week_high_low df = Ok stats
    /\ iloc_neg (col_Close df) 1 = Ok current_close
    /\ week52_high stats
       = series_max (col_High (df_tail (Nat.min 252 (df_len df)) df))
    /\ pct_from_high stats
       = fmul (fdiv (fsub (Fin current_close) (week52_high stats))
                    (week52_high stats)) (Fin 100)
    /\ near_52w_high s = fleb (fabs (pct_from_high stats)) (Fin 5)
    /\ stats_near_52w_high stats = fgtb (pct_from_high stats) (Fin (-5))
    /\ (forall p : Q, pct_from_high stats = Fin p ->
        (near_52w_high s = true <-> -5 <= p /\ p <= 5))
    /\ (is_nan (pct_from_high stats) || is_inf (pct_from_high stats) = true ->
        near_52w_high s = false).
Proof.
  intros Hf Hs.
  destruct (scan_ticker_fields fetch tk period interval df s Hf Hs)
    as (_ & _ & _ & _ & _ & _ & Hnear & _).
  unfold check_near_52w_high in Hnear.
  destruct (calculate_52_week_high_low df) as [stats|] eqn:Hst;
    [|discriminate].
  cbn [bind] in Hnear. injection Hnear as Hnear.
  unfold calculate_52_week_high_low in Hst.
  destruct (iloc_neg (col_Close df) 1) as [c|] eqn:Hc; [|discriminate].
  cbn [bind] in Hst. injection Hst as Hst.
  assert (Hlook : (if (df_len df <? 252)%nat then df_len df else 252%nat)
                  = Nat.min 252 (df_len df)).
  { destruct (df_len df <? 252)%nat eqn:E;
      [apply Nat.ltb_lt in E|apply Nat.ltb_ge in E]; lia. }
  rewrite Hlook in Hst.
  exists stats, c. rewrite <- Hnear.
  split; [reflexivity|]. split; [reflexivity|].
  split; [now rewrite <- Hst|].
  split; [now rewrite <- Hst|].
  split; [reflexivity|].
  split; [now rewrite <- Hst|].
  split.
  - intros p Hp. rewrite Hp. apply (fleb_fabs_fin p 5).
  - intros Hbad. destruct (pct_from_high stats); try discriminate; reflexivity.
Qed.

(** A frame whose last close sits exactly 5% below the 52-week high. *)
Lemma scan_near_52w_high_two_sided_witness :
  exists (s : Signals) (stats : Stats52),
    scan_ticker (fun _ _ _ => Ok five_below_frame) "LOW" "1y" "1d" = Some s
    /\ calculate_52_week_high_low five_below_frame = Ok stats
    /\ near_52w_high s = fleb (fabs (pct_from_high stats)) (Fin 5).
Proof.
  pose (s := default
               (mkSignals "" 0 None false Neutral NoCross false
                  (mkConsolidation false false) None None None)
               (scan_ticker (fun _ _ _ => Ok five_below_frame)
                  "LOW" "1y" "1d")).
  assert (Hs : scan_ticker (fun _ _ _ => Ok five_below_frame) "LOW" "1y" "1d"
               = Some s) by (vm_compute; reflexivity).
  destruct (scan_near_52w_high_two_sided (fun _ _ _ => Ok five_below_frame)
              "LOW" "1y" "1d" five_below_frame s eq_refl Hs)
    as (stats & c & Hst & _ & _ & _ & Hflag & _).
  exists s, stats. repeat split; assumption.
Defined.

(** C3 as stated does not hold: at exactly 5% below the high the scan
    reports near_52w_high although pct_from_high > -5 is false. *)
Lemma scan_near_52w_high_at_minus_five :
  exists (s : Signals) (stats : Stats52),
    scan_ticker (fun _ _ _ => Ok five_below_frame) "LOW" "1y" "1d" = Some s
    /\ calculate_52_week_high_low five_below_frame = Ok stats
    /\ pct_from_high stats = Fin (-5)
    /\ near_52w_high s = true
    /\ fgtb (pct_from_high stats) (Fin (-5)) = false.
Proof.
  eexists. eexists.
  split; [vm_compute; reflexivity|].
  split; [vm_compute; reflexivity|].
  repeat split; vm_compute; reflexivity.
Qed.

(** ** Lists: element-wise maps and trailing windows *)

Lemma map2_nth_error {A B C : Type} (f : A -> B -> C)
  (xs : list A) (ys : list B) (i : nat) :
  nth_error (map2 f xs ys) i
  = match nth_error xs i, nth_error ys i with
    | Some a, Some b => Some (f a b)
    | _, _ => None
    end.
Proof.
  unfold map2. revert ys i.
  induction xs as [|x xs IH]; intros [|y ys] [|i]; simpl; try reflexivity.
  - now destruct (nth_error xs i).
  - apply IH.
Qed.

Lemma map2_length {A B C : Type} (f : A -> B -> C)
  (xs : list A) (ys : list B) :
  length (map2 f xs ys) = Nat.min (length xs) (length ys).
Proof. unfold map2. now rewrite length_map, length_combine. Qed.

Lemma rolling_length (w : nat) (agg : list Q -> F64) (xs : list Q) :
  length (rolling w agg xs) = length xs.
Proof. unfold rolling. now rewrite length_map, length_seq. Qed.

Lemma rolling_nth_error (w : nat) (agg : list Q -> F64) (xs : list Q)
  (i : nat) (v : F64) :
  nth_error (rolling w agg xs) i = Some v ->
  (i < length xs)%nat
  /\ v = (if (w =? 0)%nat || (i + 1 <? w)%nat then NaN
          else agg (window_at w xs i)).
Proof.
  unfold rolling. intros H.
  assert (Hi : (i < length xs)%nat).
  { assert (Hn : nth_error (map (fun i => if (w =? 0)%nat || (i + 1 <? w)%nat
                                          then NaN else agg (window_at w xs i))
                               (seq 0 (length xs))) i <> None) by congruence.
    apply nth_error_Some in Hn. now rewrite length_map, length_seq in Hn. }
  split; [exact Hi|].
  rewrite nth_error_map in H.
  rewrite nth_error_seq in H.
  destruct (i <? length xs)%nat eqn:E; [|apply Nat.ltb_ge in E; lia].
  simpl in H. now injection H as <-.
Qed.

Lemma in_firstn {A : Type} (n : nat) (xs : list A) (x : A) :
  In x (firstn n xs) -> In x xs.
Proof.
  intros H. rewrite <- (firstn_skipn n xs). apply in_or_app. now left.
Qed.

Lemma in_skipn {A : Type} (n : nat) (xs : list A) (x : A) :
  In x (skipn n xs) -> In x xs.
Proof.
  intros H. rewrite <- (firstn_skipn n xs). apply in_or_app. now right.
Qed.

Lemma window_at_Forall (P : Q -> Prop) (w : nat) (xs : list Q) (i : nat) :
  Forall P xs -> Forall P (window_at w xs i).
Proof.
  intros H. unfold window_at.
  apply Forall_forall. intros x Hx.
  apply (proj1 (Forall_forall P xs) H).
  eapply in_skipn, in_firstn, Hx.
Qed.

Lemma Qsum_nonneg (xs : list Q) : Forall (fun x => 0 <= x) xs -> 0 <= Qsum xs.
Proof.
  induction 1 as [|x xs Hx _ IH]; simpl; [lra|].
  change (0 <= x + Qsum xs). lra.
Qed.

(** The mean of non-negative samples is NaN (no samples) or non-negative. *)
Lemma series_mean_nonneg (xs : list Q) :
  Forall (fun x => 0 <= x) xs ->
  series_mean xs = NaN \/ exists m, series_mean xs = Fin m /\ 0 <= m.
Proof.
  intros H. destruct xs as [|x xs]; [now left|right].
  eexists. split; [reflexivity|].
  rewrite Qred_correct.
  apply Qle_shift_div_l.
  - change 0 with (inject_Z 0). rewrite <- Zlt_Qlt. simpl length. lia.
  - rewrite Qmult_0_l. now apply Qsum_nonneg.
Qed.

(** ** RSI *)

Lemma gain_of_nonneg (d : option Q) : 0 <= gain_of d.
Proof.
  destruct d as [d|]; simpl; [|lra].
  destruct (Qltb 0 d) eqn:E; [apply Qltb_lt in E|]; lra.
Qed.

Lemma loss_of_nonneg (d : option Q) : 0 <= loss_of d.
Proof.
  destruct d as [d|]; simpl; [|lra].
  destruct (Qltb d 0) eqn:E; [apply Qltb_lt in E|]; [|lra].
  rewrite Qred_correct. lra.
Qed.

Lemma rolling_mean_nonneg (w : nat) (xs : list Q) (i : nat) (v : F64) :
  Forall (fun x => 0 <= x) xs ->
  nth_error (rolling w series_mean xs) i = Some v ->
  v = NaN \/ exists m, v = Fin m /\ 0 <= m.
Proof.
  intros Hxs H. apply rolling_nth_error in H. destruct H as [_ ->].
  destruct ((w =? 0)%nat || (i + 1 <? w)%nat); [now left|].
  apply series_mean_nonneg, window_at_Forall, Hxs.
Qed.

Lemma avg_gain_nonneg (data : list Q) (period i : nat) (v : F64) :
  nth_error (avg_gain data period) i = Some v ->
  v = NaN \/ exists m, v = Fin m /\ 0 <= m.
Proof.
  apply rolling_mean_nonneg, Forall_forall.
  intros x Hx. apply in_map_iff in Hx. destruct Hx as (d & <- & _).
  apply gain_of_nonneg.
Qed.

Lemma avg_loss_nonneg (data : list Q) (period i : nat) (v : F64) :
  nth_error (avg_loss data period) i = Some v ->
  v = NaN \/ exists m, v = Fin m /\ 0 <= m.
Proof.
  apply rolling_mean_nonneg, Forall_forall.
  intros x Hx. apply in_map_iff in Hx. destruct Hx as (d & <- & _).
  apply loss_of_nonneg.
Qed.

(** [100 - 100 / (1 + rs)] for a finite, non-negative [rs]. *)
Lemma rsi_of_rs_fin (q : Q) :
  0 <= q -> exists x, rsi_of_rs (fin q) = Fin x /\ 0 <= x /\ x < 100.
Proof.
  intros Hq. unfold rsi_of_rs, fin. cbn [fadd fin].
  unfold fin. cbn [fdiv].
  assert (Hden : Qred (1 + Qred q) == 1 + q) by (now rewrite !Qred_correct).
  assert (Hne : Qeq_bool (Qred (1 + Qred q)) 0 = false).
  { apply Qeq_bool_false_iff. rewrite Hden. lra. }
  rewrite Hne. unfold fsub, fneg, fin, fadd.
  eexists. split; [reflexivity|].
  rewrite !Qred_correct.
  assert (Hpos : 0 < 100 / (1 + q)).
  { apply Qlt_shift_div_l; lra. }
  assert (Hle : 100 / (1 + q) <= 100).
  { apply Qle_shift_div_r; lra. }
  lra.
Qed.

(** The RSI value computed from a defined average gain and average loss. *)
Lemma rsi_of_averages (g l : Q) :
  0 <= g -> 0 <= l ->
  (l == 0 -> 0 < g -> rsi_of_rs (fdiv (Fin g) (Fin l)) = Fin 100)
  /\ (l == 0 -> g == 0 -> rsi_of_rs (fdiv (Fin g) (Fin l)) = NaN)
  /\ (forall x, rsi_of_rs (fdiv (Fin g) (Fin l)) = Fin x ->
      0 <= x /\ x <= 100)
  /\ is_inf (rsi_of_rs (fdiv (Fin g) (Fin l))) = false.
Proof.
  intros Hg Hl. cbn [fdiv].
  destruct (Qeq_bool l 0) eqn:El.
  - apply Qeq_bool_iff in El.
    destruct (Qeq_bool g 0) eqn:Eg.
    + apply Qeq_bool_iff in Eg.
      repeat split; try reflexivity; try discriminate. intros _ Hpos. lra.
    + apply Qeq_bool_false_iff in Eg.
      assert (Hpos : Qltb 0 g = true) by (apply Qltb_lt; lra).
      rewrite Hpos.
      repeat split; try reflexivity.
      * intros _ Hz. contradiction.
      * vm_compute in H. injection H as <-. discriminate.
      * vm_compute in H. injection H as <-. discriminate.
  - apply Qeq_bool_false_iff in El.
    assert (Hq : 0 <= g / l) by (apply Qle_shift_div_l; lra).
    destruct (rsi_of_rs_fin (g / l) Hq) as (x & -> & H0 & H100).
    repeat split; try reflexivity.
    + intros Hz. contradiction.
    + intros Hz. contradiction.
    + injection H as <-. exact H0.
    + injection H as <-. lra.
Qed.

(** C4.  At every index where the rolling average gain [g] and the rolling
    average loss [l] are both defined, the RSI series has a value: it is
    exactly 100 when [l = 0] and [g > 0]; it is undefined (NaN) when
    [l = 0] and [g = 0]; wherever it is a number it lies in [0, 100]; and it
    is never an infinity.  (The averages themselves are never negative.) *)
Theorem rsi_special_cases_and_range (data : list Q) (period i : nat)
  (g l : Q) :
  nth_error (avg_gain data period) i = Some (Fin g) ->
  nth_error (avg_loss data period) i = Some (Fin l) ->
  exists v : F64,
    nth_error (calculate_rsi data period) i = Some v
    /\ (l == 0 -> 0 < g -> v = Fin 100)
    /\ (l == 0 -> g == 0 -> v = NaN)
    /\ (forall x, v = Fin x -> 0 <= x /\ x <= 100)
    /\ is_inf v = false.
Proof.
  intros Hg Hl.
  assert (Hg0 : 0 <= g).
  { destruct (avg_gain_nonneg _ _ _ _ Hg) as [H|(m & H & Hm)];
      [discriminate|]. now injection H as ->. }
  assert (Hl0 : 0 <= l).
  { destruct (avg_loss_nonneg _ _ _ _ Hl) as [H|(m & H & Hm)];
      [discriminate|]. now injection H as ->. }
  exists (rsi_of_rs (fdiv (Fin g) (Fin l))). split.
  - unfold calculate_rsi. rewrite nth_error_map, map2_nth_error, Hg, Hl.
    reflexivity.
  - apply rsi_of_averages; assumption.
Qed.

(** Nowhere in the RSI series, warm-up included, is there an infinity or a
    number outside [0, 100]. *)
Lemma rsi_never_infinite (data : list Q) (period i : nat) (v : F64) :
  nth_error (calculate_rsi data period) i = Some v ->
  is_inf v = false /\ (forall x, v = Fin x -> 0 <= x /\ x <= 100).
Proof.
  unfold calculate_rsi. rewrite nth_error_map, map2_nth_error.
  destruct (nth_error (avg_gain data period) i) as [a|] eqn:Ha;
    [|discriminate].
  destruct (nth_error (avg_loss data period) i) as [b|] eqn:Hb;
    [|discriminate].
  simpl. intros H. injection H as <-.
  destruct (avg_gain_nonneg _ _ _ _ Ha) as [->|(g & -> & Hg)];
    [split; [reflexivity|discriminate]|].
  destruct (avg_loss_nonneg _ _ _ _ Hb) as [->|(l & -> & Hl)];
    [split; [reflexivity|discriminate]|].
  destruct (rsi_of_averages g l Hg Hl) as (_ & _ & Hr & Hi).
  split; assumption.
Qed.

(** Three rises in a row: no loss in the window, RSI 100. *)
Lemma rsi_special_cases_and_range_witness :
  nth_error (calculate_rsi [1; 2; 3; 4; 5; 5; 5; 5; 4; 6] 3) 3
  = Some (Fin 100).
Proof.
  destruct (rsi_special_cases_and_range [1; 2; 3; 4; 5; 5; 5; 5; 4; 6] 3 3
              1 0 eq_refl eq_refl) as (v & Hv & H100 & _).
  rewrite Hv. f_equal. apply H100; [reflexivity|reflexivity].
Defined.

(** ** Positional indexing never fails within bounds *)

Lemma iloc_neg_ok {A : Type} (xs : list A) (k : nat) :
  (1 <= k <= length xs)%nat -> exists x, iloc_neg xs k = Ok x.
Proof.
  intros [Hk1 Hk2]. unfold iloc_neg.
  destruct (length xs <? k)%nat eqn:E; [apply Nat.ltb_lt in E; lia|].
  destruct (nth_error xs (length xs - k)) as [x|] eqn:Hn; [now exists x|].
  apply nth_error_None in Hn. lia.
Qed.

Lemma iloc_neg_last {A : Type} (xs : list A) (x : A) :
  iloc_neg (xs ++ [x]) 1 = Ok x.
Proof.
  unfold iloc_neg. rewrite length_app. simpl.
  replace (length xs + 1 - 1)%nat with (length xs) by lia.
  destruct (length xs + 1 <? 1)%nat eqn:E; [apply Nat.ltb_lt in E; lia|].
  rewrite nth_error_app2 by lia. now rewrite Nat.sub_diag.
Qed.

Lemma col_Close_length (df : DataFrame) : length (col_Close df) = df_len df.
Proof. unfold col_Close, df_len. apply length_map. Qed.

Lemma col_Volume_length (df : DataFrame) : length (col_Volume df) = df_len df.
Proof. unfold col_Volume, df_len. apply length_map. Qed.

Lemma diff_length (xs : list Q) : length (diff xs) = length xs.
Proof.
  destruct xs as [|x xs]; [reflexivity|]. simpl. f_equal.
  revert x. induction xs as [|y xs IH]; intros x; simpl; [reflexivity|].
  f_equal. apply IH.
Qed.

Lemma calculate_rsi_length (data : list Q) (period : nat) :
  length (calculate_rsi data period) = length data.
Proof.
  unfold calculate_rsi, avg_gain, avg_loss.
  rewrite length_map, map2_length, !rolling_length, !length_map, diff_length.
  apply Nat.min_id.
Qed.

Lemma detect_consolidation_length (df : DataFrame) (window : nat)
  (threshold : Q) :
  length (detect_consolidation df window threshold) = df_len df.
Proof.
  unfold detect_consolidation.
  rewrite length_map, !map2_length, !rolling_length.
  unfold col_High, col_Low, df_len. rewrite !length_map. lia.
Qed.

(** ** Columns of a frame *)

Lemma get_set_column_eq (name : string) (col : Column)
  (cols : list (string * Column)) :
  get_column name (set_column name col cols) = Ok col.
Proof.
  induction cols as [|[n c] cols IH]; simpl.
  - now rewrite String.eqb_refl.
  - destruct (String.eqb n name) eqn:E; simpl; rewrite E; [reflexivity|].
    exact IH.
Qed.

Lemma get_set_column_ne (name other : string) (col : Column)
  (cols : list (string * Column)) :
  name <> other ->
  get_column name (set_column other col cols) = get_column name cols.
Proof.
  intros Hne. induction cols as [|[n c] cols IH]; simpl.
  - destruct (String.eqb other name) eqn:E; [|reflexivity].
    apply String.eqb_eq in E. congruence.
  - destruct (String.eqb n other) eqn:E; simpl.
    + apply String.eqb_eq in E. subst n.
      destruct (String.eqb other name) eqn:E'; [|reflexivity].
      apply String.eqb_eq in E'. congruence.
    + destruct (String.eqb n name); [reflexivity|exact IH].
Qed.

Lemma get_column_tail (name : string) (n : nat)
  (cols : list (string * Column)) :
  get_column name (map (fun nc => (fst nc, column_tail n (snd nc))) cols)
  = match get_column name cols with
    | Ok c => Ok (column_tail n c)
    | Raise e => Raise e
    end.
Proof.
  induction cols as [|[m c] cols IH]; simpl; [reflexivity|].
  destruct (String.eqb m name); [reflexivity|exact IH].
Qed.

(** The two flag columns, as [check_ma_crossover] reads them back. *)
Lemma recent_golden_cross (df : DataFrame) :
  df_bool "Golden_Cross" (df_tail 5 (identify_golden_death_cross df))
  = Ok (tail 5 (map (fun c => (c =? 1)%Z) (sma_crossover df))).
Proof.
  unfold df_bool, df_tail, identify_golden_death_cross, df_set.
  cbn [columns bars].
  rewrite get_column_tail, get_set_column_ne by discriminate.
  rewrite get_set_column_eq. reflexivity.
Qed.

Lemma recent_death_cross (df : DataFrame) :
  df_bool "Death_Cross" (df_tail 5 (identify_golden_death_cross df))
  = Ok (tail 5 (map (fun c => (c =? -1)%Z) (sma_crossover df))).
Proof.
  unfold df_bool, df_tail, identify_golden_death_cross, df_set.
  cbn [columns bars].
  rewrite get_column_tail, get_set_column_eq. reflexivity.
Qed.

(** ** The individual checks return on every scanned frame *)

Lemma calculate_relative_volume_ok (df : DataFrame) (period : nat) :
  exists v, calculate_relative_volume df period = Ok v.
Proof.
  unfold calculate_relative_volume.
  destruct (df_len df <? period + 1)%nat eqn:E; [now eexists|].
  apply Nat.ltb_ge in E.
  destruct (iloc_neg_ok (col_Volume df) 1) as [x Hx];
    [rewrite col_Volume_length; lia|].
  rewrite Hx. cbn [bind].
  destruct (feqb _ (Fin 0)); now eexists.
Qed.

Lemma check_volume_surge_ok (df : DataFrame) (threshold : Q) :
  exists b, check_volume_surge df threshold = Ok b.
Proof.
  unfold check_volume_surge.
  destruct (calculate_relative_volume_ok df 20) as [v ->]. cbn [bind].
  destruct v; now eexists.
Qed.

Lemma check_rsi_signal_ok (df : DataFrame) (oversold overbought : Q) :
  exists r, check_rsi_signal df oversold overbought = Ok r.
Proof.
  unfold check_rsi_signal.
  destruct (calculate_rsi (col_Close df) default_rsi_period) as [|v rsi] eqn:E;
    [now eexists|].
  destruct (iloc_neg_ok (v :: rsi) 1) as [x Hx]; [simpl; lia|].
  rewrite Hx. cbn [bind].
  destruct (is_nan x); [now eexists|].
  destruct (fltb x (Fin oversold)); [now eexists|].
  destruct (fgtb x (Fin overbought)); now eexists.
Qed.

Lemma check_ma_crossover_ok (df : DataFrame) :
  exists c, check_ma_crossover df = Ok c.
Proof.
  unfold check_ma_crossover.
  destruct (df_len df <? 200)%nat; [now eexists|].
  rewrite recent_golden_cross. cbn [bind].
  destruct (any _); [now eexists|].
  rewrite recent_death_cross. cbn [bind].
  destruct (any _); now eexists.
Qed.

Lemma check_near_52w_high_ok (df : DataFrame) (threshold : Q) :
  (1 <= df_len df)%nat -> exists b, check_near_52w_high df threshold = Ok b.
Proof.
  intros Hlen. unfold check_near_52w_high, calculate_52_week_high_low.
  destruct (iloc_neg_ok (col_Close df) 1) as [x Hx];
    [rewrite col_Close_length; lia|].
  rewrite Hx. cbn [bind]. now eexists.
Qed.

Lemma check_consolidation_breakout_ok (df : DataFrame) :
  exists st, check_consolidation_breakout df = Ok st.
Proof.
  unfold check_consolidation_breakout.
  destruct (length (detect_consolidation df 20 (5 # 100)) <? 2)%nat eqn:E;
    [now eexists|].
  apply Nat.ltb_ge in E.
  destruct (iloc_neg_ok (detect_consolidation df 20 (5 # 100)) 1) as [c Hc];
    [lia|].
  rewrite Hc. cbn [bind].
  rewrite detect_consolidation_length in *.
  destruct (_ && (5 <? df_len df)%nat) eqn:Hb; cbn [bind]; [|now eexists].
  apply Bool.andb_true_iff in Hb. destruct Hb as [_ Hb].
  apply Nat.ltb_lt in Hb.
  destruct (iloc_neg_ok (col_Close df) 1) as [c1 H1];
    [rewrite col_Close_length; lia|].
  destruct (iloc_neg_ok (col_Close df) 5) as [c5 H5];
    [rewrite col_Close_length; lia|].
  rewrite H1, H5. cbn [bind]. now eexists.
Qed.

Lemma price_change_ok (df : DataFrame) (k : nat) :
  (1 <= k <= df_len df)%nat -> exists c, price_change df k = Ok c.
Proof.
  intros Hk. unfold price_change.
  destruct (iloc_neg_ok (col_Close df) 1) as [c1 H1];
    [rewrite col_Close_length; lia|].
  destruct (iloc_neg_ok (col_Close df) k) as [ck Hck];
    [rewrite col_Close_length; lia|].
  rewrite H1, Hck. cbn [bind]. now eexists.
Qed.

(** ** The batch scan *)

Section BatchScan.

Variable fetch : string -> string -> string -> pyres DataFrame.
Variables period interval : string.

Lemma scan_ticker_usable (tk : string) :
  usable fetch period interval tk = true ->
  exists s, scan_ticker fetch tk period interval = Some s /\ ticker s = tk.
Proof.
  unfold usable, scan_ticker, scan_ticker_body.
  destruct (fetch tk period interval) as [df|]; [|discriminate].
  intros Hlen. apply Nat.leb_le in Hlen. cbn [bind].
  destruct ((df_len df =? 0)%nat || (df_len df <? 50)%nat) eqn:E.
  { apply Bool.orb_true_iff in E.
    destruct E as [E|E]; [apply Nat.eqb_eq in E|apply Nat.ltb_lt in E]; lia. }
  destruct (iloc_neg_ok (col_Close df) 1) as [price ->];
    [rewrite col_Close_length; lia|]. cbn [bind].
  destruct (calculate_relative_volume_ok df 20) as [rv ->]. cbn [bind].
  destruct (check_volume_surge_ok df 2) as [surge ->]. cbn [bind].
  destruct (check_rsi_signal_ok df 30 70) as [rsi ->]. cbn [bind].
  destruct (check_ma_crossover_ok df) as [cross ->]. cbn [bind].
  destruct (check_near_52w_high_ok df 5) as [near ->]; [lia|]. cbn [bind].
  destruct (check_consolidation_breakout_ok df) as [consol ->]. cbn [bind].
  destruct (price_change_ok df 6) as [c5 ->]; [lia|].
  destruct (price_change_ok df 21) as [c20 ->]; [lia|].
  destruct (5 <? df_len df)%nat; destruct (20 <? df_len df)%nat;
    cbn [bind];
    (destruct (calculate_rsi (col_Close df) default_rsi_period)
       as [|v rest] eqn:Hr;
     [|destruct (iloc_neg_ok (v :: rest) 1) as [x ->]; [simpl; lia|]]);
    cbn [bind try_except]; eexists; split; reflexivity.
Qed.

Lemma scan_ticker_unusable (tk : string) :
  usable fetch period interval tk = false ->
  scan_ticker fetch tk period interval = None.
Proof.
  unfold usable, scan_ticker, scan_ticker_body.
  destruct (fetch tk period interval) as [df|]; [|reflexivity].
  intros Hlen. apply Nat.leb_gt in Hlen. cbn [bind].
  assert (E : (df_len df <? 50)%nat = true) by (apply Nat.ltb_lt; lia).
  rewrite E, Bool.orb_true_r. reflexivity.
Qed.

Lemma scan_loop_acc (tickers : list string) (results : list Signals) :
  scan_loop fetch tickers period interval results
  = results ++ scan_loop fetch tickers period interval [].
Proof.
  revert results. induction tickers as [|tk tickers IH]; intros results; simpl.
  - now rewrite app_nil_r.
  - destruct (scan_ticker fetch tk period interval) as [s|].
    + rewrite IH, (IH [s]). now rewrite <- app_assoc.
    + apply IH.
Qed.

Lemma scan_loop_rows (tickers : list string) :
  let rows := scan_loop fetch tickers period interval [] in
  map ticker rows = filter (usable fetch period interval) tickers
  /\ Forall (fun s => scan_ticker fetch (ticker s) period interval = Some s)
            rows.
Proof.
  induction tickers as [|tk tickers [IHm IHf]]; simpl.
  - split; constructor.
  - destruct (usable fetch period interval tk) eqn:U.
    + destruct (scan_ticker_usable tk U) as (s & Hs & Htk).
      rewrite Hs, scan_loop_acc. simpl. split.
      * now rewrite Htk, IHm.
      * constructor; [now rewrite Htk|exact IHf].
    + rewrite (scan_ticker_unusable tk U). now split.
Qed.

(** C6.  [scan_multiple_tickers] returns for every ticker list, whatever
    the provider does: it never raises.  The rows it returns are the scan
    rows of the usable tickers (fetch succeeded, at least 50 bars), one per
    such ticker and in the order of the list; a ticker whose fetch raises
    or whose series is shorter is left out and the scan goes on.  When no
    ticker is usable the result is the empty table. *)
Theorem scan_multiple_tickers_never_raises (tickers : list string) :
  exists rows : list Signals,
    scan_multiple_tickers fetch tickers period interval = Ok rows
    /\ map ticker rows = filter (usable fetch period interval) tickers
    /\ Forall (fun s => scan_ticker fetch (ticker s) period interval = Some s)
              rows
    /\ (forall tk, In tk tickers ->
        usable fetch period interval tk = false ->
        scan_ticker fetch tk period interval = None /\ ~ In tk (map ticker rows))
    /\ (forallb (fun tk => negb (usable fetch period interval tk)) tickers
        = true -> rows = []).
Proof.
  exists (scan_loop fetch tickers period interval []).
  destruct (scan_loop_rows tickers) as [Hm Hf].
  split; [apply scan_multiple_tickers_ok|].
  split; [exact Hm|]. split; [exact Hf|]. split.
  - intros tk _ U. split; [now apply scan_ticker_unusable|].
    rewrite Hm. intros Hin. apply filter_In in Hin. destruct Hin. congruence.
  - intros Hall.
    assert (Hnil : filter (usable fetch period interval) tickers = []).
    { clear Hm Hf. induction tickers as [|tk tickers IH]; [reflexivity|].
      simpl in *. apply Bool.andb_true_iff in Hall. destruct Hall as [H1 H2].
      apply Bool.negb_true_iff in H1. rewrite H1. now apply IH. }
    rewrite Hnil in Hm.
    destruct (scan_loop fetch tickers period interval []); [reflexivity|].
    discriminate.
Qed.

End BatchScan.

(** One failing ticker between two good ones, and a scan of failures. *)
Lemma scan_multiple_tickers_never_raises_witness :
  (exists rows,
     scan_multiple_tickers sample_fetch ["AAA"; "ZZZ"; "BBB"]%string "1y" "1d"
     = Ok rows
     /\ map ticker rows = ["AAA"; "BBB"]%string)
  /\ scan_multiple_tickers sample_fetch ["YYY"; "ZZZ"]%string "1y" "1d"
     = Ok [].
Proof.
  split.
  - destruct (scan_multiple_tickers_never_raises sample_fetch "1y" "1d"
                ["AAA"; "ZZZ"; "BBB"]%string) as (rows & Hr & Hm & _).
    exists rows. split; [exact Hr|]. rewrite Hm. reflexivity.
  - destruct (scan_multiple_tickers_never_raises sample_fetch "1y" "1d"
                ["YYY"; "ZZZ"]%string) as (rows & Hr & _ & _ & _ & Hnil).
    rewrite Hr. f_equal. apply Hnil. reflexivity.
Defined.

(** ** Moving-average crossover *)

Lemma in_tail_iff {A : Type} (n : nat) (xs : list A) (x : A) :
  In x (tail n xs)
  <-> exists i, (length xs - n <= i < length xs)%nat /\ nth_error xs i = Some x.
Proof.
  unfold tail. split.
  - intros H. apply In_nth_error in H. destruct H as [j Hj].
    rewrite nth_error_skipn in Hj.
    exists (length xs - n + j)%nat. split; [|exact Hj].
    assert (Hlt : nth_error xs (length xs - n + j) <> None) by congruence.
    apply nth_error_Some in Hlt. lia.
  - intros (i & [Hlo Hhi] & Hi).
    apply (nth_error_In _ (i - (length xs - n))).
    rewrite nth_error_skipn.
    now replace (length xs - n + (i - (length xs - n)))%nat with i by lia.
Qed.

Lemma any_tail_map {A : Type} (f : A -> bool) (n : nat) (xs : list A) :
  any (tail n (map f xs)) = true
  <-> exists i v, (length xs - n <= i < length xs)%nat
                  /\ nth_error xs i = Some v /\ f v = true.
Proof.
  unfold any. rewrite existsb_exists. split.
  - intros (b & Hin & Hb). subst b.
    apply in_tail_iff in Hin. destruct Hin as (i & Hi & Hn).
    rewrite length_map in Hi. rewrite nth_error_map in Hn.
    destruct (nth_error xs i) as [v|] eqn:E; [|discriminate].
    simpl in Hn. injection Hn as Hn. now exists i, v.
  - intros (i & v & Hi & Hn & Hv).
    exists true. split; [|reflexivity].
    apply in_tail_iff. exists i. rewrite length_map. split; [exact Hi|].
    rewrite nth_error_map, Hn. simpl. now rewrite Hv.
Qed.

Lemma shift1_length (xs : list F64) : length (shift1 xs) = length xs.
Proof.
  destruct xs as [|x xs]; [reflexivity|].
  unfold shift1. cbn [length]. f_equal.
  change (x :: xs) with ([x] ++ xs).
  generalize x. induction xs as [|y xs IH]; intros z; [reflexivity|].
  simpl. f_equal. apply (IH y).
Qed.

Lemma identify_crossover_length (s1 s2 : list F64) :
  length s1 = length s2 -> length (identify_crossover s1 s2) = length s1.
Proof.
  intros H. unfold identify_crossover. cbv zeta.
  repeat (rewrite ?map2_length, ?length_map, ?shift1_length). lia.
Qed.

Lemma sma_crossover_length (df : DataFrame) :
  length (sma_crossover df) = df_len df.
Proof.
  unfold sma_crossover, calculate_sma.
  rewrite identify_crossover_length; rewrite !rolling_length;
    [apply col_Close_length|reflexivity].
Qed.

Lemma golden_in_window (df : DataFrame) :
  any (tail 5 (map (fun c => (c =? 1)%Z) (sma_crossover df))) = true
  <-> exists i, in_last_five df i
                /\ nth_error (sma_crossover df) i = Some 1%Z.
Proof.
  rewrite any_tail_map, sma_crossover_length. unfold in_last_five. split.
  - intros (i & v & Hi & Hn & Hv). apply Z.eqb_eq in Hv. subst v. now exists i.
  - intros (i & Hi & Hn). now exists i, 1%Z.
Qed.




(** ** add_all_indicators and the store *)

Lemma deref_insert_eq (st : store) (l : loc) (f : DataFrame) :
  deref (<[l := f]> st) l = f.
Proof. unfold deref. now rewrite lookup_insert_eq. Qed.

Lemma deref_insert_ne (st : store) (l r : loc) (f : DataFrame) :
  l <> r -> deref (<[r := f]> st) l = deref st l.
Proof. intros H. unfold deref. now rewrite lookup_insert_ne. Qed.

Lemma fresh_loc_ne (st : store) (l : loc) (d : DataFrame) :
  st !! l = Some d -> l <> fresh (dom st).
Proof.
  intros H E. apply (is_fresh (dom st)). rewrite <- E.
  apply elem_of_dom. now exists d.
Qed.

Section RunSteps.

Context {B : Type}.

Lemma run_copy (l : loc) (k : loc -> M B) (st : store) (d : DataFrame) :
  st !! l = Some d ->
  bindM (df_copy l) k st = k (fresh (dom st)) (<[fresh (dom st) := d]> st).
Proof. intros Hl. unfold bindM, df_copy, deref. now rewrite Hl. Qed.

Lemma run_load (l r : loc) (k : DataFrame -> M B) (st : store)
  (d f : DataFrame) :
  st !! l = Some d -> l <> r ->
  bindM (load l) k (<[r := f]> st) = k d (<[r := f]> st).
Proof.
  intros Hl Hne. unfold bindM, load.
  rewrite deref_insert_ne by exact Hne. unfold deref. now rewrite Hl.
Qed.

Lemma run_set_item (r : loc) (name : string) (col : Column)
  (k : unit -> M B) (st : store) (f : DataFrame) :
  bindM (set_item r name col) k (<[r := f]> st)
  = k tt (<[r := df_set name col f]> st).
Proof.
  unfold bindM, set_item. now rewrite deref_insert_eq, insert_insert_eq.
Qed.

Lemma run_lift_ok {A : Type} (a : A) (k : A -> M B) (st : store) :
  bindM (lift (Ok a)) k st = k a st.
Proof. reflexivity. Qed.

Lemma run_lift_raise {A : Type} (e : exn) (k : A -> M B) (st : store) :
  bindM (lift (Raise e)) k st = (Raise e, st).
Proof. reflexivity. Qed.

End RunSteps.

(** The test ['Volume' in df.columns] succeeds on every frame. *)
Lemma run_volume_guard {A : Type} (d : DataFrame) (m other : M A)
  (st : store) :
  (if has_column "Volume" d then m else other) st = m st.
Proof. reflexivity. Qed.

Lemma calculate_ema_ok (data : list Q) (period : nat) :
  period <> 0%nat -> exists ema, calculate_ema data period = Ok ema.
Proof.
  intros H. unfold calculate_ema.
  destruct (period =? 0)%nat eqn:E; [apply Nat.eqb_eq in E; contradiction|].
  destruct data; now eexists.
Qed.

Lemma calculate_macd_ok (data : list Q) (fast slow signal : nat) :
  fast <> 0%nat -> slow <> 0%nat -> signal <> 0%nat ->
  exists m, calculate_macd data fast slow signal = Ok m.
Proof.
  intros Hf Hs Hg. unfold calculate_macd.
  destruct (calculate_ema_ok data fast Hf) as [a ->].
  destruct (calculate_ema_ok data slow Hs) as [b ->]. cbn [bind].
  destruct (calculate_ema_ok (map2 (fun x y => Qred (x - y)) a b) signal Hg)
    as [c ->].
  cbn [bind]. now eexists.
Qed.

Lemma calculate_obv_ok (df : DataFrame) :
  bars df <> [] -> exists obv, calculate_obv df = Ok obv.
Proof.
  intros H. unfold calculate_obv. destruct (bars df); [contradiction|].
  now eexists.
Qed.

Section Indicators.

Variable np_sqrt : F64 -> F64.

Lemma add_all_indicators_runs (st st' : store) (l : loc) (d : DataFrame) :
  st !! l = Some d ->
  st' !! l = Some d ->
  exists (res : pyres unit) (f : DataFrame),
    add_all_indicators np_sqrt l st
    = (match res with Ok _ => Ok (fresh (dom st)) | Raise e => Raise e end,
       <[fresh (dom st) := f]> st)
    /\ add_all_indicators np_sqrt l st'
       = (match res with Ok _ => Ok (fresh (dom st')) | Raise e => Raise e end,
          <[fresh (dom st') := f]> st')
    /\ bars f = bars d
    /\ (bars d <> [] -> res = Ok tt).
Proof.
  intros Hl Hl'.
  pose proof (fresh_loc_ne st l d Hl) as Hne.
  pose proof (fresh_loc_ne st' l d Hl') as Hne'.
  unfold add_all_indicators.
  rewrite (run_copy l _ st d Hl), (run_copy l _ st' d Hl').
  repeat first
    [ rewrite (run_load l _ _ st d _ Hl Hne)
    | rewrite (run_load l _ _ st' d _ Hl' Hne')
    | rewrite run_volume_guard
    | rewrite run_set_item
    | rewrite run_lift_ok
    | rewrite run_lift_raise
    | match goal with
      | |- context [lift ?p] =>
          lazymatch p with
          | Ok _ => fail
          | Raise _ => fail
          | _ => destruct p as [?|?] eqn:?
          end
      | |- context [match ?m with pair _ _ => _ end] =>
          destruct m as [[? ?] ?]
      end ].
  all: first
    [ exists (Ok tt); eexists;
      split; [reflexivity|]; split; [reflexivity|];
      split; [reflexivity|]; intros _; reflexivity
    | eexists (Raise _); eexists;
      split; [reflexivity|]; split; [reflexivity|];
      split; [reflexivity|]; intros Hbars; exfalso ].
  all: match goal with
       | H : calculate_ema ?data ?p = Raise _ |- _ =>
           destruct (calculate_ema_ok data p) as [? Hx];
           [discriminate|rewrite Hx in H; discriminate]
       | H : calculate_macd ?data ?a ?b ?c = Raise _ |- _ =>
           destruct (calculate_macd_ok data a b c) as [? Hx];
           [discriminate|discriminate|discriminate
           |rewrite Hx in H; discriminate]
       | H : calculate_obv ?df = Raise _ |- _ =>
           destruct (calculate_obv_ok df Hbars) as [? Hx];
           rewrite Hx in H; discriminate
       end.
Qed.

(** C9.  Calling [add_all_indicators] on a frame, and then once more on
    the same frame: after each call the input frame is what it was, and so
    is every other object that existed before the call; the two calls
    either return two new frames with identical contents (the OHLCV rows of
    the input and the same indicator columns), or raise the same exception.
    On a frame with at least one row both calls return. *)
Theorem add_all_indicators_pure (st : store) (df : loc) (d : DataFrame) :
  st !! df = Some d ->
  exists (st1 st2 : store) (res1 res2 : pyres loc),
    add_all_indicators np_sqrt df st = (res1, st1)
    /\ add_all_indicators np_sqrt df st1 = (res2, st2)
    /\ st1 !! df = Some d
    /\ st2 !! df = Some d
    /\ (forall x, is_Some (st !! x) -> st1 !! x = st !! x)
    /\ (forall x, is_Some (st1 !! x) -> st2 !! x = st1 !! x)
    /\ match res1, res2 with
       | Ok r1, Ok r2 =>
           r1 <> df /\ r2 <> df /\ r1 <> r2
           /\ exists out, st1 !! r1 = Some out /\ st2 !! r2 = Some out
                          /\ st2 !! r1 = Some out /\ bars out = bars d
       | Raise e1, Raise e2 => e1 = e2
       | _, _ => False
       end
    /\ (bars d <> [] -> exists r1 r2, res1 = Ok r1 /\ res2 = Ok r2).
Proof.
  intros Hl.
  pose proof (fresh_loc_ne st df d Hl) as Hne.
  destruct (add_all_indicators_runs st st df d Hl Hl)
    as (res0 & f0 & Hrun0 & _ & _ & _).
  set (r := fresh (dom st)) in *.
  assert (Hl1 : (<[r := f0]> st) !! df = Some d).
  { now rewrite lookup_insert_ne by congruence. }
  destruct (add_all_indicators_runs st (<[r := f0]> st) df d Hl Hl1)
    as (res & f & Hrun & Hrun1 & Hbars & Hok).
  fold r in Hrun.
  assert (Hf : f0 = f).
  { rewrite Hrun0 in Hrun. injection Hrun as _ Hst.
    assert (E : (<[r := f0]> st) !! r = (<[r := f]> st) !! r)
      by (rewrite Hst; reflexivity).
    rewrite !lookup_insert_eq in E. now injection E. }
  subst f0. clear Hrun0.
  set (st1 := <[r := f]> st) in *.
  pose proof (fresh_loc_ne st1 df d Hl1) as Hne1.
  set (r1 := fresh (dom st1)) in *.
  assert (Hr1 : r <> r1).
  { apply (fresh_loc_ne st1 r f). apply lookup_insert_eq. }
  eexists st1, (<[r1 := f]> st1), _, _.
  split; [exact Hrun|]. split; [exact Hrun1|].
  split; [exact Hl1|].
  split; [now rewrite lookup_insert_ne by congruence|].
  split.
  { intros x Hx. unfold st1. apply lookup_insert_ne.
    intros E. destruct Hx as [y Hy]. rewrite <- E in Hy.
    apply (is_fresh (dom st)). apply elem_of_dom. exists y. exact Hy. }
  split.
  { intros x Hx. apply lookup_insert_ne.
    intros E. destruct Hx as [y Hy]. rewrite <- E in Hy.
    apply (is_fresh (dom st1)). apply elem_of_dom. exists y. exact Hy. }
  split.
  - destruct res as [[]|e]; [|reflexivity].
    split; [congruence|]. split; [congruence|]. split; [exact Hr1|].
    exists f. split; [apply lookup_insert_eq|].
    split; [apply lookup_insert_eq|].
    split; [|exact Hbars].
    rewrite lookup_insert_ne by congruence. apply lookup_insert_eq.
  - intros Hd. rewrite (Hok Hd). now eexists _, _.
Qed.

End Indicators.

(** A one-bar frame in an otherwise empty store. *)
Lemma add_all_indicators_pure_witness :
  exists (st1 st2 : store) (r1 r2 : loc) (out : DataFrame),
    add_all_indicators (fun x => x) 1%positive
      {[1%positive := mkDF [quiet_bar] []]} = (Ok r1, st1)
    /\ add_all_indicators (fun x => x) 1%positive st1 = (Ok r2, st2)
    /\ st2 !! 1%positive = Some (mkDF [quiet_bar] [])
    /\ st1 !! r1 = Some out /\ st2 !! r2 = Some out.
Proof.
  destruct (add_all_indicators_pure (fun x => x)
              {[1%positive := mkDF [quiet_bar] []]} 1%positive
              (mkDF [quiet_bar] []) (lookup_singleton_eq _ _))
    as (st1 & st2 & res1 & res2 & H1 & H2 & _ & Hin & _ & _ & Hres & Hok).
  assert (Hne : bars (mkDF [quiet_bar] []) <> []).
  { cbn [bars]. intros E. inversion E. }
  destruct (Hok Hne) as (r1 & r2 & E1 & E2).
  rewrite E1, E2 in Hres. rewrite E1 in H1. rewrite E2 in H2.
  destruct Hres as (_ & _ & _ & out & Ho1 & Ho2 & _).
  exists st1, st2, r1, r2, out.
  split; [exact H1|]. split; [exact H2|]. split; [exact Hin|].
  split; [exact Ho1|exact Ho2].
Defined.

(** ** Consolidation breakout *)

(** On a frame of more than ten bars the breakout flag is the conjunction
    of: consolidation somewhere in bars [-10, -2], none on the last bar, and
    a change of the close from bar -5 to bar -1 strictly above 2 percent. *)
Lemma consolidation_breakout_strict (df : DataFrame)
  (status : ConsolidationStatus) :
  (11 <= df_len df)%nat ->
  check_consolidation_breakout df = Ok status ->
  exists (currently : bool) (change : F64),
    iloc_neg (detect_consolidation df 20 (5 # 100)) 1 = Ok currently
    /\ price_change df 5 = Ok change
    /\ in_consolidation status = currently
    /\ breaking_out status
       = any (iloc_slice_neg (detect_consolidation df 20 (5 # 100)) 10 1)
         && negb currently && fgtb change (Fin 2).
Proof.
  intros Hlen. unfold check_consolidation_breakout, price_change.
  rewrite detect_consolidation_length.
  destruct (df_len df <? 2)%nat eqn:E2; [apply Nat.ltb_lt in E2; lia|].
  destruct (10 <? df_len df)%nat eqn:E10; [|apply Nat.ltb_ge in E10; lia].
  destruct (5 <? df_len df)%nat eqn:E5; [|apply Nat.ltb_ge in E5; lia].
  destruct (iloc_neg (detect_consolidation df 20 (5 # 100)) 1)
    as [cur|]; [|discriminate].
  destruct (iloc_neg_ok (col_Close df) 1) as [c1 H1];
    [rewrite col_Close_length; lia|].
  destruct (iloc_neg_ok (col_Close df) 5) as [c5 H5];
    [rewrite col_Close_length; lia|].
  rewrite H1, H5. cbn [bind]. rewrite Bool.andb_true_r.
  destruct (any _ && negb cur) eqn:B; cbn [bind];
    intros H; injection H as <-; eexists _, _;
    (split; [reflexivity|]); (split; [reflexivity|]);
    (split; [reflexivity|]); cbn [breaking_out]; rewrite B; reflexivity.
Qed.

(** C5 on a concrete frame (49 quiet bars, then a wide bar whose close is
    exactly 2% above the close five and six bars back).  The three
    conditions of the claim hold: the consolidation indicator is true among
    bars [-10, -2], false on the last bar, and the close rose by 2%, which
    is "at least 2%".  The scan nevertheless reports breaking_out = false,
    because the code compares the rise with [> 2]. *)
Theorem consolidation_breakout_at_two_percent :
  let consolidation_flags := detect_consolidation two_percent_frame 20 (5 # 100) in
  any (iloc_slice_neg consolidation_flags 10 1) = true
  /\ iloc_neg consolidation_flags 1 = Ok false
  /\ price_change two_percent_frame 5 = Ok (Fin 2)
  /\ price_change two_percent_frame 6 = Ok (Fin 2)
  /\ fgeb (Fin 2) (Fin 2) = true
  /\ check_consolidation_breakout two_percent_frame
     = Ok {| in_consolidation := false; breaking_out := false |}
  /\ exists s,
       scan_ticker sample_fetch "NEW" "1y" "1d" = Some s
       /\ consolidation s
          = {| in_consolidation := false; breaking_out := false |}.
Proof.
  cbv zeta.
  split; [vm_compute; reflexivity|].
  split; [vm_compute; reflexivity|].
  split; [vm_compute; reflexivity|].
  split; [vm_compute; reflexivity|].
  split; [vm_compute; reflexivity|].
  split; [vm_compute; reflexivity|].
  eexists. split; vm_compute; reflexivity.
Qed.

(** ** Meaning of the crossover series *)

(** At a position where both series and their predecessors are available,
    the crossover value is -1 at a bearish crossing, 1 at a bullish one and
    0 otherwise. *)
Lemma identify_crossover_nth (s1 s2 : list F64) (i : nat) (a b pa pb : F64) :
  nth_error s1 i = Some a ->
  nth_error s2 i = Some b ->
  nth_error (shift1 s1) i = Some pa ->
  nth_error (shift1 s2) i = Some pb ->
  nth_error (identify_crossover s1 s2) i
  = Some (if fltb a b && fgeb pa pb then (-1)%Z
          else if fgtb a b && fleb pa pb then 1%Z else 0%Z).
Proof.
  intros Ha Hb Hpa Hpb. unfold identify_crossover. cbv zeta.
  repeat (rewrite ?map2_nth_error, ?nth_error_map, ?Ha, ?Hb, ?Hpa, ?Hpb;
          cbn [option_map]).
  reflexivity.
Qed.

(** The two crossings cannot coincide: a position holds one flag at most. *)
Lemma bullish_bearish_exclusive (a b : F64) :
  fgtb a b && fltb a b = false.
Proof.
  unfold fgtb.
  destruct a as [x| | |], b as [y| | |]; cbn [fltb andb]; try reflexivity.
  destruct (Qltb y x) eqn:E1; [|reflexivity].
  destruct (Qltb x y) eqn:E2; [|reflexivity].
  apply Qltb_lt in E1. apply Qltb_lt in E2. lra.
Qed.

(** The series of the test suite: A = 1,2,3,4,5,4,3,2,4,5 against B = 3
    crosses upwards at index 3 and downwards at index 7. *)
Example identify_crossover_test_series :
  identify_crossover
    (map Fin [1; 2; 3; 4; 5; 4; 3; 2; 4; 5])
    (map Fin [3; 3; 3; 3; 3; 3; 3; 3; 3; 3])
  = [0; 0; 0; 1; 0; 0; 0; -1; 1; 0]%Z.
Proof. vm_compute. reflexivity. Qed.

(* ===================================================================== *)
(** * Further properties of the indicator code *)
(* ===================================================================== *)

(** ** Rolling windows *)

Lemma rolling_nth (w : nat) (agg : list Q -> F64) (xs : list Q) (i : nat) :
  (i < length xs)%nat ->
  nth_error (rolling w agg xs) i
  = Some (if (w =? 0)%nat || (i + 1 <? w)%nat then NaN
          else agg (window_at w xs i)).
Proof.
  intros Hi. unfold rolling.
  rewrite nth_error_map, nth_error_seq.
  destruct (i <? length xs)%nat eqn:E; [|apply Nat.ltb_ge in E; lia].
  reflexivity.
Qed.

Lemma window_at_length (w : nat) (xs : list Q) (i : nat) :
  (w <= i + 1)%nat -> (i < length xs)%nat ->
  length (window_at w xs i) = w.
Proof.
  intros Hw Hi. unfold window_at.
  rewrite length_firstn, length_skipn. lia.
Qed.

Lemma Qsum_bounds (lo hi : Q) (xs : list Q) :
  Forall (fun x => lo <= x /\ x <= hi) xs ->
  inject_Z (Z.of_nat (length xs)) * lo <= Qsum xs
  /\ Qsum xs <= inject_Z (Z.of_nat (length xs)) * hi.
Proof.
  induction 1 as [|x xs [Hlo Hhi] _ [IHlo IHhi]].
  - unfold Qsum. cbn [length fold_right].
    change (inject_Z (Z.of_nat 0)) with 0. split; lra.
  - cbn [length Qsum fold_right]. fold (Qsum xs).
    rewrite Nat2Z.inj_succ. unfold Z.succ. rewrite inject_Z_plus.
    change (inject_Z 1) with 1. split; lra.
Qed.

Lemma series_mean_bounds (lo hi : Q) (xs : list Q) (m : Q) :
  Forall (fun x => lo <= x /\ x <= hi) xs ->
  series_mean xs = Fin m -> lo <= m /\ m <= hi.
Proof.
  intros Hxs. destruct xs as [|x xs]; [discriminate|].
  unfold series_mean. intros H. apply fin_inv in H.
  destruct (Qsum_bounds lo hi (x :: xs) Hxs) as [Hlo Hhi].
  set (n := inject_Z (Z.of_nat (length (x :: xs)))) in *.
  assert (Hn : 0 < n).
  { unfold n. change 0 with (inject_Z 0). rewrite <- Zlt_Qlt.
    simpl length. lia. }
  rewrite H. split.
  - apply Qle_shift_div_l; [exact Hn|]. lra.
  - apply Qle_shift_div_r; [exact Hn|]. lra.
Qed.

(** ** Simple moving average *)

(** X1.  [calculate_sma] with a window of at least one sample returns a
    series as long as its input.  Its value is undefined (NaN) at every
    index below [period - 1], and from index [period - 1] on it is the
    arithmetic mean of exactly [period] samples, those ending at that
    index. *)
Theorem calculate_sma_warm_up (data : list Q) (period i : nat) :
  (1 <= period)%nat -> (i < length data)%nat ->
  length (calculate_sma data period) = length data
  /\ ((i + 1 < period)%nat ->
      nth_error (calculate_sma data period) i = Some NaN)
  /\ ((period <= i + 1)%nat ->
      length (window_at period data i) = period
      /\ window_at period data i
         = firstn period (skipn (i + 1 - period) data)
      /\ nth_error (calculate_sma data period) i
         = Some (fin (Qsum (window_at period data i)
                      / inject_Z (Z.of_nat period)))).
Proof.
  intros Hp Hi. unfold calculate_sma.
  split; [apply rolling_length|].
  rewrite (rolling_nth _ _ _ _ Hi).
  destruct (period =? 0)%nat eqn:E0; [apply Nat.eqb_eq in E0; lia|].
  cbn [orb]. split.
  - intros Hlt. apply Nat.ltb_lt in Hlt. now rewrite Hlt.
  - intros Hge.
    pose proof (window_at_length period data i Hge Hi) as Hlen.
    split; [exact Hlen|]. split; [reflexivity|].
    destruct (i + 1 <? period)%nat eqn:E; [apply Nat.ltb_lt in E; lia|].
    unfold series_mean.
    destruct (window_at period data i) as [|x w] eqn:Ew.
    + simpl in Hlen. lia.
    + now rewrite Hlen.
Qed.

Lemma calculate_sma_warm_up_witness :
  nth_error (calculate_sma [1; 2; 3; 4] 3) 1 = Some NaN
  /\ nth_error (calculate_sma [1; 2; 3; 4] 3) 3 = Some (Fin 3).
Proof.
  destruct (calculate_sma_warm_up [1; 2; 3; 4] 3 1) as (_ & Hwarm & _);
    [lia|simpl; lia|].
  destruct (calculate_sma_warm_up [1; 2; 3; 4] 3 3) as (_ & _ & Hmean);
    [lia|simpl; lia|].
  split; [apply Hwarm; lia|].
  destruct Hmean as (_ & _ & Hm); [lia|]. rewrite Hm. reflexivity.
Defined.

(** X2.  A moving average never leaves the range of its input: when every
    sample lies in [lo, hi], so does every defined value of
    [calculate_sma]. *)
Theorem calculate_sma_within_range (data : list Q) (period i : nat)
  (lo hi m : Q) :
  Forall (fun x => lo <= x /\ x <= hi) data ->
  nth_error (calculate_sma data period) i = Some (Fin m) ->
  lo <= m /\ m <= hi.
Proof.
  intros Hdata H. unfold calculate_sma in H.
  apply rolling_nth_error in H. destruct H as [_ H].
  destruct ((period =? 0)%nat || (i + 1 <? period)%nat); [discriminate|].
  symmetry in H. revert H. apply series_mean_bounds.
  now apply window_at_Forall.
Qed.

Lemma calculate_sma_within_range_witness :
  1 <= 3 /\ 3 <= 4.
Proof.
  apply (calculate_sma_within_range [1; 2; 3; 4] 3 3 1 4 3).
  - repeat constructor; simpl; lra.
  - reflexivity.
Defined.

(** ** Exponential moving average and MACD *)

Lemma ema_from_length (k prev : Q) (xs : list Q) :
  length (ema_from k prev xs) = length xs.
Proof.
  revert prev. induction xs as [|x xs IH]; intros prev; simpl; [reflexivity|].
  now rewrite IH.
Qed.

Lemma calculate_ema_length (data ema : list Q) (period : nat) :
  calculate_ema data period = Ok ema -> length ema = length data.
Proof.
  unfold calculate_ema.
  destruct (period =? 0)%nat; [discriminate|].
  destruct data as [|x rest]; intros H; injection H as <-; [reflexivity|].
  simpl. now rewrite ema_from_length.
Qed.

Lemma ema_from_step (k : Q) (xs : list Q) (prev0 : Q) (i : nat) (x prev : Q) :
  nth_error xs i = Some x ->
  nth_error (prev0 :: ema_from k prev0 xs) i = Some prev ->
  nth_error (ema_from k prev0 xs) i = Some (Qred (x * k + prev * (1 - k))).
Proof.
  revert prev0 i. induction xs as [|y xs IH]; intros prev0 i Hx Hp.
  - destruct i; discriminate.
  - destruct i as [|i]; simpl in *.
    + injection Hx as ->. injection Hp as ->. reflexivity.
    + apply IH; assumption.
Qed.

(** X3.  [calculate_ema] rejects a span of 0 with [ValueError].  For a
    span of at least 1 it returns a series as long as its input that
    starts at the first sample and then follows
    [ema[i+1] = data[i+1] * k + ema[i] * (1 - k)] with [k = 2/(period+1)];
    there is no undefined warm-up region. *)
Theorem calculate_ema_recurrence (data : list Q) (period : nat) :
  (1 <= period)%nat ->
  calculate_ema data 0 = Raise ValueError
  /\ exists ema : list Q,
       calculate_ema data period = Ok ema
       /\ length ema = length data
       /\ nth_error ema 0 = nth_error data 0
       /\ forall (i : nat) (x prev : Q),
            nth_error data (S i) = Some x ->
            nth_error ema i = Some prev ->
            exists y,
              nth_error ema (S i) = Some y
              /\ y == x * (2 / (inject_Z (Z.of_nat period) + 1))
                      + prev * (1 - 2 / (inject_Z (Z.of_nat period) + 1)).
Proof.
  intros Hp. split; [reflexivity|].
  unfold calculate_ema.
  destruct (period =? 0)%nat eqn:E; [apply Nat.eqb_eq in E; lia|].
  destruct data as [|x0 rest].
  - exists []. repeat split; try reflexivity.
    intros i x prev H. destruct i; discriminate.
  - eexists. split; [reflexivity|].
    split; [simpl; now rewrite ema_from_length|].
    split; [reflexivity|].
    intros i x prev Hx Hprev. simpl in Hx.
    eexists. split.
    + simpl. apply (ema_from_step _ rest x0 i x prev); assumption.
    + apply Qred_correct.
Qed.

Lemma calculate_ema_recurrence_witness :
  calculate_ema [3; 6; 6] 2 = Ok [3; 5; 17 # 3].
Proof.
  destruct (calculate_ema_recurrence [3; 6; 6] 2) as (_ & ema & He & _);
    [lia|].
  rewrite He. vm_compute in He. injection He as <-. reflexivity.
Defined.

Lemma ema_from_within_range (k lo hi prev : Q) (xs : list Q) :
  0 <= k -> k <= 1 -> lo <= prev -> prev <= hi ->
  Forall (fun x => lo <= x /\ x <= hi) xs ->
  Forall (fun x => lo <= x /\ x <= hi) (ema_from k prev xs).
Proof.
  intros Hk0 Hk1 Hlo Hhi Hxs. revert prev Hlo Hhi.
  induction Hxs as [|x xs [Hxlo Hxhi] _ IH]; intros prev Hlo Hhi; simpl.
  - constructor.
  - assert (Hy : lo <= Qred (x * k + prev * (1 - k))
                 /\ Qred (x * k + prev * (1 - k)) <= hi).
    { rewrite Qred_correct. split; nra. }
    constructor; [exact Hy|]. apply IH; apply Hy.
Qed.

(** X4.  An exponential average is a running convex combination: when
    every sample lies in [lo, hi], so does every value that
    [calculate_ema] returns. *)
Theorem calculate_ema_within_range (data ema : list Q) (period : nat)
  (lo hi : Q) :
  Forall (fun x => lo <= x /\ x <= hi) data ->
  calculate_ema data period = Ok ema ->
  Forall (fun x => lo <= x /\ x <= hi) ema.
Proof.
  intros Hdata. unfold calculate_ema.
  destruct (period =? 0)%nat eqn:E; [discriminate|].
  apply Nat.eqb_neq in E.
  destruct data as [|x rest]; intros H; injection H as <-; [constructor|].
  inversion Hdata as [|? ? Hx Hrest]; subst.
  constructor; [exact Hx|].
  assert (Hn : 1 <= inject_Z (Z.of_nat period)).
  { change 1 with (inject_Z 1). rewrite <- Zle_Qle. lia. }
  apply ema_from_within_range; try apply Hx; try exact Hrest.
  - apply Qle_shift_div_l; lra.
  - apply Qle_shift_div_r; lra.
Qed.

Lemma calculate_ema_within_range_witness :
  Forall (fun x => 3 <= x /\ x <= 6) [3; 5; 17 # 3].
Proof.
  apply (calculate_ema_within_range [3; 6; 6] [3; 5; 17 # 3] 2 3 6).
  - repeat constructor; simpl; lra.
  - reflexivity.
Defined.

Lemma map2_Qminus_nth (xs ys : list Q) (i : nat) (a b : Q) :
  nth_error xs i = Some a -> nth_error ys i = Some b ->
  nth_error (map2 (fun x y => Qred (x - y)) xs ys) i = Some (Qred (a - b)).
Proof. intros Ha Hb. now rewrite map2_nth_error, Ha, Hb. Qed.

(** X5.  When [calculate_macd] returns, its three series are as long as
    the input, and at every index the histogram is the MACD line minus the
    signal line. *)
Theorem calculate_macd_histogram (data : list Q)
  (fast_period slow_period signal_period : nat)
  (macd signal histogram : list Q) :
  calculate_macd data fast_period slow_period signal_period
  = Ok (macd, signal, histogram) ->
  length macd = length data
  /\ length signal = length data
  /\ length histogram = length data
  /\ forall (i : nat) (m s : Q),
       nth_error macd i = Some m ->
       nth_error signal i = Some s ->
       exists h, nth_error histogram i = Some h /\ h == m - s.
Proof.
  unfold calculate_macd.
  destruct (calculate_ema data fast_period) as [ema_fast|] eqn:Ef;
    [|discriminate].
  destruct (calculate_ema data slow_period) as [ema_slow|] eqn:Es;
    [|discriminate].
  cbn [bind].
  destruct (calculate_ema (map2 (fun a b => Qred (a - b)) ema_fast ema_slow)
              signal_period) as [sig|] eqn:Eg; [|discriminate].
  cbn [bind]. intros H. injection H as <- <- <-.
  apply calculate_ema_length in Ef, Es, Eg.
  rewrite map2_length in Eg.
  assert (Hm : length (map2 (fun a b => Qred (a - b)) ema_fast ema_slow)
               = length data) by (rewrite map2_length; lia).
  split; [exact Hm|]. split; [lia|].
  split; [rewrite map2_length; lia|].
  intros i m s Hmi Hsi. eexists. split.
  - apply map2_Qminus_nth; eassumption.
  - apply Qred_correct.
Qed.

Lemma calculate_macd_histogram_witness :
  exists macd signal histogram,
    calculate_macd [10; 11; 12; 11; 13] 2 3 2 = Ok (macd, signal, histogram)
    /\ length histogram = 5%nat.
Proof.
  destruct (calculate_macd [10; 11; 12; 11; 13] 2 3 2)
    as [[[macd signal] histogram]|] eqn:E; [|vm_compute in E; discriminate].
  exists macd, signal, histogram. split; [reflexivity|].
  destruct (calculate_macd_histogram _ _ _ _ _ _ _ E) as (_ & _ & H & _).
  exact H.
Defined.

(** ** Bollinger bands *)



(** ** Volume-weighted average price *)

Section VwapBounds.

Variables lo hi : Q.



End VwapBounds.


(** ** On-balance volume *)

Lemma obv_from_length (pc po : Q) (rest : list Bar) :
  length (obv_from pc po rest) = length rest.
Proof.
  revert pc po. induction rest as [|b rest IH]; intros pc po; simpl;
    [reflexivity|]. now rewrite IH.
Qed.

Lemma obv_from_step (b0 : Bar) (o0 : Q) (rest : list Bar) (i : nat)
  (prev_bar bar : Bar) (o : Q) :
  nth_error (b0 :: rest) i = Some prev_bar ->
  nth_error rest i = Some bar ->
  nth_error (o0 :: obv_from (Close b0) o0 rest) i = Some o ->
  nth_error (obv_from (Close b0) o0 rest) i
  = Some (if Qltb (Close prev_bar) (Close bar) then Qred (o + Volume bar)
          else if Qltb (Close bar) (Close prev_bar)
               then Qred (o - Volume bar) else o).
Proof.
  revert b0 o0 i. induction rest as [|b1 rest IH]; intros b0 o0 i Hp Hb Ho.
  - destruct i; discriminate.
  - destruct i as [|i].
    + cbn in Hp, Hb, Ho. injection Hp as <-. injection Hb as <-.
      injection Ho as <-. reflexivity.
    + cbn [nth_error] in Hp, Hb, Ho. cbn [obv_from nth_error].
      apply (IH b1 _ i); assumption.
Qed.

(** X8.  [calculate_obv] raises [IndexError] on a frame without rows.
    Otherwise it returns one value per bar, starting at the first bar's
    volume; from one bar to the next the value rises by the bar's volume
    when the close rose, falls by it when the close fell, and stays when
    the close is unchanged. *)
Theorem calculate_obv_steps (df : DataFrame) :
  (bars df = [] -> calculate_obv df = Raise IndexError)
  /\ (bars df <> [] ->
      exists obv : list Q,
        calculate_obv df = Ok obv
        /\ length obv = df_len df
        /\ nth_error obv 0 = option_map Volume (nth_error (bars df) 0)
        /\ forall (i : nat) (prev_bar bar : Bar) (o : Q),
             nth_error (bars df) i = Some prev_bar ->
             nth_error (bars df) (S i) = Some bar ->
             nth_error obv i = Some o ->
             exists o',
               nth_error obv (S i) = Some o'
               /\ (Close prev_bar < Close bar -> o' == o + Volume bar)
               /\ (Close bar < Close prev_bar -> o' == o - Volume bar)
               /\ (Close bar == Close prev_bar -> o' = o)).
Proof.
  unfold calculate_obv, df_len. split.
  - intros ->. reflexivity.
  - intros Hne. destruct (bars df) as [|b0 rest]; [contradiction|].
    eexists. split; [reflexivity|].
    split; [cbn [length]; now rewrite obv_from_length|].
    split; [reflexivity|].
    intros i prev_bar bar o Hp Hb Ho. cbn [nth_error] in Hb.
    eexists. split.
    + cbn [nth_error]. apply (obv_from_step b0 _ rest i prev_bar bar o);
        assumption.
    + destruct (Qltb (Close prev_bar) (Close bar)) eqn:Eup; cbv beta iota.
      * apply Qltb_lt in Eup.
        split; [intros _; apply Qred_correct|].
        split; intros H; exfalso; lra.
      * apply Qltb_ge in Eup.
        destruct (Qltb (Close bar) (Close prev_bar)) eqn:Edn; cbv beta iota.
        -- apply Qltb_lt in Edn.
           split; [intros H; exfalso; lra|].
           split; [intros _; apply Qred_correct|].
           intros H; exfalso; lra.
        -- apply Qltb_ge in Edn.
           split; [intros H; exfalso; lra|].
           split; [intros H; exfalso; lra|]. reflexivity.
Qed.

(** The five closes of the test suite, on constant volume. *)
Lemma calculate_obv_steps_witness :
  calculate_obv
    (mkDF [mkBar 100 100 100 100 1000; mkBar 101 101 101 101 1000;
           mkBar 102 102 102 102 1000; mkBar 101 101 101 101 1000;
           mkBar 103 103 103 103 1000] [])
  = Ok [1000; 2000; 3000; 2000; 3000].
Proof.
  destruct (calculate_obv_steps
              (mkDF [mkBar 100 100 100 100 1000; mkBar 101 101 101 101 1000;
                     mkBar 102 102 102 102 1000; mkBar 101 101 101 101 1000;
                     mkBar 103 103 103 103 1000] [])) as [_ H].
  destruct H as (obv & Hobv & _); [discriminate|].
  rewrite Hobv. vm_compute in Hobv. injection Hobv as <-. reflexivity.
Defined.

(** ** Crossover detection *)

Lemma shift1_nth_0 (xs : list F64) :
  xs <> [] -> nth_error (shift1 xs) 0 = Some NaN.
Proof. destruct xs; [contradiction|reflexivity]. Qed.

Lemma shift1_nth_S (xs : list F64) (i : nat) :
  (S i < length xs)%nat -> nth_error (shift1 xs) (S i) = nth_error xs i.
Proof.
  intros Hi. destruct xs as [|x xs]; [simpl in Hi; lia|].
  unfold shift1. cbn [nth_error].
  rewrite removelast_firstn_len, nth_error_firstn.
  destruct (i <? Nat.pred (length (x :: xs)))%nat eqn:E; [reflexivity|].
  apply Nat.ltb_ge in E. simpl in *. lia.
Qed.

Lemma identify_crossover_values (s1 s2 : list F64) (i : nat) (c : Z) :
  nth_error (identify_crossover s1 s2) i = Some c ->
  exists a b pa pb,
    nth_error s1 i = Some a /\ nth_error s2 i = Some b
    /\ nth_error (shift1 s1) i = Some pa /\ nth_error (shift1 s2) i = Some pb
    /\ c = (if fltb a b && fgeb pa pb then (-1)%Z
            else if fgtb a b && fleb pa pb then 1%Z else 0%Z).
Proof.
  unfold identify_crossover. cbv zeta.
  repeat (rewrite ?map2_nth_error, ?nth_error_map).
  destruct (nth_error s1 i) as [a|]; [|discriminate].
  destruct (nth_error s2 i) as [b|]; [|discriminate].
  destruct (nth_error (shift1 s1) i) as [pa|]; [|discriminate].
  destruct (nth_error (shift1 s2) i) as [pb|]; [|discriminate].
  cbn [option_map]. intros H. injection H as <-.
  now exists a, b, pa, pb.
Qed.

(** X9.  [identify_crossover] only ever yields -1, 0 or 1, and its first
    entry is 0 (the first index has no predecessor).  An entry is 1 exactly
    at a bullish crossing (series1 above series2 now, not above it one step
    before) and -1 exactly at a bearish one; the two cannot coincide. *)
Theorem identify_crossover_signs (s1 s2 : list F64) (i : nat) (c : Z) :
  nth_error (identify_crossover s1 s2) i = Some c ->
  (c = (-1)%Z \/ c = 0%Z \/ c = 1%Z)
  /\ (i = 0%nat -> c = 0%Z)
  /\ exists a b pa pb,
       nth_error s1 i = Some a /\ nth_error s2 i = Some b
       /\ nth_error (shift1 s1) i = Some pa
       /\ nth_error (shift1 s2) i = Some pb
       /\ (c = 1%Z <-> fgtb a b && fleb pa pb = true)
       /\ (c = (-1)%Z <-> fltb a b && fgeb pa pb = true).
Proof.
  intros H. destruct (identify_crossover_values _ _ _ _ H)
    as (a & b & pa & pb & Ha & Hb & Hpa & Hpb & Hc).
  assert (Hex : fgtb a b && fltb a b = false)
    by apply bullish_bearish_exclusive.
  split; [|split].
  - subst c. destruct (fltb a b && fgeb pa pb); [now left|].
    destruct (fgtb a b && fleb pa pb); [now right; right|now right; left].
  - intros ->. subst c.
    assert (Hne : s1 <> []) by (intros ->; discriminate).
    rewrite (shift1_nth_0 s1 Hne) in Hpa. injection Hpa as <-.
    cbn [fgeb fleb]. unfold fgeb. 
    assert (Hn1 : fleb pb NaN = false) by now destruct pb.
    rewrite Hn1. cbn [fleb]. now rewrite !Bool.andb_false_r.
  - exists a, b, pa, pb. repeat split; try assumption.
    + intros ->.
      destruct (fltb a b && fgeb pa pb); [discriminate|].
      destruct (fgtb a b && fleb pa pb); [reflexivity|discriminate].
    + intros Hbull. subst c.
      destruct (fltb a b) eqn:E1.
      * apply Bool.andb_true_iff in Hbull. destruct Hbull as [Hg _].
        rewrite Hg in Hex. discriminate.
      * cbn [andb]. now rewrite Hbull.
    + intros ->.
      destruct (fltb a b && fgeb pa pb); [reflexivity|].
      destruct (fgtb a b && fleb pa pb); discriminate.
    + intros Hbear. subst c. now rewrite Hbear.
Qed.

Lemma identify_crossover_signs_witness :
  nth_error (identify_crossover (map Fin [1; 2; 3; 4; 5; 4; 3; 2; 4; 5])
                                (map Fin [3; 3; 3; 3; 3; 3; 3; 3; 3; 3])) 7
  = Some (-1)%Z
  /\ fltb (Fin 2) (Fin 3) && fgeb (Fin 3) (Fin 3) = true.
Proof.
  assert (H : nth_error
                (identify_crossover (map Fin [1; 2; 3; 4; 5; 4; 3; 2; 4; 5])
                   (map Fin [3; 3; 3; 3; 3; 3; 3; 3; 3; 3])) 7
              = Some (-1)%Z) by (vm_compute; reflexivity).
  split; [exact H|].
  destruct (identify_crossover_signs _ _ _ _ H)
    as (_ & _ & a & b & pa & pb & Ha & Hb & Hpa & Hpb & _ & Hbear).
  vm_compute in Ha, Hb, Hpa, Hpb.
  injection Ha as <-. injection Hb as <-.
  injection Hpa as <-. injection Hpb as <-.
  apply Hbear. reflexivity.
Defined.

(** X10.  Neither a golden nor a death cross is ever flagged on one of the
    first 200 bars of a series: the 200-bar average, or its predecessor, is
    still undefined there.  In particular a series of at most 200 bars
    carries no flag at all. *)
Theorem no_cross_on_first_200_bars (df : DataFrame) (i : nat) :
  (i < 200)%nat -> (i < df_len df)%nat ->
  nth_error (sma_crossover df) i = Some 0%Z
  /\ nth_error (map (fun c => (c =? 1)%Z) (sma_crossover df)) i = Some false
  /\ nth_error (map (fun c => (c =? -1)%Z) (sma_crossover df)) i = Some false.
Proof.
  intros Hi Hlen.
  assert (H0 : nth_error (sma_crossover df) i = Some 0%Z).
  { destruct (nth_error (sma_crossover df) i) as [c|] eqn:Hc.
    - destruct (identify_crossover_values _ _ _ _ Hc)
        as (a & b & pa & pb & Ha & Hb & Hpa & Hpb & ->).
      assert (Hpb' : pb = NaN).
      { destruct i as [|j].
        - rewrite shift1_nth_0 in Hpb; [congruence|].
          intros E. rewrite E in Hb. discriminate.
        - rewrite shift1_nth_S in Hpb.
          + unfold calculate_sma in Hpb. apply rolling_nth_error in Hpb.
            destruct Hpb as [_ ->].
            assert (E : (j + 1 <? 200)%nat = true) by (apply Nat.ltb_lt; lia).
            now rewrite E.
          + unfold calculate_sma. rewrite rolling_length, col_Close_length.
            exact Hlen. }
      subst pb. unfold fgeb. cbn [fleb].
      assert (Hn : fleb pa NaN = false) by now destruct pa.
      now rewrite Hn, !Bool.andb_false_r.
    - apply nth_error_None in Hc. rewrite sma_crossover_length in Hc. lia. }
  split; [exact H0|].
  rewrite !nth_error_map, H0. split; reflexivity.
Qed.

Lemma no_cross_on_first_200_bars_witness :
  nth_error (sma_crossover whipsaw_frame) 199 = Some 0%Z.
Proof.
  apply (no_cross_on_first_200_bars whipsaw_frame 199); [lia|].
  vm_compute. lia.
Defined.

(** ** Candlestick patterns *)

(** X11.  [identify_doji] gives one flag per bar.  A bar whose high equals
    its low is never a doji (the zero range is replaced by NaN, and no
    comparison with NaN holds); a bar with high above low is a doji exactly
    when its body [|close - open|], as a percentage of the range, is below
    the threshold. *)
Theorem identify_doji_rule (df : DataFrame) (threshold : Q) (i : nat)
  (b : Bar) :
  nth_error (bars df) i = Some b ->
  exists flag : bool,
    nth_error (identify_doji df threshold) i = Some flag
    /\ (High b == Low b -> flag = false)
    /\ (Low b < High b ->
        (flag = true
         <-> Qabs (Close b - Open b) / (High b - Low b) * 100 < threshold)).
Proof.
  intros Hb. exists (doji_row threshold b).
  split; [unfold identify_doji; now rewrite nth_error_map, Hb|].
  unfold doji_row. cbv zeta. split.
  - intros Heq.
    assert (E : Qeq_bool (High b - Low b) 0 = true)
      by (apply Qeq_bool_iff; lra).
    rewrite E. reflexivity.
  - intros Hlt.
    assert (E : Qeq_bool (High b - Low b) 0 = false)
      by (apply Qeq_bool_false_iff; lra).
    rewrite E. unfold fin. cbn [fdiv].
    assert (E' : Qeq_bool (Qred (High b - Low b)) 0 = false)
      by (apply Qeq_bool_false_iff; rewrite Qred_correct; lra).
    rewrite E'. unfold fin. cbn [fmul]. unfold fin. cbn [fltb].
    rewrite Qltb_lt, !Qred_correct. reflexivity.
Qed.

Lemma identify_doji_rule_witness :
  nth_error (identify_doji (mkDF [mkBar 100 105 95 100 1; mkBar 7 7 7 7 1] [])
                           (1 # 10)) 1 = Some false.
Proof.
  destruct (identify_doji_rule
              (mkDF [mkBar 100 105 95 100 1; mkBar 7 7 7 7 1] [])
              (1 # 10) 1 (mkBar 7 7 7 7 1) eq_refl)
    as (flag & Hflag & Hzero & _).
  rewrite Hflag. f_equal. apply Hzero. reflexivity.
Defined.

Lemma engulfing_rows_nth_0 (df : DataFrame) (r : (F64 * F64) * (F64 * F64)) :
  nth_error (engulfing_rows df) 0 = Some r -> snd r = (NaN, NaN).
Proof.
  unfold engulfing_rows, col_Open, col_Close. cbv zeta.
  destruct (bars df) as [|b rest]; [discriminate|].
  cbn. intros H. injection H as <-. reflexivity.
Qed.

Lemma combine_nth_error {A B : Type} (xs : list A) (ys : list B) (i : nat) :
  nth_error (combine xs ys) i
  = match nth_error xs i, nth_error ys i with
    | Some a, Some b => Some (a, b)
    | _, _ => None
    end.
Proof.
  revert ys i. induction xs as [|x xs IH]; intros [|y ys] [|i]; simpl;
    try reflexivity.
  - now destruct (nth_error xs i).
  - apply IH.
Qed.

Lemma engulfing_rows_nth_S (df : DataFrame) (i : nat) (prev cur : Bar) :
  nth_error (bars df) i = Some prev ->
  nth_error (bars df) (S i) = Some cur ->
  nth_error (engulfing_rows df) (S i)
  = Some ((Fin (Open cur), Fin (Close cur)),
          (Fin (Open prev), Fin (Close prev))).
Proof.
  intros Hp Hc. unfold engulfing_rows, col_Open, col_Close. cbv zeta.
  assert (Hlen : (S i < length (bars df))%nat).
  { apply nth_error_Some. congruence. }
  rewrite !combine_nth_error.
  rewrite !shift1_nth_S by (rewrite !length_map; exact Hlen).
  rewrite !nth_error_map, Hp, Hc. reflexivity.
Qed.

(** X12.  [identify_engulfing] flags nothing on the first bar, which has no
    previous candle.  On a later bar the bullish flag holds exactly when the
    previous candle fell, the current one rose, opened below the previous
    close and closed above the previous open (and symmetrically for the
    bearish flag); no bar carries both flags. *)
Theorem identify_engulfing_rule (df : DataFrame) :
  (forall bull bear,
     nth_error (fst (identify_engulfing df)) 0 = Some bull ->
     nth_error (snd (identify_engulfing df)) 0 = Some bear ->
     bull = false /\ bear = false)
  /\ (forall (i : nat) (prev cur : Bar),
        nth_error (bars df) i = Some prev ->
        nth_error (bars df) (S i) = Some cur ->
        exists bull bear,
          nth_error (fst (identify_engulfing df)) (S i) = Some bull
          /\ nth_error (snd (identify_engulfing df)) (S i) = Some bear
          /\ (bull = true
              <-> Close prev < Open prev /\ Open cur < Close cur
                  /\ Open cur < Close prev /\ Open prev < Close cur)
          /\ (bear = true
              <-> Open prev < Close prev /\ Close cur < Open cur
                  /\ Close prev < Open cur /\ Close cur < Open prev)
          /\ bull && bear = false).
Proof.
  unfold identify_engulfing. cbv zeta. cbn [fst snd]. split.
  - intros bull bear. rewrite !nth_error_map.
    destruct (nth_error (engulfing_rows df) 0) as [r|] eqn:Hr;
      [|discriminate].
    apply engulfing_rows_nth_0 in Hr.
    destruct r as [[co cc] [po pc]]. cbn [snd] in Hr. injection Hr as -> ->.
    cbn [option_map fst snd]. intros H1 H2.
    injection H1 as <-. injection H2 as <-.
    unfold bullish_row, bearish_row, fgtb. cbn [fltb andb].
    split; reflexivity.
  - intros i prev cur Hp Hc.
    rewrite !nth_error_map, (engulfing_rows_nth_S df i prev cur Hp Hc).
    cbn [option_map fst snd].
    eexists _, _. split; [reflexivity|]. split; [reflexivity|].
    unfold bullish_row, bearish_row, fgtb. cbn [fltb].
    rewrite !Bool.andb_true_iff, !Qltb_lt.
    split; [tauto|]. split; [tauto|].
    destruct (Qltb (Close prev) (Open prev)) eqn:E1; [|reflexivity].
    destruct (Qltb (Open prev) (Close prev)) eqn:E2;
      [|cbn [andb]; now rewrite !Bool.andb_false_r].
    apply Qltb_lt in E1. apply Qltb_lt in E2. lra.
Qed.

Lemma body_nonneg (b : Bar) : 0 <= body b.
Proof. unfold body. apply Qabs_nonneg. Qed.

(** X13.  With a shadow-to-body ratio of at least 1 (the default is 2), no
    bar is both a hammer and a shooting star; and a bar whose high equals
    its low is neither. *)
Theorem hammer_and_shooting_star_exclusive (ratio : Q) (b : Bar) :
  1 <= ratio ->
  hammer_row ratio b && shooting_star_row ratio b = false
  /\ (High b == Low b ->
      hammer_row ratio b = false /\ shooting_star_row ratio b = false).
Proof.
  intros Hr. pose proof (body_nonneg b) as Hb.
  unfold hammer_row, shooting_star_row. split.
  - destruct (Qltb (ratio * body b) (lower_shadow b)) eqn:E1; [|reflexivity].
    destruct (Qltb (lower_shadow b) (body b)) eqn:E2;
      [|cbn [andb]; now rewrite !Bool.andb_false_r].
    apply Qltb_lt in E1. apply Qltb_lt in E2. nra.
  - intros Heq.
    assert (E : Qltb (body b) ((3 # 10) * candle_range b) = false).
    { apply Qltb_ge. unfold candle_range. nra. }
    rewrite E, !Bool.andb_false_r. split; reflexivity.
Qed.

Lemma hammer_and_shooting_star_exclusive_witness :
  hammer_row 2 (mkBar 100 101 90 101 1) = true
  /\ shooting_star_row 2 (mkBar 100 101 90 101 1) = false.
Proof.
  destruct (hammer_and_shooting_star_exclusive 2 (mkBar 100 101 90 101 1))
    as [Hex _]; [lra|].
  assert (Hh : hammer_row 2 (mkBar 100 101 90 101 1) = true)
    by (vm_compute; reflexivity).
  split; [exact Hh|]. rewrite Hh in Hex. exact Hex.
Defined.

(** A falling candle engulfed by a rising one. *)
Lemma identify_engulfing_rule_witness :
  nth_error (fst (identify_engulfing
                    (mkDF [mkBar 10 11 8 9 1; mkBar 8 12 7 11 1] []))) 1
  = Some true.
Proof.
  destruct (identify_engulfing_rule
              (mkDF [mkBar 10 11 8 9 1; mkBar 8 12 7 11 1] [])) as [_ H].
  destruct (H 0%nat (mkBar 10 11 8 9 1) (mkBar 8 12 7 11 1) eq_refl eq_refl)
    as (bull & bear & Hbull & _ & Hiff & _).
  rewrite Hbull. f_equal. apply Hiff. cbn. repeat split; reflexivity.
Defined.

(** ** Consolidation *)

(** X14.  [detect_consolidation] gives one flag per bar and flags nothing
    during the warm-up of its window (indices below [window - 1]): the
    rolling extremes are undefined there and no comparison with NaN
    holds. *)
Theorem detect_consolidation_warm_up (df : DataFrame) (window : nat)
  (threshold : Q) (i : nat) :
  (i < df_len df)%nat -> (i + 1 < window)%nat ->
  length (detect_consolidation df window threshold) = df_len df
  /\ nth_error (detect_consolidation df window threshold) i = Some false.
Proof.
  intros Hi Hw. split; [apply detect_consolidation_length|].
  unfold detect_consolidation. cbv zeta.
  assert (HlenH : (i < length (col_High df))%nat)
    by (unfold col_High; rewrite length_map; exact Hi).
  assert (HlenL : (i < length (col_Low df))%nat)
    by (unfold col_Low; rewrite length_map; exact Hi).
  assert (E : (i + 1 <? window)%nat = true) by (apply Nat.ltb_lt; exact Hw).
  rewrite nth_error_map.
  repeat (rewrite ?map2_nth_error, ?(rolling_nth _ _ _ _ HlenH),
            ?(rolling_nth _ _ _ _ HlenL), ?E, ?Bool.orb_true_r).
  reflexivity.
Qed.

Lemma detect_consolidation_warm_up_witness :
  nth_error (detect_consolidation surge_frame 20 (5 # 100)) 18 = Some false.
Proof.
  apply (detect_consolidation_warm_up surge_frame 20 (5 # 100) 18).
  - vm_compute. lia.
  - lia.
Defined.

(** ** 52-week statistics *)

Lemma Qmaximum_ge_start (xs : list Q) (x : Q) : x <= Qmaximum x xs.
Proof.
  unfold Qmaximum. revert x. induction xs as [|y xs IH]; intros x; simpl.
  - lra.
  - eapply Qle_trans; [|apply IH]. apply Q.le_max_l.
Qed.

Lemma Qmaximum_ge_elem (xs : list Q) (x y : Q) :
  In y xs -> y <= Qmaximum x xs.
Proof.
  unfold Qmaximum. revert x. induction xs as [|z xs IH]; intros x Hin.
  - contradiction.
  - simpl. destruct Hin as [->|Hin].
    + eapply Qle_trans; [|apply (Qmaximum_ge_start xs)]. apply Q.le_max_r.
    + now apply IH.
Qed.

Lemma series_max_ge (xs : list Q) (y : Q) :
  In y xs -> exists h, series_max xs = Fin h /\ y <= h.
Proof.
  destruct xs as [|x xs]; [contradiction|].
  intros Hin. eexists. split; [reflexivity|]. rewrite Qred_correct.
  destruct Hin as [->|Hin];
    [apply Qmaximum_ge_start|now apply Qmaximum_ge_elem].
Qed.

Lemma last_in_tail {A : Type} (n : nat) (xs : list A) (x : A) :
  (1 <= n)%nat -> iloc_neg xs 1 = Ok x -> In x (tail n xs).
Proof.
  intros Hn. unfold iloc_neg.
  destruct (length xs <? 1)%nat eqn:E; [discriminate|].
  apply Nat.ltb_ge in E.
  destruct (nth_error xs (length xs - 1)) as [y|] eqn:Hy; [|discriminate].
  intros H. injection H as <-.
  apply in_tail_iff. exists (length xs - 1)%nat. split; [lia|exact Hy].
Qed.

(** X15.  [calculate_52_week_high_low] raises [IndexError] on a frame
    without rows and returns on every other frame.  When the last bar is
    well formed (close not above its high, high positive), the close is
    at or below the 52-week high, so pct_from_high is a number and is never
    positive; the scanner's two-sided test [|pct_from_high| <= 5] then says
    the same as [pct_from_high >= -5], and it differs from the entry
    near_52w_high ([pct_from_high > -5]) at exactly -5 only. *)
Theorem pct_from_high_never_positive (df : DataFrame) (last_bar : Bar) :
  (bars df = [] -> calculate_52_week_high_low df = Raise IndexError)
  /\ (iloc_neg (bars df) 1 = Ok last_bar ->
      Close last_bar <= High last_bar -> 0 < High last_bar ->
      exists (stats : Stats52) (p : Q),
        calculate_52_week_high_low df = Ok stats
        /\ pct_from_high stats = Fin p
        /\ p <= 0
        /\ check_near_52w_high df 5 = Ok (Qle_bool (-5) p)
        /\ stats_near_52w_high stats = Qltb (-5) p).
Proof.
  split.
  - unfold calculate_52_week_high_low, col_Close, df_len. intros ->.
    reflexivity.
  - intros Hlast Hwf Hpos.
    assert (Hclose : iloc_neg (col_Close df) 1 = Ok (Close last_bar)).
    { unfold col_Close, iloc_neg in *. rewrite length_map.
      destruct (length (bars df) <? 1)%nat; [discriminate|].
      rewrite nth_error_map.
      destruct (nth_error (bars df) (length (bars df) - 1)); [|discriminate].
      injection Hlast as ->. reflexivity. }
    assert (Hlen : (1 <= df_len df)%nat).
    { unfold iloc_neg, df_len in *.
      destruct (length (bars df) <? 1)%nat eqn:E; [discriminate|].
      now apply Nat.ltb_ge in E. }
    set (lookback := if (df_len df <? 252)%nat then df_len df else 252%nat).
    assert (Hlook : (1 <= lookback)%nat).
    { unfold lookback. destruct (df_len df <? 252)%nat; lia. }
    assert (Hin : In (High last_bar) (col_High (df_tail lookback df))).
    { unfold col_High, df_tail. cbn [bars]. apply in_map.
      now apply last_in_tail. }
    destruct (series_max_ge _ _ Hin) as (h & Hh & Hge).
    unfold check_near_52w_high, calculate_52_week_high_low.
    fold lookback. rewrite Hclose, Hh. cbn [bind].
    assert (Hhne : Qeq_bool h 0 = false)
      by (apply Qeq_bool_false_iff; lra).
    unfold fsub. cbn [fneg fadd fdiv]. unfold fin. cbn [fadd fdiv].
    rewrite Hhne. unfold fin. cbn [fmul]. unfold fin.
    cbn [pct_from_high stats_near_52w_high].
    eexists _, _. split; [reflexivity|]. cbn [pct_from_high].
    split; [reflexivity|].
    set (p := Qred (Qred (Qred (Close last_bar + Qred (- h)) / h) * 100)).
    assert (Hp : p == (Close last_bar - h) / h * 100).
    { unfold p. rewrite !Qred_correct. reflexivity. }
    assert (Hp0 : p <= 0).
    { rewrite Hp.
      assert (Hq : (Close last_bar - h) / h <= 0).
      { apply Qle_shift_div_r; lra. }
      lra. }
    split; [exact Hp0|]. split.
    + f_equal. cbn [stats_near_52w_high fabs fleb]. unfold fin. cbn [fleb].
      destruct (Qle_bool (-5) p) eqn:E.
      * apply Qle_bool_iff in E. apply Qle_bool_iff.
        rewrite Qred_correct. apply Qabs_Qle_condition. lra.
      * apply Bool.not_true_is_false. intros E'.
        apply Qle_bool_iff in E'. rewrite Qred_correct in E'.
        apply Qabs_Qle_condition in E'.
        assert (Hc : Qle_bool (-5) p = true) by (apply Qle_bool_iff; lra).
        congruence.
    + reflexivity.
Qed.

Lemma pct_from_high_never_positive_witness :
  check_near_52w_high five_below_frame 5 = Ok true.
Proof.
  destruct (pct_from_high_never_positive five_below_frame
              (mkBar 95 100 95 95 1000)) as [_ H].
  destruct H as (stats & p & Hst & Hp & _ & Hnear & _).
  - vm_compute. reflexivity.
  - cbn. discriminate.
  - reflexivity.
  - rewrite Hnear. vm_compute in Hst. injection Hst as <-.
    cbn in Hp. injection Hp as <-. reflexivity.
Defined.

(** ** Support and resistance levels *)

(** [find_support_resistance_levels] never returns its levels: the two
    lists it builds are plain Python lists, and the [return] statement
    calls [.tolist()] on them, so every call ends in [AttributeError],
    whatever the frame, the window and the number of levels. *)
Lemma find_support_resistance_levels_raises (df : DataFrame)
  (window num_levels : nat) :
  find_support_resistance_levels df window num_levels = inl AttributeError.
Proof. reflexivity. Qed.

(** The frame that [add_all_patterns] builds, column by column. *)
Lemma add_all_patterns_runs (st : store) (df : loc) (d : DataFrame) :
  st !! df = Some d ->
  add_all_patterns df st
  = (Ok (fresh (dom st)),
     <[fresh (dom st) :=
         df_set "Consolidation"
           (BoolCol (detect_consolidation d 20 (5 # 100)))
           (df_set "Shooting_Star" (BoolCol (identify_shooting_star d 2))
              (df_set "Hammer" (BoolCol (identify_hammer d 2))
                 (df_set "Bearish_Engulfing"
                    (BoolCol (snd (identify_engulfing d)))
                    (df_set "Bullish_Engulfing"
                       (BoolCol (fst (identify_engulfing d)))
                       (df_set "Doji" (BoolCol (identify_doji d (1 # 10)))
                          d)))))]> st).
Proof.
  intros Hl.
  pose proof (fresh_loc_ne st df d Hl) as Hne.
  unfold add_all_patterns.
  rewrite (run_copy df _ st d Hl).
  destruct (identify_engulfing d) as [bull bear] eqn:He.
  repeat first
    [ rewrite (run_load df _ _ st d _ Hl Hne)
    | rewrite run_set_item
    | rewrite He ].
  reflexivity.
Qed.

(** X16.  [summarize_patterns] never returns a summary.  On every frame it
    builds the pattern frame, reads its six columns without a [KeyError] or
    an [IndexError] (also when the frame has no rows), and then fails with
    the [AttributeError] of [find_support_resistance_levels], whose
    [return] statement calls [.tolist()] on two Python lists.  The frame it
    was given is unchanged. *)
Theorem summarize_patterns_raises (st : store) (df : loc) (d : DataFrame) :
  st !! df = Some d ->
  exists out : DataFrame,
    summarize_patterns df st
    = (inl (Attribute AttributeError), <[fresh (dom st) := out]> st)
    /\ bars out = bars d
    /\ (<[fresh (dom st) := out]> st) !! df = Some d.
Proof.
  intros Hl.
  pose proof (fresh_loc_ne st df d Hl) as Hne.
  assert (Hd : deref st df = d) by (unfold deref; now rewrite Hl).
  eexists. split; [|split].
  - unfold summarize_patterns.
    rewrite (add_all_patterns_runs st df d Hl).
    rewrite deref_insert_eq, (deref_insert_ne st df _ _ Hne), Hd.
    rewrite find_support_resistance_levels_raises.
    unfold sum_of, df_tail, df_set, df_len. cbn [columns bars].
    rewrite !get_column_tail.
    repeat first [ rewrite get_set_column_eq
                 | rewrite get_set_column_ne by discriminate ].
    cbn [bind column_tail column_sum column_iloc_neg].
    destruct (0 <? length (tail 30 (bars d)))%nat eqn:Hrows.
    + apply Nat.ltb_lt in Hrows.
      destruct (iloc_neg_ok (tail 30 (detect_consolidation d 20 (5 # 100))) 1)
        as [b Hb].
      { unfold tail in *. rewrite length_skipn in *.
        rewrite detect_consolidation_length. unfold df_len. lia. }
      rewrite Hb. reflexivity.
    + reflexivity.
  - reflexivity.
  - rewrite lookup_insert_ne by congruence. exact Hl.
Qed.

Lemma summarize_patterns_raises_witness :
  exists out,
    summarize_patterns 1%positive {[1%positive := mkDF [quiet_bar] []]}
    = (inl (Attribute AttributeError),
       <[2%positive := out]> {[1%positive := mkDF [quiet_bar] []]})
    /\ bars out = [quiet_bar].
Proof.
  destruct (summarize_patterns_raises
              {[1%positive := mkDF [quiet_bar] []]} 1%positive
              (mkDF [quiet_bar] []) (lookup_singleton_eq _ _))
    as (out & Hrun & Hbars & _).
  exists out. split; [exact Hrun|exact Hbars].
Defined.

(** ** add_all_patterns and the store *)

Lemma identify_engulfing_lengths (d : DataFrame) :
  length (fst (identify_engulfing d)) = df_len d
  /\ length (snd (identify_engulfing d)) = df_len d.
Proof.
  unfold identify_engulfing, engulfing_rows, col_Open, col_Close, df_len.
  cbv zeta. cbn [fst snd].
  rewrite !length_map, !length_combine, !shift1_length, !length_map.
  split; lia.
Qed.

(** X17.  [add_all_patterns] always returns, with a new frame.  The frame
    it was given is unchanged afterwards, and so is every other object; the
    new frame has the rows of the input and the six pattern columns (Doji,
    Bullish_Engulfing, Bearish_Engulfing, Hammer, Shooting_Star,
    Consolidation), each with one flag per row. *)
Theorem add_all_patterns_fresh_frame (st : store) (df : loc) (d : DataFrame) :
  st !! df = Some d ->
  exists (out : DataFrame),
    add_all_patterns df st
    = (Ok (fresh (dom st)), <[fresh (dom st) := out]> st)
    /\ fresh (dom st) <> df
    /\ (<[fresh (dom st) := out]> st) !! df = Some d
    /\ (forall x, is_Some (st !! x) ->
        (<[fresh (dom st) := out]> st) !! x = st !! x)
    /\ bars out = bars d
    /\ Forall (fun name =>
                 exists flags, get_column name (columns out) = Ok (BoolCol flags)
                               /\ length flags = df_len d)
         ["Doji"; "Bullish_Engulfing"; "Bearish_Engulfing"; "Hammer";
          "Shooting_Star"; "Consolidation"]%string.
Proof.
  intros Hl.
  pose proof (fresh_loc_ne st df d Hl) as Hne.
  unfold add_all_patterns.
  rewrite (run_copy df _ st d Hl).
  destruct (identify_engulfing d) as [bull bear] eqn:He.
  pose proof (identify_engulfing_lengths d) as [Hbull Hbear].
  rewrite He in Hbull, Hbear. cbn [fst snd] in Hbull, Hbear.
  repeat first
    [ rewrite (run_load df _ _ st d _ Hl Hne)
    | rewrite run_set_item
    | rewrite He ].
  eexists. split; [reflexivity|].
  split; [congruence|].
  split; [now rewrite lookup_insert_ne by congruence|].
  split.
  { intros x Hx. apply lookup_insert_ne.
    intros E. destruct Hx as [y Hy]. rewrite <- E in Hy.
    apply (is_fresh (dom st)). apply elem_of_dom. exists y. exact Hy. }
  split; [reflexivity|].
  unfold df_set. cbn [columns bars].
  repeat constructor;
    (eexists; split;
     [repeat first [ rewrite get_set_column_eq; reflexivity
                   | rewrite get_set_column_ne by discriminate ]|]).
  - unfold identify_doji, df_len. apply length_map.
  - exact Hbull.
  - exact Hbear.
  - unfold identify_hammer, df_len. apply length_map.
  - unfold identify_shooting_star, df_len. apply length_map.
  - apply detect_consolidation_length.
Qed.

Lemma add_all_patterns_fresh_frame_witness :
  exists out,
    add_all_patterns 1%positive {[1%positive := mkDF [quiet_bar] []]}
    = (Ok 2%positive,
       <[2%positive := out]> {[1%positive := mkDF [quiet_bar] []]})
    /\ bars out = [quiet_bar].
Proof.
  destruct (add_all_patterns_fresh_frame
              {[1%positive := mkDF [quiet_bar] []]} 1%positive
              (mkDF [quiet_bar] []) (lookup_singleton_eq _ _))
    as (out & Hrun & _ & _ & _ & Hbars & _).
  exists out. split; [exact Hrun|exact Hbars].
Defined.

(** ** The indicator columns are aligned with the rows *)

Lemma cumsum_from_length (acc : Q) (xs : list Q) :
  length (cumsum_from acc xs) = length xs.
Proof.
  revert acc. induction xs as [|x xs IH]; intros acc; simpl; [reflexivity|].
  now rewrite IH.
Qed.

Lemma calculate_vwap_length (d : DataFrame) :
  length (calculate_vwap d) = df_len d.
Proof.
  unfold calculate_vwap, cumsum, col_Volume, df_len. cbv zeta.
  rewrite !map2_length, !cumsum_from_length, !map2_length, !length_map. lia.
Qed.

Lemma calculate_obv_length (d : DataFrame) (obv : list Q) :
  calculate_obv d = Ok obv -> length obv = df_len d.
Proof.
  unfold calculate_obv, df_len. destruct (bars d) as [|b rest]; [discriminate|].
  intros H. injection H as <-. simpl. now rewrite obv_from_length.
Qed.

Lemma calculate_bollinger_bands_lengths (np_sqrt : F64 -> F64)
  (data : list Q) (period : nat) (std_dev : Q) :
  let bands := calculate_bollinger_bands np_sqrt data period std_dev in
  length (fst (fst bands)) = length data
  /\ length (snd (fst bands)) = length data
  /\ length (snd bands) = length data.
Proof.
  unfold calculate_bollinger_bands, calculate_sma. cbv zeta. cbn [fst snd].
  rewrite !map2_length, !length_map, !rolling_length. repeat split; lia.
Qed.

Lemma calculate_macd_lengths (data : list Q) (fast slow sig : nat)
  (macd signal histogram : list Q) :
  calculate_macd data fast slow sig = Ok (macd, signal, histogram) ->
  length macd = length data /\ length signal = length data
  /\ length histogram = length data.
Proof.
  unfold calculate_macd.
  destruct (calculate_ema data fast) as [ema_fast|] eqn:Ef; [|discriminate].
  destruct (calculate_ema data slow) as [ema_slow|] eqn:Es; [|discriminate].
  cbn [bind].
  destruct (calculate_ema (map2 (fun a b => Qred (a - b)) ema_fast ema_slow)
              sig) as [sg|] eqn:Eg; [|discriminate].
  cbn [bind]. intros H. injection H as <- <- <-.
  apply calculate_ema_length in Ef, Es, Eg.
  rewrite map2_length in Eg. rewrite !map2_length. repeat split; lia.
Qed.

Section IndicatorColumns.

Variable np_sqrt : F64 -> F64.

(** X18.  On an OHLCV frame (one that carries Open, High, Low, Close and
    Volume, as every frame of the embedding does) with at least one row,
    [add_all_indicators] returns a new frame with the rows of its input and
    the fourteen indicator columns, every one of them with exactly one
    entry per row.  On an OHLCV frame without rows it raises [IndexError]
    (from the first-bar seed of OBV); the input frame is unchanged in both
    cases.  Frames that lack one of the five columns are not covered: the
    code skips VWAP and OBV when there is no Volume, and raises [KeyError]
    when there is no Close. *)
Theorem add_all_indicators_columns (st : store) (df : loc) (d : DataFrame) :
  st !! df = Some d ->
  (bars d = [] ->
   fst (add_all_indicators np_sqrt df st) = Raise IndexError
   /\ snd (add_all_indicators np_sqrt df st) !! df = Some d)
  /\ (bars d <> [] ->
      exists out : DataFrame,
        add_all_indicators np_sqrt df st
        = (Ok (fresh (dom st)), <[fresh (dom st) := out]> st)
        /\ (<[fresh (dom st) := out]> st) !! df = Some d
        /\ bars out = bars d
        /\ Forall (fun name =>
                     exists xs, get_column name (columns out) = Ok (FloatCol xs)
                                /\ length xs = df_len d)
             ["SMA_20"; "SMA_50"; "SMA_200"; "EMA_12"; "EMA_26"; "RSI";
              "MACD"; "MACD_Signal"; "MACD_Histogram"; "BB_Upper";
              "BB_Middle"; "BB_Lower"; "VWAP"; "OBV"]%string).
Proof.
  intros Hl.
  pose proof (fresh_loc_ne st df d Hl) as Hne.
  destruct (calculate_ema_ok (col_Close d) 12) as [e12 He12]; [discriminate|].
  destruct (calculate_ema_ok (col_Close d) 26) as [e26 He26]; [discriminate|].
  destruct (calculate_macd_ok (col_Close d) 12 26 9) as [[[m s] h] Hm];
    try discriminate.
  destruct (calculate_bollinger_bands np_sqrt (col_Close d) 20 2)
    as [[bu bm] bl] eqn:Hb.
  assert (Hrun : add_all_indicators np_sqrt df st
                 = bindM (lift (calculate_obv d))
                     (fun obv =>
                        bindM (set_item (fresh (dom st)) "OBV" (float_col obv))
                          (fun _ => ret (fresh (dom st))))
                     (<[fresh (dom st) :=
                          df_set "VWAP" (FloatCol (calculate_vwap d))
                            (df_set "BB_Lower" (FloatCol bl)
                            (df_set "BB_Middle" (FloatCol bm)
                            (df_set "BB_Upper" (FloatCol bu)
                            (df_set "MACD_Histogram" (float_col h)
                            (df_set "MACD_Signal" (float_col s)
                            (df_set "MACD" (float_col m)
                            (df_set "RSI"
                               (FloatCol (calculate_rsi (col_Close d)
                                            default_rsi_period))
                            (df_set "EMA_26" (float_col e26)
                            (df_set "EMA_12" (float_col e12)
                            (df_set "SMA_200"
                               (FloatCol (calculate_sma (col_Close d) 200))
                            (df_set "SMA_50"
                               (FloatCol (calculate_sma (col_Close d) 50))
                            (df_set "SMA_20"
                               (FloatCol (calculate_sma (col_Close d) 20))
                               d))))))))))))]> st)).
  { unfold add_all_indicators.
    rewrite (run_copy df _ st d Hl).
    repeat first
      [ rewrite (run_load df _ _ st d _ Hl Hne)
      | rewrite run_volume_guard
      | rewrite run_set_item
      | rewrite He12 | rewrite He26 | rewrite Hm | rewrite Hb
      | rewrite run_lift_ok ].
    reflexivity. }
  rewrite Hrun. clear Hrun. split.
  - intros Hnil. unfold calculate_obv. rewrite Hnil.
    rewrite run_lift_raise. cbn [fst snd].
    split; [reflexivity|]. now rewrite lookup_insert_ne by congruence.
  - intros Hbars.
    destruct (calculate_obv_ok d Hbars) as [obv Hobv].
    rewrite Hobv, run_lift_ok, run_set_item.
    eexists. split; [reflexivity|].
    split; [now rewrite lookup_insert_ne by congruence|].
    split; [reflexivity|].
    pose proof (calculate_ema_length _ _ _ He12) as L12.
    pose proof (calculate_ema_length _ _ _ He26) as L26.
    pose proof (calculate_macd_lengths _ _ _ _ _ _ _ Hm)
      as (Lm & Ls & Lh).
    pose proof (calculate_bollinger_bands_lengths np_sqrt (col_Close d) 20 2)
      as Lb.
    rewrite Hb in Lb. cbn [fst snd] in Lb. destruct Lb as (Lbu & Lbm & Lbl).
    pose proof (calculate_obv_length _ _ Hobv) as Lobv.
    rewrite col_Close_length in *.
    unfold df_set, float_col. cbn [columns bars].
    repeat constructor;
      (eexists; split;
       [repeat first [ rewrite get_set_column_eq; reflexivity
                     | rewrite get_set_column_ne by discriminate ]|]);
      rewrite ?length_map; try assumption.
    + unfold calculate_sma. now rewrite rolling_length, col_Close_length.
    + unfold calculate_sma. now rewrite rolling_length, col_Close_length.
    + unfold calculate_sma. now rewrite rolling_length, col_Close_length.
    + now rewrite calculate_rsi_length, col_Close_length.
    + apply calculate_vwap_length.
Qed.

End IndicatorColumns.

Lemma add_all_indicators_columns_witness :
  exists out,
    add_all_indicators (fun x => x) 1%positive
      {[1%positive := mkDF [quiet_bar] []]}
    = (Ok (fresh (dom ({[1%positive := mkDF [quiet_bar] []]} : store))),
       <[fresh (dom ({[1%positive := mkDF [quiet_bar] []]} : store)) := out]>
         {[1%positive := mkDF [quiet_bar] []]})
    /\ bars out = [quiet_bar].
Proof.
  destruct (add_all_indicators_columns (fun x => x)
              {[1%positive := mkDF [quiet_bar] []]} 1%positive
              (mkDF [quiet_bar] []) (lookup_singleton_eq _ _)) as [_ H].
  destruct H as (out & Hrun & _ & Hbars & _).
  - cbn [bars]. intros E. inversion E.
  - exists out. split; [exact Hrun|exact Hbars].
Defined.

(** ** Volume surge *)






(** ** RSI warm-up and the RSI signal *)

Lemma rsi_of_rs_nan : rsi_of_rs NaN = NaN.
Proof. reflexivity. Qed.

Lemma calculate_rsi_nth_warm_up (data : list Q) (period i : nat) :
  (i < length data)%nat -> (i + 1 < period)%nat ->
  nth_error (calculate_rsi data period) i = Some NaN.
Proof.
  intros Hi Hw. unfold calculate_rsi, avg_gain, avg_loss.
  assert (E : (i + 1 <? period)%nat = true) by (apply Nat.ltb_lt; exact Hw).
  rewrite nth_error_map, map2_nth_error.
  rewrite !rolling_nth by (rewrite length_map, diff_length; exact Hi).
  rewrite E, Bool.orb_true_r. reflexivity.
Qed.

(** X20.  The RSI series is as long as the prices and undefined (NaN) on
    the first [period - 1] of them.  On a frame of fewer than 14 bars the
    latest RSI is therefore undefined (or there is none) and
    [check_rsi_signal] answers 'neutral', whatever the two thresholds. *)
Theorem check_rsi_signal_neutral_on_short_series (df : DataFrame)
  (oversold overbought : Q) :
  (df_len df < 14)%nat ->
  length (calculate_rsi (col_Close df) 14) = df_len df
  /\ (forall i, (i < df_len df)%nat ->
      nth_error (calculate_rsi (col_Close df) 14) i = Some NaN)
  /\ check_rsi_signal df oversold overbought = Ok Neutral.
Proof.
  intros Hlen.
  assert (Hl : length (calculate_rsi (col_Close df) 14) = df_len df)
    by (now rewrite calculate_rsi_length, col_Close_length).
  assert (Hnan : forall i, (i < df_len df)%nat ->
                 nth_error (calculate_rsi (col_Close df) 14) i = Some NaN).
  { intros i Hi. apply calculate_rsi_nth_warm_up;
      [rewrite col_Close_length; exact Hi|lia]. }
  split; [exact Hl|]. split; [exact Hnan|].
  unfold check_rsi_signal, default_rsi_period.
  destruct (calculate_rsi (col_Close df) 14) as [|v rsi] eqn:E;
    [reflexivity|].
  unfold iloc_neg.
  destruct (length (v :: rsi) <? 1)%nat eqn:E1;
    [apply Nat.ltb_lt in E1; simpl in E1; lia|].
  rewrite (Hnan (length (v :: rsi) - 1)%nat) by (simpl in *; lia).
  reflexivity.
Qed.

(** The five closes of the test suite. *)
Lemma check_rsi_signal_neutral_on_short_series_witness :
  check_rsi_signal
    (mkDF [mkBar 100 100 100 100 1; mkBar 101 101 101 101 1;
           mkBar 102 102 102 102 1; mkBar 103 103 103 103 1;
           mkBar 104 104 104 104 1] []) 30 70 = Ok Neutral.
Proof.
  apply check_rsi_signal_neutral_on_short_series. vm_compute. lia.
Defined.

(** ** Consistency of a scan row *)

Lemma scan_ticker_values
  (fetch : string -> string -> string -> pyres DataFrame)
  (tk period interval : string) (df : DataFrame) (s : Signals) :
  fetch tk period interval = Ok df ->
  scan_ticker fetch tk period interval = Some s ->
  (50 <= df_len df)%nat
  /\ iloc_neg (col_Close df) 1 = Ok (current_price s)
  /\ (exists c, price_change df 6 = Ok c /\ price_change_5d s = Some c)
  /\ (exists c, price_change df 21 = Ok c /\ price_change_20d s = Some c)
  /\ (exists v, iloc_neg (calculate_rsi (col_Close df) 14) 1 = Ok v
                /\ rsi_value s = Some v).
Proof.
  intros Hf. unfold scan_ticker, scan_ticker_body. rewrite Hf. cbn [bind].
  destruct ((df_len df =? 0)%nat || (df_len df <? 50)%nat) eqn:Hlen;
    [discriminate|].
  apply Bool.orb_false_iff in Hlen. destruct Hlen as [_ Hlen].
  apply Nat.ltb_ge in Hlen.
  destruct (iloc_neg (col_Close df) 1) as [price|]; [|discriminate].
  cbn [bind].
  destruct (calculate_relative_volume df 20); [|discriminate]. cbn [bind].
  destruct (check_volume_surge df 2); [|discriminate]. cbn [bind].
  destruct (check_rsi_signal df 30 70); [|discriminate]. cbn [bind].
  destruct (check_ma_crossover df); [|discriminate]. cbn [bind].
  destruct (check_near_52w_high df 5); [|discriminate]. cbn [bind].
  destruct (check_consolidation_breakout df); [|discriminate]. cbn [bind].
  assert (E5 : (5 <? df_len df)%nat = true) by (apply Nat.ltb_lt; lia).
  assert (E20 : (20 <? df_len df)%nat = true) by (apply Nat.ltb_lt; lia).
  rewrite E5, E20.
  destruct (price_change df 6) as [c5|]; [|discriminate]. cbn [bind].
  destruct (price_change df 21) as [c20|]; [|discriminate]. cbn [bind].
  unfold default_rsi_period.
  destruct (calculate_rsi (col_Close df) 14) as [|v0 rest] eqn:Hr.
  { apply (f_equal (@length F64)) in Hr.
    rewrite calculate_rsi_length, col_Close_length in Hr. simpl in Hr. lia. }
  destruct (iloc_neg (v0 :: rest) 1) as [v|]; [|discriminate].
  cbn [bind try_except]. intros H. injection H as <-.
  cbn [current_price price_change_5d price_change_20d rsi_value].
  split; [exact Hlen|]. split; [reflexivity|].
  split; [now exists c5|]. split; [now exists c20|]. now exists v.
Qed.

Lemma iloc_neg_nth_error {A : Type} (xs : list A) (k : nat) (x : A) :
  iloc_neg xs k = Ok x -> nth_error xs (length xs - k) = Some x.
Proof.
  unfold iloc_neg. destruct (length xs <? k)%nat; [discriminate|].
  destruct (nth_error xs (length xs - k)); [|discriminate].
  now intros H; injection H as <-.
Qed.

(** X21.  The fields of a scan row agree with one another.  The row
    carries the last close as current_price and always has price_change_5d,
    price_change_20d and rsi_value.  Its rsi_value is undefined or a number
    in [0, 100], and rsi_signal is 'oversold' exactly when that number is
    below 30, 'overbought' exactly when it is above 70, and 'neutral'
    otherwise (also when it is undefined).  volume_surge is set exactly
    when there is a relative volume and it is at least 2. *)
Theorem scan_row_consistent
  (fetch : string -> string -> string -> pyres DataFrame)
  (tk period interval : string) (df : DataFrame) (s : Signals) :
  fetch tk period interval = Ok df ->
  scan_ticker fetch tk period interval = Some s ->
  iloc_neg (col_Close df) 1 = Ok (current_price s)
  /\ (exists c5 c20, price_change_5d s = Some c5
                     /\ price_change_20d s = Some c20)
  /\ (exists v, rsi_value s = Some v
       /\ (v = NaN \/ exists x, v = Fin x /\ 0 <= x /\ x <= 100)
       /\ (rsi_signal s = Oversold <-> exists x, v = Fin x /\ x < 30)
       /\ (rsi_signal s = Overbought <-> exists x, v = Fin x /\ 70 < x))
  /\ (volume_surge s = true
      <-> exists rv, relative_volume s = Some rv /\ fgeb rv (Fin 2) = true).
Proof.
  intros Hf Hs.
  destruct (scan_ticker_values fetch tk period interval df s Hf Hs)
    as (_ & Hprice & (c5 & _ & H5) & (c20 & _ & H20) & (v & Hv & Hrv)).
  destruct (scan_ticker_fields fetch tk period interval df s Hf Hs)
    as (_ & _ & Hrel & Hsurge & Hsig & _).
  split; [exact Hprice|]. split; [now exists c5, c20|]. split.
  - exists v. split; [exact Hrv|].
    pose proof (iloc_neg_nth_error _ _ _ Hv) as Hnth.
    destruct (rsi_never_infinite _ _ _ _ Hnth) as [Hinf Hrange].
    assert (Hshape : v = NaN \/ exists x, v = Fin x /\ 0 <= x /\ x <= 100).
    { destruct v as [x| | |]; try discriminate; [right|now left].
      exists x. split; [reflexivity|]. now apply Hrange. }
    split; [exact Hshape|].
    unfold check_rsi_signal, default_rsi_period in Hsig.
    destruct (calculate_rsi (col_Close df) 14) as [|v0 rest] eqn:Hr;
      [discriminate|].
    rewrite Hv in Hsig. cbn [bind] in Hsig.
    destruct Hshape as [->|(x & -> & _)].
    + cbn [is_nan] in Hsig. injection Hsig as <-.
      split; split; try discriminate; intros (x & Hx & _); discriminate.
    + cbn [is_nan fltb fgtb] in Hsig.
      destruct (Qltb x 30) eqn:E30.
      * injection Hsig as <-. apply Qltb_lt in E30. split; split.
        -- intros _. now exists x.
        -- reflexivity.
        -- discriminate.
        -- intros (y & Hy & Hlt). injection Hy as <-. lra.
      * apply Qltb_ge in E30. destruct (Qltb 70 x) eqn:E70.
        -- injection Hsig as <-. apply Qltb_lt in E70. split; split.
           ++ discriminate.
           ++ intros (y & Hy & Hlt). injection Hy as <-. lra.
           ++ intros _. now exists x.
           ++ reflexivity.
        -- injection Hsig as <-. apply Qltb_ge in E70. split; split.
           ++ discriminate.
           ++ intros (y & Hy & Hlt). injection Hy as <-. lra.
           ++ discriminate.
           ++ intros (y & Hy & Hlt). injection Hy as <-. lra.
  - unfold check_volume_surge in Hsurge. rewrite Hrel in Hsurge.
    cbn [bind] in Hsurge.
    destruct (relative_volume s) as [rv|].
    + injection Hsurge as <-. split.
      * intros H. now exists rv.
      * intros (rv' & Hrv' & H). now injection Hrv' as <-.
    + injection Hsurge as <-. split; [discriminate|].
      intros (rv' & Hrv' & _). discriminate.
Qed.

Lemma scan_row_consistent_witness :
  exists s,
    scan_ticker sample_fetch "AAA" "1y" "1d" = Some s
    /\ current_price s = 100
    /\ volume_surge s = true.
Proof.
  pose (s := default
               (mkSignals "" 0 None false Neutral NoCross false
                  (mkConsolidation false false) None None None)
               (scan_ticker sample_fetch "AAA" "1y" "1d")).
  assert (Hs : scan_ticker sample_fetch "AAA" "1y" "1d" = Some s)
    by (vm_compute; reflexivity).
  destruct (scan_row_consistent sample_fetch "AAA" "1y" "1d" surge_frame s
              eq_refl Hs) as (Hprice & _ & _ & Hsurge).
  exists s. split; [exact Hs|]. split.
  - vm_compute. reflexivity.
  - apply Hsurge. exists (Fin 3). split; vm_compute; reflexivity.
Defined.

(** ** The canned scans *)

Section SortRowsByInsertion.

Variable by_key : Signals -> F64.
Variable ascending : bool.

Let ordered (a b : Signals) : Prop :=
  if ascending then fleb (by_key a) (by_key b) = true
  else fleb (by_key b) (by_key a) = true.

Let finite (s : Signals) : Prop := exists v, by_key s = Fin v.

Lemma row_before_ordered (x y : Signals) :
  row_before by_key ascending x y = true -> ordered x y.
Proof. unfold row_before, ordered. now destruct ascending. Qed.

Lemma not_row_before_ordered (x y : Signals) :
  finite x -> finite y ->
  row_before by_key ascending x y = false -> ordered y x.
Proof.
  unfold row_before, ordered. intros [a Ha] [b Hb]. rewrite Ha, Hb.
  cbn [fleb]. destruct ascending; intros H; apply Qle_bool_iff.
  - destruct (Qlt_le_dec b a) as [Hlt|Hle]; [lra|].
    apply Qle_bool_iff in Hle. rewrite H in Hle. discriminate.
  - destruct (Qlt_le_dec a b) as [Hlt|Hle]; [lra|].
    apply Qle_bool_iff in Hle. rewrite H in Hle. discriminate.
Qed.

Lemma insert_row_perm (x : Signals) (l : list Signals) :
  Permutation (x :: l) (insert_row by_key ascending x l).
Proof.
  induction l as [|y l IH]; simpl; [reflexivity|].
  destruct (row_before by_key ascending x y); [reflexivity|].
  rewrite perm_swap. now apply perm_skip.
Qed.

Lemma insert_row_hd (a x : Signals) (l : list Signals) :
  ordered a x -> HdRel ordered a l ->
  HdRel ordered a (insert_row by_key ascending x l).
Proof.
  intros Hax Hl. destruct l as [|y l]; simpl; [now constructor|].
  destruct (row_before by_key ascending x y); [now constructor|].
  inversion Hl; subst. now constructor.
Qed.

Lemma insert_row_sorted (x : Signals) (l : list Signals) :
  finite x -> Forall finite l ->
  Sorted ordered l -> Sorted ordered (insert_row by_key ascending x l).
Proof.
  intros Hx Hl Hs. induction Hs as [|y l Hs IH Hhd]; simpl.
  - repeat constructor.
  - inversion Hl as [|? ? Hy Hl']; subst.
    destruct (row_before by_key ascending x y) eqn:E.
    + constructor; [now constructor|].
      constructor. now apply row_before_ordered.
    + constructor; [now apply IH|].
      apply insert_row_hd; [|exact Hhd].
      now apply not_row_before_ordered.
Qed.

Lemma sort_rows_by_insertion_spec (rows : list Signals) :
  Permutation rows (sort_rows_by_insertion by_key ascending rows)
  /\ (Forall finite rows ->
      Sorted ordered (sort_rows_by_insertion by_key ascending rows)).
Proof.
  induction rows as [|x rows [IHp IHs]]; simpl.
  - split; constructor.
  - split.
    + etransitivity; [|apply insert_row_perm]. now apply perm_skip.
    + intros Hall. inversion Hall as [|? ? Hx Hrows]; subst.
      apply insert_row_sorted; [exact Hx| |now apply IHs].
      apply Forall_forall. intros s Hs.
      apply (proj1 (Forall_forall _ _) Hrows).
      eapply Permutation_in; [apply Permutation_sym; exact IHp|exact Hs].
Qed.

End SortRowsByInsertion.

Lemma sort_rows_by_insertion_contract :
  sort_rows_contract sort_rows_by_insertion.
Proof. intros by_key ascending rows. apply sort_rows_by_insertion_spec. Qed.

Section CannedScans.

Variable fetch : string -> string -> string -> pyres DataFrame.

Lemma scan_row_origin (tickers : list string) (period interval : string)
  (s : Signals) :
  In s (scan_loop fetch tickers period interval []) ->
  In (ticker s) tickers
  /\ exists df, fetch (ticker s) period interval = Ok df
                /\ scan_ticker fetch (ticker s) period interval = Some s.
Proof.
  intros Hin.
  destruct (scan_loop_rows fetch period interval tickers) as [Hm Hf].
  assert (Hs : scan_ticker fetch (ticker s) period interval = Some s)
    by exact (proj1 (Forall_forall _ _) Hf s Hin).
  split.
  - assert (Ht : In (ticker s)
                   (map ticker (scan_loop fetch tickers period interval [])))
      by now apply in_map.
    rewrite Hm in Ht. now apply filter_In in Ht.
  - unfold scan_ticker, scan_ticker_body in Hs.
    destruct (fetch (ticker s) period interval) as [df|] eqn:Hf';
      [|discriminate].
    exists df. split; [reflexivity|].
    unfold scan_ticker, scan_ticker_body. now rewrite Hf'.
Qed.

Lemma oversold_row_rsi (tk period interval : string) (df : DataFrame)
  (s : Signals) :
  fetch tk period interval = Ok df ->
  scan_ticker fetch tk period interval = Some s ->
  rsi_signal s = Oversold ->
  exists x, rsi_value s = Some (Fin x) /\ 0 <= x /\ x < 30.
Proof.
  intros Hf Hs Hover.
  destruct (scan_ticker_values fetch tk period interval df s Hf Hs)
    as (_ & _ & _ & _ & (v & Hv & Hrv)).
  destruct (scan_ticker_fields fetch tk period interval df s Hf Hs)
    as (_ & _ & _ & _ & Hsig & _).
  pose proof (iloc_neg_nth_error _ _ _ Hv) as Hnth.
  destruct (rsi_never_infinite _ _ _ _ Hnth) as [Hinf Hrange].
  unfold check_rsi_signal, default_rsi_period in Hsig.
  destruct (calculate_rsi (col_Close df) 14) as [|v0 rest];
    [rewrite Hover in Hsig; discriminate|].
  rewrite Hv, Hover in Hsig. cbn [bind] in Hsig.
  destruct (is_nan v) eqn:En; [discriminate|].
  destruct (fltb v (Fin 30)) eqn:E30.
  - destruct v as [x| | |]; try discriminate.
    exists x. cbn [fltb] in E30. apply Qltb_lt in E30.
    destruct (Hrange x eq_refl) as [H0 _]. now repeat split.
  - destruct (fgtb v (Fin 70)); discriminate.
Qed.

Lemma golden_cross_row (df : DataFrame) :
  check_ma_crossover df = Ok GoldenCross ->
  (200 <= df_len df)%nat
  /\ exists i, in_last_five df i
               /\ nth_error (sma_crossover df) i = Some 1%Z.
Proof.
  unfold check_ma_crossover.
  destruct (df_len df <? 200)%nat eqn:E; [discriminate|].
  apply Nat.ltb_ge in E. rewrite recent_golden_cross. cbn [bind].
  destruct (any (tail 5 (map (fun c => (c =? 1)%Z) (sma_crossover df))))
    eqn:Hg.
  - intros _. split; [exact E|]. now apply golden_in_window.
  - rewrite recent_death_cross. cbn [bind].
    destruct (any (tail 5 (map (fun c => (c =? -1)%Z) (sma_crossover df))));
      intros H; discriminate H.
Qed.

Variable sort_rows :
  (Signals -> F64) -> bool -> list Signals -> list Signals.

(** X22.  Every row that [find_oversold_stocks] returns belongs to one of
    the requested tickers, is marked 'oversold' and carries an RSI value
    that is a number in [0, 30); the rows come back in ascending order of
    that value.  The function returns for every ticker list. *)
Theorem find_oversold_stocks_rows (tickers : list string) :
  sort_rows_contract sort_rows ->
  exists out : list Signals,
    find_oversold_stocks fetch sort_rows tickers = Ok out
    /\ Forall (fun s =>
                 In (ticker s) tickers
                 /\ rsi_signal s = Oversold
                 /\ exists x, rsi_value s = Some (Fin x) /\ 0 <= x /\ x < 30)
              out
    /\ Sorted (fun a b => fleb (rsi_value_cell a) (rsi_value_cell b) = true)
              out.
Proof.
  intros Hsort. unfold find_oversold_stocks.
  rewrite scan_multiple_tickers_ok. cbn [bind].
  set (rows := scan_loop fetch tickers "1y" "1d" []).
  assert (Hrows : forall s, In s (filter (fun s => is_oversold (rsi_signal s))
                                         rows) ->
                  In (ticker s) tickers
                  /\ rsi_signal s = Oversold
                  /\ exists x, rsi_value s = Some (Fin x) /\ 0 <= x /\ x < 30).
  { intros s Hin. apply filter_In in Hin. destruct Hin as [Hin Hov].
    destruct (scan_row_origin tickers "1y" "1d" s Hin)
      as (Ht & df & Hf & Hs).
    assert (Hover : rsi_signal s = Oversold)
      by (destruct (rsi_signal s); try discriminate; reflexivity).
    split; [exact Ht|]. split; [exact Hover|].
    exact (oversold_row_rsi _ _ _ df s Hf Hs Hover). }
  destruct rows as [|r rows'] eqn:Er.
  { exists []. repeat split; constructor. }
  rewrite <- Er in *.
  destruct (Hsort rsi_value_cell true
              (filter (fun s => is_oversold (rsi_signal s)) rows))
    as [Hperm Hsorted].
  destruct (existsb _ rows) eqn:Hcol.
  - eexists. split; [reflexivity|]. split.
    + apply Forall_forall. intros s Hin. apply Hrows.
      eapply Permutation_in; [apply Permutation_sym; exact Hperm|exact Hin].
    + apply Hsorted. apply Forall_forall. intros s Hin.
      destruct (Hrows s Hin) as (_ & _ & x & Hx & _).
      exists x. unfold rsi_value_cell. now rewrite Hx.
  - eexists. split; [reflexivity|].
    assert (Hnone : forall s,
              In s (filter (fun s => is_oversold (rsi_signal s)) rows) ->
              False).
    { intros s Hin. destruct (Hrows s Hin) as (_ & _ & x & Hx & _).
      apply filter_In in Hin. destruct Hin as [Hin _].
      assert (Hex : existsb (fun s => match rsi_value s with
                                      | Some _ => true | None => false end)
                      rows = true).
      { apply existsb_exists. exists s. split; [exact Hin|]. now rewrite Hx. }
      rewrite Hex in Hcol. discriminate. }
    destruct (filter (fun s => is_oversold (rsi_signal s)) rows) as [|s l].
    + split; constructor.
    + exfalso. apply (Hnone s). now left.
Qed.

(** X23.  Every row that [find_golden_cross_stocks] returns belongs to one
    of the requested tickers and was computed from a series of at least 200
    bars in which the 50-bar average crossed above the 200-bar average on
    one of the last five bars; the rows keep the order of the scan.  The
    function returns for every ticker list. *)
Theorem find_golden_cross_stocks_rows (tickers : list string) :
  exists rows out : list Signals,
    scan_multiple_tickers fetch tickers "1y" "1d" = Ok rows
    /\ find_golden_cross_stocks fetch tickers = Ok out
    /\ out = filter (fun s => is_golden_cross (ma_crossover s)) rows
    /\ Forall (fun s =>
                 In (ticker s) tickers
                 /\ ma_crossover s = GoldenCross
                 /\ exists df,
                      fetch (ticker s) "1y" "1d" = Ok df
                      /\ (200 <= df_len df)%nat
                      /\ exists i, in_last_five df i
                                   /\ nth_error (sma_crossover df) i
                                      = Some 1%Z)
              out.
Proof.
  unfold find_golden_cross_stocks.
  rewrite scan_multiple_tickers_ok. cbn [bind].
  set (rows := scan_loop fetch tickers "1y" "1d" []).
  exists rows, (filter (fun s => is_golden_cross (ma_crossover s)) rows).
  split; [reflexivity|]. split; [now destruct rows|]. split; [reflexivity|].
  apply Forall_forall. intros s Hin.
  apply filter_In in Hin. destruct Hin as [Hin Hg].
  destruct (scan_row_origin tickers "1y" "1d" s Hin) as (Ht & df & Hf & Hs).
  assert (Hgold : ma_crossover s = GoldenCross)
    by (destruct (ma_crossover s); try discriminate; reflexivity).
  split; [exact Ht|]. split; [exact Hgold|].
  exists df. split; [exact Hf|].
  destruct (scan_ticker_fields fetch _ _ _ df s Hf Hs)
    as (_ & _ & _ & _ & _ & Hcross & _).
  rewrite Hgold in Hcross. now apply golden_cross_row.
Qed.

End CannedScans.

(** A falling, a rising and an unknown ticker: one oversold row. *)
Lemma find_oversold_stocks_rows_witness :
  exists out,
    find_oversold_stocks trend_fetch sort_rows_by_insertion
      ["UPP"; "DWN"; "ZZZ"]%string = Ok out
    /\ map ticker out = ["DWN"]%string
    /\ Forall (fun s => rsi_signal s = Oversold) out.
Proof.
  destruct (find_oversold_stocks_rows trend_fetch sort_rows_by_insertion
              ["UPP"; "DWN"; "ZZZ"]%string sort_rows_by_insertion_contract)
    as (out & Hout & Hall & _).
  exists out. split; [exact Hout|]. split.
  - vm_compute in Hout. injection Hout as <-. reflexivity.
  - apply Forall_forall. intros s Hin.
    exact (proj1 (proj2 (proj1 (Forall_forall _ _) Hall s Hin))).
Defined.

Lemma find_golden_cross_stocks_rows_witness :
  exists out,
    find_golden_cross_stocks trend_fetch ["UPP"; "BRK"]%string = Ok out
    /\ map ticker out = ["BRK"]%string.
Proof.
  destruct (find_golden_cross_stocks_rows trend_fetch ["UPP"; "BRK"]%string)
    as (rows & out & _ & Hout & _).
  exists out. split; [exact Hout|].
  vm_compute in Hout. injection Hout as <-. reflexivity.
Defined.

(** ** Time to expiration and prices at expiry *)

(** X24.  Whenever [calculate_time_to_expiration] returns, the time is at
    least 0.001 years, hence positive: for an expiry at least one day ahead
    it is the number of days over 365, and for an expiry today or in the
    past it is the floor 0.001.  A string that is not a date fails with the
    parser's exception. *)
Theorem time_to_expiration_floor (strptime_date : string -> pyres Z)
  (today : Z) (expiration_date : expiration_arg) (T : Q) :
  calculate_time_to_expiration strptime_date today expiration_date = Ok T ->
  (1 # 1000) <= T
  /\ 0 < T
  /\ Qle_bool T 0 = false
  /\ exists day : Z,
       match expiration_date with
       | DateString s => strptime_date s = Ok day
       | DateValue d => d = day
       end
       /\ ((1 <= day - today)%Z -> T == inject_Z (day - today) / 365)
       /\ ((day - today <= 0)%Z -> T == 1 # 1000).
Proof.
  unfold calculate_time_to_expiration.
  set (parsed := match expiration_date with
                 | DateString s => strptime_date s
                 | DateValue day => Ok day
                 end).
  destruct parsed as [day|] eqn:Hp; [|discriminate].
  cbn [bind]. intros H. injection H as <-.
  assert (Hmax : (1 # 1000) <= py_max (inject_Z (day - today) / 365) (1 # 1000)).
  { rewrite py_max_Qmax. apply Q.le_max_r. }
  split; [exact Hmax|]. split; [lra|].
  split.
  { destruct (Qle_bool _ 0) eqn:E; [|reflexivity].
    apply Qle_bool_iff in E. lra. }
  exists day. split.
  { unfold parsed in Hp. destruct expiration_date; [exact Hp|].
    now injection Hp. }
  split.
  - intros Hd. rewrite py_max_Qmax. apply Q.max_l.
    apply Qle_shift_div_l; [lra|].
    assert (H1 : 1 <= inject_Z (day - today)).
    { change 1 with (inject_Z 1). now rewrite <- Zle_Qle. }
    lra.
  - intros Hd. rewrite py_max_Qmax. apply Q.max_r.
    assert (H0 : inject_Z (day - today) <= 0).
    { change 0 with (inject_Z 0). now rewrite <- Zle_Qle. }
    apply Qle_shift_div_r; lra.
Qed.

Lemma time_to_expiration_floor_witness :
  calculate_time_to_expiration (fun _ => Raise ValueError) 738000
    (DateValue 738000) = Ok (1 # 1000)
  /\ Qle_bool (1 # 1000) 0 = false.
Proof.
  assert (E : calculate_time_to_expiration (fun _ => Raise ValueError) 738000
                (DateValue 738000) = Ok (1 # 1000))
    by (vm_compute; reflexivity).
  destruct (time_to_expiration_floor _ _ _ _ E) as (_ & _ & Hbranch & _).
  split; [exact E|exact Hbranch].
Defined.

Section ExpiryPrices.

Variables np_log np_sqrt np_exp norm_cdf : F64 -> F64.

(** X25.  At or after expiry ([T <= 0]) both pricing functions return a
    non-negative number, at most one of the two is non-zero, and the call
    price minus the put price is the spot minus the strike. *)
Theorem put_call_parity_at_expiry (S K T r sigma : Q) :
  T <= 0 ->
  exists c p : Q,
    black_scholes_call np_log np_sqrt np_exp norm_cdf S K T r sigma
    = Ok (Fin c)
    /\ black_scholes_put np_log np_sqrt np_exp norm_cdf S K T r sigma
       = Ok (Fin p)
    /\ 0 <= c /\ 0 <= p
    /\ (c == 0 \/ p == 0)
    /\ c - p == S - K.
Proof.
  intros HT. apply Qle_bool_iff in HT.
  unfold black_scholes_call, black_scholes_put. rewrite HT.
  eexists _, _. split; [reflexivity|]. split; [reflexivity|].
  rewrite !Qred_correct. unfold py_max.
  destruct (Qltb (S - K) 0) eqn:E1; destruct (Qltb (K - S) 0) eqn:E2;
    try (apply Qltb_lt in E1); try (apply Qltb_lt in E2);
    try (apply Qltb_ge in E1); try (apply Qltb_ge in E2);
    repeat split; try lra; try (left; lra); try (right; lra).
Qed.

End ExpiryPrices.

Lemma put_call_parity_at_expiry_witness :
  black_scholes_call (fun x => x) (fun x => x) (fun x => x) (fun x => x)
    110 100 0 (1 # 20) (1 # 5) = Ok (Fin 10)
  /\ black_scholes_put (fun x => x) (fun x => x) (fun x => x) (fun x => x)
       110 100 0 (1 # 20) (1 # 5) = Ok (Fin 0).
Proof.
  destruct (put_call_parity_at_expiry (fun x => x) (fun x => x) (fun x => x)
              (fun x => x) 110 100 0 (1 # 20) (1 # 5))
    as (c & p & Hc & Hp & _).
  - discriminate.
  - split; reflexivity.
Defined.

(** ** RSI on trending prices *)

Lemma window_at_In (w : nat) (xs : list Q) (i : nat) (x : Q) :
  In x (window_at w xs i) ->
  exists j, (i + 1 - w <= j)%nat /\ nth_error xs j = Some x.
Proof.
  unfold window_at. intros H. apply in_firstn in H.
  apply In_nth_error in H. destruct H as [m Hm].
  rewrite nth_error_skipn in Hm.
  exists (i + 1 - w + m)%nat. split; [lia|exact Hm].
Qed.

Lemma diff_from_nth (prev : Q) (rest : list Q) (j : nat) (a b : Q) :
  nth_error (prev :: rest) j = Some a ->
  nth_error rest j = Some b ->
  nth_error (diff_from prev rest) j = Some (Some (Qred (b - a))).
Proof.
  revert prev j. induction rest as [|x rest IH]; intros prev j Ha Hb.
  - destruct j; discriminate.
  - destruct j as [|j]; cbn in *.
    + injection Ha as ->. injection Hb as ->. reflexivity.
    + now apply IH.
Qed.

Lemma diff_nth_S (data : list Q) (j : nat) (a b : Q) :
  nth_error data j = Some a ->
  nth_error data (S j) = Some b ->
  nth_error (diff data) (S j) = Some (Some (Qred (b - a))).
Proof.
  destruct data as [|x rest]; [destruct j; discriminate|].
  intros Ha Hb. cbn [diff nth_error] in *. now apply diff_from_nth.
Qed.

(** A change between neighbours, read off the differenced series. *)
Lemma diff_nth_change (data : list Q) (j : nat) (d : option Q) :
  (1 <= j)%nat ->
  nth_error (diff data) j = Some d ->
  exists a b, nth_error data (j - 1) = Some a /\ nth_error data j = Some b
              /\ d = Some (Qred (b - a)).
Proof.
  intros Hj Hd. destruct j as [|j]; [lia|].
  replace (S j - 1)%nat with j by lia.
  assert (Hlen : (S j < length data)%nat).
  { rewrite <- diff_length. apply nth_error_Some. congruence. }
  destruct (nth_error data j) as [a|] eqn:Ha;
    [|apply nth_error_None in Ha; lia].
  destruct (nth_error data (S j)) as [b|] eqn:Hb;
    [|apply nth_error_None in Hb; lia].
  exists a, b. split; [reflexivity|]. split; [reflexivity|].
  rewrite (diff_nth_S data j a b Ha Hb) in Hd. now injection Hd.
Qed.

Lemma Qsum_pos (xs : list Q) :
  xs <> [] -> Forall (fun x => 0 < x) xs -> 0 < Qsum xs.
Proof.
  intros Hne H. destruct H as [|x xs Hx Hxs]; [contradiction|].
  cbn [Qsum fold_right]. fold (Qsum xs).
  assert (H0 : 0 <= Qsum xs).
  { apply Qsum_nonneg. apply Forall_forall. intros y Hy.
    apply Qlt_le_weak. exact (proj1 (Forall_forall _ _) Hxs y Hy). }
  lra.
Qed.

Lemma Qsum_zero (xs : list Q) :
  Forall (fun x => x == 0) xs -> Qsum xs == 0.
Proof.
  induction 1 as [|x xs Hx _ IH]; [reflexivity|].
  cbn [Qsum fold_right]. fold (Qsum xs). lra.
Qed.

(** The RSI value at an index past the warm-up, from the two windows. *)
Lemma calculate_rsi_nth (data : list Q) (period i : nat) :
  (1 <= period)%nat -> (period <= i + 1)%nat -> (i < length data)%nat ->
  let n := inject_Z (Z.of_nat period) in
  nth_error (calculate_rsi data period) i
  = Some (rsi_of_rs
            (fdiv (fin (Qsum (window_at period (map gain_of (diff data)) i) / n))
                  (fin (Qsum (window_at period (map loss_of (diff data)) i) / n)))).
Proof.
  intros Hp Hi Hlen n. unfold calculate_rsi, avg_gain, avg_loss.
  assert (E0 : (period =? 0)%nat = false) by (apply Nat.eqb_neq; lia).
  assert (E1 : (i + 1 <? period)%nat = false) by (apply Nat.ltb_ge; lia).
  rewrite nth_error_map, map2_nth_error.
  rewrite !rolling_nth by (rewrite length_map, diff_length; exact Hlen).
  rewrite E0, E1. cbn [orb option_map].
  assert (Hmean : forall xs : list Q, length xs = length data ->
            series_mean (window_at period xs i)
            = fin (Qsum (window_at period xs i) / n)).
  { intros xs Hxs.
    pose proof (window_at_length period xs i Hi) as Hw.
    rewrite Hxs in Hw. specialize (Hw Hlen).
    unfold series_mean. destruct (window_at period xs i) as [|y w];
      [simpl in Hw; lia|]. now rewrite Hw. }
  rewrite !Hmean by (rewrite length_map; apply diff_length).
  reflexivity.
Qed.

Section TrendingPrices.

Variable data : list Q.
Variables period i : nat.
Hypothesis period_positive : (1 <= period)%nat.
Hypothesis past_warm_up : (period <= i)%nat.
Hypothesis in_range : (i < length data)%nat.

Lemma window_changes (f : option Q -> Q) (x : Q) :
  In x (window_at period (map f (diff data)) i) ->
  exists a b j,
    nth_error data j = Some a /\ nth_error data (S j) = Some b
    /\ x = f (Some (Qred (b - a))).
Proof.
  intros Hin. apply window_at_In in Hin. destruct Hin as (j & Hj & Hx).
  rewrite nth_error_map in Hx.
  destruct (nth_error (diff data) j) as [d|] eqn:Hd; [|discriminate].
  injection Hx as <-.
  destruct (diff_nth_change data j d) as (a & b & Ha & Hb & ->);
    [lia|exact Hd|].
  exists a, b, (j - 1)%nat. replace (S (j - 1)) with j by lia.
  now repeat split.
Qed.

Lemma window_not_empty (f : option Q -> Q) :
  window_at period (map f (diff data)) i <> [].
Proof.
  intros E. apply (f_equal (@length Q)) in E.
  rewrite window_at_length in E;
    [simpl in E; lia|lia|rewrite length_map, diff_length; exact in_range].
Qed.

Lemma rsi_on_rising_prices :
  (forall j a b, nth_error data j = Some a -> nth_error data (S j) = Some b ->
                 a < b) ->
  nth_error (calculate_rsi data period) i = Some (Fin 100).
Proof.
  intros Hup.
  rewrite calculate_rsi_nth by (assumption || lia).
  set (n := inject_Z (Z.of_nat period)).
  assert (Hn : 0 < n).
  { unfold n. change 0 with (inject_Z 0). rewrite <- Zlt_Qlt. lia. }
  assert (Hg : 0 < Qsum (window_at period (map gain_of (diff data)) i)).
  { apply Qsum_pos; [apply window_not_empty|].
    apply Forall_forall. intros x Hx.
    destruct (window_changes gain_of x Hx) as (a & b & j & Ha & Hb & ->).
    pose proof (Hup j a b Ha Hb) as Hlt. cbn [gain_of].
    assert (E : Qltb 0 (Qred (b - a)) = true)
      by (apply Qltb_lt; rewrite Qred_correct; lra).
    rewrite E, Qred_correct. lra. }
  assert (Hl : Qsum (window_at period (map loss_of (diff data)) i) == 0).
  { apply Qsum_zero. apply Forall_forall. intros x Hx.
    destruct (window_changes loss_of x Hx) as (a & b & j & Ha & Hb & ->).
    pose proof (Hup j a b Ha Hb) as Hlt. cbn [loss_of].
    assert (E : Qltb (Qred (b - a)) 0 = false)
      by (apply Qltb_ge; rewrite Qred_correct; lra).
    rewrite E. reflexivity. }
  f_equal.
  assert (Hl0 : fin (Qsum (window_at period (map loss_of (diff data)) i) / n)
                = fin 0).
  { apply fin_eq. rewrite Hl. field. lra. }
  rewrite Hl0. unfold fin at 1. cbn [fdiv].
  change (Qeq_bool (Qred 0) 0) with true. cbv iota.
  set (G := Qsum (window_at period (map gain_of (diff data)) i) / n).
  assert (HG : 0 < Qred G).
  { rewrite Qred_correct. unfold G. apply Qlt_shift_div_l; lra. }
  assert (E1 : Qeq_bool (Qred G) 0 = false)
    by (apply Qeq_bool_false_iff; lra).
  assert (E2 : Qltb 0 (Qred G) = true) by (apply Qltb_lt; exact HG).
  rewrite E1, E2. reflexivity.
Qed.

Lemma rsi_on_falling_prices :
  (forall j a b, nth_error data j = Some a -> nth_error data (S j) = Some b ->
                 b < a) ->
  nth_error (calculate_rsi data period) i = Some (Fin 0).
Proof.
  intros Hdown.
  rewrite calculate_rsi_nth by (assumption || lia).
  set (n := inject_Z (Z.of_nat period)).
  assert (Hn : 0 < n).
  { unfold n. change 0 with (inject_Z 0). rewrite <- Zlt_Qlt. lia. }
  assert (Hl : 0 < Qsum (window_at period (map loss_of (diff data)) i)).
  { apply Qsum_pos; [apply window_not_empty|].
    apply Forall_forall. intros x Hx.
    destruct (window_changes loss_of x Hx) as (a & b & j & Ha & Hb & ->).
    pose proof (Hdown j a b Ha Hb) as Hlt. cbn [loss_of].
    assert (E : Qltb (Qred (b - a)) 0 = true)
      by (apply Qltb_lt; rewrite Qred_correct; lra).
    rewrite E, !Qred_correct. lra. }
  assert (Hg : Qsum (window_at period (map gain_of (diff data)) i) == 0).
  { apply Qsum_zero. apply Forall_forall. intros x Hx.
    destruct (window_changes gain_of x Hx) as (a & b & j & Ha & Hb & ->).
    pose proof (Hdown j a b Ha Hb) as Hlt. cbn [gain_of].
    assert (E : Qltb 0 (Qred (b - a)) = false)
      by (apply Qltb_ge; rewrite Qred_correct; lra).
    rewrite E. reflexivity. }
  f_equal.
  assert (Hg0 : fin (Qsum (window_at period (map gain_of (diff data)) i) / n)
                = fin 0).
  { apply fin_eq. rewrite Hg. field. lra. }
  rewrite Hg0.
  set (L := Qsum (window_at period (map loss_of (diff data)) i) / n).
  assert (HL : 0 < Qred L).
  { rewrite Qred_correct. unfold L. apply Qlt_shift_div_l; lra. }
  unfold fin. cbn [fdiv].
  assert (E1 : Qeq_bool (Qred L) 0 = false)
    by (apply Qeq_bool_false_iff; lra).
  rewrite E1.
  assert (Hz : fin (Qred 0 / Qred L) = fin 0).
  { apply fin_eq. change (Qred 0) with 0. field. lra. }
  rewrite Hz. reflexivity.
Qed.

End TrendingPrices.

(** X26.  On closes that rise from every bar to the next, the RSI is
    exactly 100 at every index from [period] on (no loss in any window);
    on closes that fall from every bar to the next it is exactly 0.  With
    at least 15 bars [check_rsi_signal] then answers 'overbought' on the
    rising series and 'oversold' on the falling one, for any thresholds
    with [0 < oversold <= 100] and [overbought < 100]. *)
Theorem check_rsi_signal_on_trends (df : DataFrame) (oversold overbought : Q) :
  (15 <= df_len df)%nat ->
  0 < oversold -> oversold <= 100 -> overbought < 100 ->
  ((forall j a b, nth_error (col_Close df) j = Some a ->
                  nth_error (col_Close df) (S j) = Some b -> a < b) ->
   (forall i, (14 <= i < df_len df)%nat ->
      nth_error (calculate_rsi (col_Close df) 14) i = Some (Fin 100))
   /\ check_rsi_signal df oversold overbought = Ok Overbought)
  /\ ((forall j a b, nth_error (col_Close df) j = Some a ->
                     nth_error (col_Close df) (S j) = Some b -> b < a) ->
      (forall i, (14 <= i < df_len df)%nat ->
         nth_error (calculate_rsi (col_Close df) 14) i = Some (Fin 0))
      /\ check_rsi_signal df oversold overbought = Ok Oversold).
Proof.
  intros Hlen Hos0 Hos Hob.
  assert (Hlast : forall v,
            nth_error (calculate_rsi (col_Close df) 14) (df_len df - 1)
            = Some v ->
            iloc_neg (calculate_rsi (col_Close df) 14) 1 = Ok v).
  { intros v Hv. unfold iloc_neg.
    rewrite calculate_rsi_length, col_Close_length.
    destruct (df_len df <? 1)%nat eqn:E; [apply Nat.ltb_lt in E; lia|].
    now rewrite Hv. }
  assert (Hne : calculate_rsi (col_Close df) 14 <> []).
  { intros E. apply (f_equal (@length F64)) in E.
    rewrite calculate_rsi_length, col_Close_length in E. simpl in E. lia. }
  split; intros Htrend.
  - assert (Hall : forall i, (14 <= i < df_len df)%nat ->
              nth_error (calculate_rsi (col_Close df) 14) i = Some (Fin 100)).
    { intros i Hi. apply rsi_on_rising_prices; try lia;
        [rewrite col_Close_length; lia|exact Htrend]. }
    split; [exact Hall|].
    unfold check_rsi_signal, default_rsi_period.
    destruct (calculate_rsi (col_Close df) 14) as [|v0 rest] eqn:Er;
      [contradiction|].
    rewrite (Hlast (Fin 100)) by (apply Hall; lia).
    cbn [bind is_nan fltb fgtb].
    assert (E1 : Qltb 100 oversold = false) by (apply Qltb_ge; lra).
    assert (E2 : Qltb overbought 100 = true) by (apply Qltb_lt; lra).
    now rewrite E1, E2.
  - assert (Hall : forall i, (14 <= i < df_len df)%nat ->
              nth_error (calculate_rsi (col_Close df) 14) i = Some (Fin 0)).
    { intros i Hi. apply rsi_on_falling_prices; try lia;
        [rewrite col_Close_length; lia|exact Htrend]. }
    split; [exact Hall|].
    unfold check_rsi_signal, default_rsi_period.
    destruct (calculate_rsi (col_Close df) 14) as [|v0 rest] eqn:Er;
      [contradiction|].
    rewrite (Hlast (Fin 0)) by (apply Hall; lia).
    cbn [bind is_nan fltb].
    assert (E1 : Qltb 0 oversold = true) by (apply Qltb_lt; lra).
    now rewrite E1.
Qed.

Lemma rising_frame_closes (j : nat) (a : Q) :
  nth_error (col_Close rising_frame) j = Some a ->
  a = inject_Z (100 + Z.of_nat j).
Proof.
  unfold col_Close, rising_frame. cbn [bars].
  rewrite map_map, nth_error_map, nth_error_seq.
  destruct (j <? 50)%nat; [|discriminate].
  cbn. intros H. now injection H as <-.
Qed.

(** Fifty closes, each a point above the one before. *)
Lemma check_rsi_signal_on_trends_witness :
  check_rsi_signal rising_frame 30 70 = Ok Overbought.
Proof.
  destruct (check_rsi_signal_on_trends rising_frame 30 70) as [Hup _].
  - vm_compute. lia.
  - reflexivity.
  - discriminate.
  - reflexivity.
  - apply Hup. intros j a b Ha Hb.
    apply rising_frame_closes in Ha, Hb. subst a b.
    rewrite <- Zlt_Qlt. lia.
Defined.

(** ** More on consolidation, scores and cross flags *)

Lemma detect_consolidation_nth_warm_up (df : DataFrame) (window : nat)
  (threshold : Q) (i : nat) (b : bool) :
  (i + 1 < window)%nat ->
  nth_error (detect_consolidation df window threshold) i = Some b ->
  b = false.
Proof.
  intros Hw Hb.
  assert (Hi : (i < df_len df)%nat).
  { rewrite <- (detect_consolidation_length df window threshold).
    apply nth_error_Some. congruence. }
  revert Hb. unfold detect_consolidation. cbv zeta.
  assert (HlenH : (i < length (col_High df))%nat)
    by (unfold col_High; rewrite length_map; exact Hi).
  assert (HlenL : (i < length (col_Low df))%nat)
    by (unfold col_Low; rewrite length_map; exact Hi).
  assert (E : (i + 1 <? window)%nat = true) by (apply Nat.ltb_lt; exact Hw).
  rewrite nth_error_map.
  repeat (rewrite ?map2_nth_error, ?(rolling_nth _ _ _ _ HlenH),
            ?(rolling_nth _ _ _ _ HlenL), ?E, ?Bool.orb_true_r).
  cbn. intros H. now injection H.
Qed.

Lemma any_all_false (bs : list bool) :
  (forall b, In b bs -> b = false) -> any bs = false.
Proof.
  intros H. unfold any. apply Bool.not_true_is_false. intros E.
  apply existsb_exists in E. destruct E as (b & Hin & Hb).
  rewrite (H b Hin) in Hb. discriminate.
Qed.

(** X27.  [check_consolidation_breakout] returns on every frame.  It never
    reports a breakout for a ticker that is still consolidating
    (breaking_out implies not in_consolidation), and on fewer than 20 bars,
    where the 20-bar window is never full, both flags are false. *)
Theorem check_consolidation_breakout_flags (df : DataFrame) :
  exists status : ConsolidationStatus,
    check_consolidation_breakout df = Ok status
    /\ (breaking_out status = true -> in_consolidation status = false)
    /\ ((df_len df < 20)%nat ->
        status = {| in_consolidation := false; breaking_out := false |}).
Proof.
  destruct (check_consolidation_breakout_ok df) as [status Hst].
  exists status. split; [exact Hst|].
  unfold check_consolidation_breakout in Hst.
  rewrite detect_consolidation_length in Hst.
  destruct (df_len df <? 2)%nat eqn:E2.
  { injection Hst as <-. split; [discriminate|reflexivity]. }
  destruct (iloc_neg (detect_consolidation df 20 (5 # 100)) 1)
    as [cur|] eqn:Hcur; [|discriminate].
  cbn [bind] in Hst.
  set (was := if (10 <? df_len df)%nat
              then any (iloc_slice_neg (detect_consolidation df 20 (5 # 100))
                          10 1)
              else false) in *.
  split.
  - destruct (was && negb cur && (5 <? df_len df)%nat) eqn:Hb.
    + destruct (iloc_neg (col_Close df) 1); [|discriminate].
      destruct (iloc_neg (col_Close df) 5); [|discriminate].
      cbn [bind] in Hst. injection Hst as <-. cbn [breaking_out in_consolidation].
      intros H. destruct cur; [|reflexivity].
      rewrite Bool.andb_false_r in H. discriminate.
    + cbn [bind] in Hst. injection Hst as <-.
      cbn [breaking_out in_consolidation].
      intros H. destruct cur; [|reflexivity].
      rewrite Bool.andb_false_r in H. discriminate.
  - intros Hshort.
    assert (Hall : forall b, In b (detect_consolidation df 20 (5 # 100)) ->
                             b = false).
    { intros b Hin. apply In_nth_error in Hin. destruct Hin as [i Hi].
      apply (detect_consolidation_nth_warm_up df 20 (5 # 100) i b); [|exact Hi].
      assert (Hlt : (i < df_len df)%nat).
      { rewrite <- (detect_consolidation_length df 20 (5 # 100)).
        apply nth_error_Some. congruence. }
      lia. }
    assert (Hc : cur = false).
    { apply Hall. apply iloc_neg_nth_error in Hcur.
      eapply nth_error_In. exact Hcur. }
    assert (Hw : was = false).
    { unfold was. destruct (10 <? df_len df)%nat; [|reflexivity].
      apply any_all_false. intros b Hin. apply Hall.
      unfold iloc_slice_neg in Hin. eapply in_skipn, in_firstn, Hin. }
    rewrite Hw in Hst. cbn [andb bind] in Hst. injection Hst as <-.
    now rewrite Hc.
Qed.

(** X28.  Every record that [find_breakout_candidates] returns passed the
    candidate filter, so its breakout_score is at least 2 and at most 9,
    and it is the row of one of the scanned tickers. *)
Theorem breakout_score_range
  (fetch : string -> string -> string -> pyres DataFrame)
  (sort_values : (Candidate -> Z) -> bool -> list Candidate -> list Candidate)
  (tickers : list string) (out : list Candidate) (c : Candidate) :
  sort_values_contract sort_values ->
  find_breakout_candidates fetch sort_values tickers = Ok out ->
  In c out ->
  (2 <= breakout_score c <= 9)%Z
  /\ is_candidate (signals c, is_breaking_out c) = true
  /\ In (ticker (signals c)) tickers.
Proof.
  intros Hsort Hout Hin.
  destruct (find_breakout_candidates_ok fetch sort_values tickers Hsort)
    as (out' & E & Hp & _).
  rewrite Hout in E. injection E as <-.
  apply Permutation_sym in Hp. apply (Permutation_in _ Hp) in Hin.
  unfold scored_candidates in Hin.
  apply in_map_iff in Hin. destruct Hin as ([s b] & <- & Hin).
  apply filter_In in Hin. destruct Hin as [Hin Hcand].
  apply in_map_iff in Hin. destruct Hin as (s' & Hs' & Hrow).
  unfold extract_breaking_out in Hs'. injection Hs' as -> <-.
  cbn [with_score signals is_breaking_out breakout_score].
  split; [|split; [exact Hcand|]].
  - unfold is_candidate in Hcand.
    destruct (breaking_out (consolidation s)), (near_52w_high s),
      (volume_surge s), (is_golden_cross (ma_crossover s));
      cbn in Hcand |- *; try discriminate; lia.
  - destruct (scan_loop_rows fetch "1y" "1d" tickers) as [Hm _].
    assert (Ht : In (ticker s)
                   (map ticker (scan_loop fetch tickers "1y" "1d" [])))
      by now apply in_map.
    rewrite Hm in Ht. now apply filter_In in Ht.
Qed.

Lemma breakout_score_range_witness :
  exists c,
    find_breakout_candidates sample_fetch sort_keeping_ties ["BRK"%string]
    = Ok [c]
    /\ (2 <= breakout_score c <= 9)%Z.
Proof.
  pose (c := with_score
               (extract_breaking_out
                  (default
                     (mkSignals "" 0 None false Neutral NoCross false
                        (mkConsolidation false false) None None None)
                     (scan_ticker sample_fetch "BRK" "1y" "1d")))).
  assert (Hrun : find_breakout_candidates sample_fetch sort_keeping_ties
                   ["BRK"%string] = Ok [c]) by (vm_compute; reflexivity).
  exists c. split; [exact Hrun|].
  exact (proj1 (breakout_score_range sample_fetch sort_keeping_ties
                  ["BRK"%string] [c] c sort_keeping_ties_contract Hrun
                  (or_introl eq_refl))).
Defined.

(** X29.  The frame that [identify_golden_death_cross] returns has the
    rows of its input and the two flag columns, each with one flag per row;
    no row carries both a golden-cross and a death-cross flag. *)
Theorem identify_golden_death_cross_flags (df : DataFrame) :
  exists golden death : list bool,
    bars (identify_golden_death_cross df) = bars df
    /\ get_column "Golden_Cross" (columns (identify_golden_death_cross df))
       = Ok (BoolCol golden)
    /\ get_column "Death_Cross" (columns (identify_golden_death_cross df))
       = Ok (BoolCol death)
    /\ length golden = df_len df
    /\ length death = df_len df
    /\ forall i, nth_error golden i = Some true ->
                 nth_error death i = Some false.
Proof.
  exists (map (fun c => (c =? 1)%Z) (sma_crossover df)),
         (map (fun c => (c =? -1)%Z) (sma_crossover df)).
  unfold identify_golden_death_cross, df_set. cbn [bars columns].
  split; [reflexivity|].
  split; [rewrite get_set_column_ne by discriminate;
          apply get_set_column_eq|].
  split; [apply get_set_column_eq|].
  rewrite !length_map, sma_crossover_length.
  split; [reflexivity|]. split; [reflexivity|].
  intros i. rewrite !nth_error_map.
  destruct (nth_error (sma_crossover df) i) as [c|]; [|discriminate].
  cbn [option_map]. intros H. injection H as H.
  apply Z.eqb_eq in H. subst c. reflexivity.
Qed.
